(** * ProblemHunt: bearer-token authorization and the resource handlers

    A shallow embedding of the Python Azure Functions back end:

    - [shared/auth.py]   (extract_token, validate_jwt, get_user_id_from_token,
                          authenticate_request),
    - [utils.py]         (get_authenticated_user_id, validate_required,
                          parse_budget_value, parse_requirements),
    - [cosmos.py]        (MockContainer, the in-memory store the handlers run
                          against),
    - [handlers/*.py]    (upvote_problem, remove_upvote, get_problems,
                          get_user_problems, create_problem, update_problem,
                          delete_problem),
    - [WalletById], [GetProblems] (the posts listing) and [PythonFunction]
      (the comments endpoint) entry points.

    Python values are an inductive type, dictionaries are association lists in
    insertion order, exceptions are an explicit sum, and the containers are
    threaded through a state-and-exception monad that also logs every store
    call.  Strings are modelled over the ASCII range: a character above code
    127 is neither white space, nor a digit, nor a cased letter.  Numbers are
    integers; JSON floats are outside the model. *)

From Stdlib Require Import ZArith List String Ascii Bool Lia Sorting.
From stdpp Require Import base strings gmap.
Import ListNotations.
Local Open Scope string_scope.
Local Open Scope Z_scope.

(** ** Python values and the built-ins the handlers use *)

Module Py.

#[local] Set Warnings "-register-all".

Inductive pyval : Type :=
| PNone
| PBool (b : bool)
| PInt (n : Z)
| PStr (s : string)
| PList (xs : list pyval)
| PDict (kvs : list (string * pyval)).

(** A [dict] with string keys, in insertion order. *)
Definition pydict : Type := list (string * pyval).

Fixpoint dict_lookup (d : pydict) (k : string) : option pyval :=
  match d with
  | [] => None
  | (k', v) :: r => if String.eqb k' k then Some v else dict_lookup r k
  end.

(** [k in d] *)
Definition dict_has (d : pydict) (k : string) : bool :=
  match dict_lookup d k with Some _ => true | None => false end.

(** [d.get(k, dflt)] *)
Definition dict_get_default (d : pydict) (k : string) (dflt : pyval) : pyval :=
  match dict_lookup d k with Some v => v | None => dflt end.

(** [d.get(k)] *)
Definition dict_get (d : pydict) (k : string) : pyval :=
  dict_get_default d k PNone.

(** [d[k] = v]: an existing key keeps its position, a new one goes last. *)
Fixpoint dict_set (d : pydict) (k : string) (v : pyval) : pydict :=
  match d with
  | [] => [(k, v)]
  | (k', v') :: r =>
      if String.eqb k' k then (k, v) :: r else (k', v') :: dict_set r k v
  end.

(** Truth value of an object: [bool(v)]. *)
Definition truthy (v : pyval) : bool :=
  match v with
  | PNone => false
  | PBool b => b
  | PInt n => negb (n =? 0)
  | PStr s => negb (String.eqb s "")
  | PList xs => match xs with [] => false | _ => true end
  | PDict kvs => match kvs with [] => false | _ => true end
  end.

Definition bool_to_Z (b : bool) : Z := if b then 1 else 0.

(** [a == b].  Booleans compare as the integers 0 and 1; dictionaries compare
    regardless of order. *)
Fixpoint py_eqb (a b : pyval) : bool :=
  match a, b with
  | PNone, PNone => true
  | PBool x, PBool y => Bool.eqb x y
  | PBool x, PInt n => bool_to_Z x =? n
  | PInt n, PBool y => n =? bool_to_Z y
  | PInt n, PInt m => n =? m
  | PStr s, PStr t => String.eqb s t
  | PList xs, PList ys =>
      (fix go (xs ys : list pyval) {struct xs} : bool :=
         match xs, ys with
         | [], [] => true
         | x :: xs', y :: ys' => py_eqb x y && go xs' ys'
         | _, _ => false
         end) xs ys
  | PDict kx, PDict ky =>
      Nat.eqb (List.length kx) (List.length ky) &&
      (fix go (kx : list (string * pyval)) {struct kx} : bool :=
         match kx with
         | [] => true
         | (k, v) :: r =>
             match dict_lookup ky k with
             | Some w => py_eqb v w && go r
             | None => false
             end
         end) kx
  | _, _ => false
  end.

(** [v in xs] for a list. *)
Definition py_in_list (v : pyval) (xs : list pyval) : bool :=
  existsb (py_eqb v) xs.

(** *** Characters

    A [str] is held as its UTF-8 encoding, a [string] of bytes.  Equality,
    order, concatenation, prefixes and substrings of strings are those of
    their encodings.  White space is recognised on the encoding, below; the
    case and the decimal value of characters outside ASCII are left to the
    platform (see [Runtime]). *)

Definition code (c : ascii) : N := N_of_ascii c.

(** Every character of [s] is an ASCII character. *)
Fixpoint is_ascii (s : string) : bool :=
  match s with
  | EmptyString => true
  | String c r => (code c <? 128)%N && is_ascii r
  end.

(** [str.isspace] on the ASCII range: TAB, LF, VT, FF, CR, the four
    separators 0x1c..0x1f and the space. *)
Definition is_space (c : ascii) : bool :=
  let n := code c in
  ((9 <=? n) && (n <=? 13) || (28 <=? n) && (n <=? 32))%N.

(** The three-byte white-space characters: U+1680 (E1 9A 80), U+2000 to
    U+200A, U+2028, U+2029 and U+202F (E2 80 80..8A, A8, A9, AF), U+205F
    (E2 81 9F) and U+3000 (E3 80 80). *)
Definition wide_space (c d e : N) : bool :=
  ((c =? 225) && (d =? 154) && (e =? 128)
   || (c =? 226) && (d =? 128)
      && ((128 <=? e) && (e <=? 138) || (e =? 168) || (e =? 169) || (e =? 175))
   || (c =? 226) && (d =? 129) && (e =? 159)
   || (c =? 227) && (d =? 128) && (e =? 128))%N.

(** The width in bytes of the white-space character [s] begins with, [0]
    when it begins with none: the characters [str.isspace] accepts, which
    are the ASCII ones, U+0085 and U+00A0 (C2 85, C2 A0) and the
    three-byte ones. *)
Definition space_width (s : string) : nat :=
  match s with
  | EmptyString => 0
  | String c r =>
      if is_space c then 1
      else
        match r with
        | EmptyString => 0
        | String d r' =>
            if (code c =? 194)%N then
              if ((code d =? 133) || (code d =? 160))%N then 2 else 0
            else
              match r' with
              | EmptyString => 0
              | String e _ =>
                  if wide_space (code c) (code d) (code e) then 3 else 0
              end
        end
  end.

(** A string cut at its white space: every white-space character whole,
    and the bytes between them one by one.  [skip] counts the bytes of the
    white-space character being read, [unit], still to take. *)
Fixpoint units_from (skip : nat) (unit : string) (s : string) : list string :=
  match s with
  | EmptyString =>
      match unit with
      | EmptyString => []
      | _ => [unit]
      end
  | String c r =>
      match skip with
      | S O => (unit ++ String c EmptyString) :: units_from O EmptyString r
      | S k => units_from k (unit ++ String c EmptyString) r
      | O =>
          match space_width s with
          | S (S k) => units_from (S k) (String c EmptyString) r
          | _ => String c EmptyString :: units_from O EmptyString r
          end
      end
  end.

Definition units (s : string) : list string := units_from O EmptyString s.

(** A unit that is a white-space character. *)
Definition is_white (u : string) : bool := negb (Nat.eqb (space_width u) 0).

(** The white space of C, which [int] skips around an ASCII literal: TAB,
    LF, VT, FF, CR and the space. *)
Definition is_c_space (c : ascii) : bool :=
  let n := code c in
  ((9 <=? n) && (n <=? 13) || (n =? 32))%N.

Definition is_digit (c : ascii) : bool :=
  let n := code c in ((48 <=? n) && (n <=? 57))%N.

Definition digit_val (c : ascii) : Z := Z.of_N (code c) - 48.

Definition lower_char (c : ascii) : ascii :=
  let n := code c in
  if ((65 <=? n) && (n <=? 90))%N then ascii_of_N (n + 32) else c.

(** *** Strings *)

(** [s.lower()] for an ASCII [s]. *)
Fixpoint lower (s : string) : string :=
  match s with
  | EmptyString => EmptyString
  | String c r => String (lower_char c) (lower r)
  end.

Fixpoint lstrip_units (us : list string) : list string :=
  match us with
  | [] => []
  | u :: r => if is_white u then lstrip_units r else us
  end.

Fixpoint rstrip_units (us : list string) : list string :=
  match us with
  | [] => []
  | u :: r =>
      match rstrip_units r with
      | [] => if is_white u then [] else [u]
      | r' => u :: r'
      end
  end.

(** The string a list of units makes. *)
Definition unsplit (us : list string) : string := String.concat "" us.

(** [s.lstrip()], [s.rstrip()] and [s.strip()] *)
Definition lstrip (s : string) : string := unsplit (lstrip_units (units s)).
Definition rstrip (s : string) : string := unsplit (rstrip_units (units s)).
Definition strip (s : string) : string :=
  unsplit (rstrip_units (lstrip_units (units s))).

(** The maximal runs of units that are not white space.  [cur] is the word
    being read, if any. *)
Fixpoint words (cur : option string) (us : list string) : list string :=
  match us with
  | [] => match cur with Some w => [w] | None => [] end
  | u :: r =>
      if is_white u then
        match cur with
        | Some w => w :: words None r
        | None => words None r
        end
      else
        words (Some (match cur with
                     | Some w => w ++ u
                     | None => u
                     end)) r
  end.

(** [s.split()] *)
Definition split (s : string) : list string := words None (units s).

(** [s.split(sep)] for a one-character separator: the pieces between the
    separators, empty pieces included. *)
Fixpoint split_on_from (sep : ascii) (cur : string) (s : string) : list string :=
  match s with
  | EmptyString => [cur]
  | String c r =>
      if Ascii.eqb c sep then cur :: split_on_from sep EmptyString r
      else split_on_from sep (cur ++ String c EmptyString) r
  end.

Definition split_on (sep : ascii) (s : string) : list string :=
  split_on_from sep EmptyString s.

(** [s.startswith(p)] *)
Definition startswith (s p : string) : bool := String.prefix p s.

(** [s.replace(old, new)] for a non-empty [old]: every occurrence, left to
    right, without overlap.  [skip] counts the characters of a matched
    occurrence still to drop. *)
Fixpoint replace_from (old new : string) (skip : nat) (s : string) : string :=
  match s with
  | EmptyString => EmptyString
  | String c r =>
      match skip with
      | S k => replace_from old new k r
      | O =>
          if String.prefix old s
          then new ++ replace_from old new (Nat.pred (String.length old)) r
          else String c (replace_from old new O r)
      end
  end.

Definition replace (s old new : string) : string :=
  match old with
  | EmptyString => s
  | _ => replace_from old new O s
  end.

(** [x in s] for strings. *)
Fixpoint contains (s x : string) : bool :=
  String.prefix x s ||
  match s with
  | EmptyString => false
  | String _ r => contains r x
  end.

(** [sep.join(xs)] *)
Fixpoint join (sep : string) (xs : list string) : string :=
  match xs with
  | [] => EmptyString
  | [x] => x
  | x :: r => x ++ sep ++ join sep r
  end.

(** *** Integers *)

(** The digits of a decimal literal after the sign: digit groups separated by
    single underscores. *)
Fixpoint digits_from (acc : Z) (after_digit : bool) (s : string) : option Z :=
  match s with
  | EmptyString => if after_digit then Some acc else None
  | String c r =>
      if is_digit c then digits_from (10 * acc + digit_val c) true r
      else if Ascii.eqb c "_" then
        if after_digit then digits_from acc false r else None
      else None
  end.

Fixpoint lstrip_c (s : string) : string :=
  match s with
  | EmptyString => EmptyString
  | String c r => if is_c_space c then lstrip_c r else s
  end.

Fixpoint rstrip_c (s : string) : string :=
  match s with
  | EmptyString => EmptyString
  | String c r =>
      let r' := rstrip_c r in
      if String.eqb r' "" && is_c_space c then EmptyString else String c r'
  end.

(** The value of an ASCII literal given to [int]: white space, an optional
    sign, digits; [None] when the literal is not one. *)
Definition int_of_string (s : string) : option Z :=
  match rstrip_c (lstrip_c s) with
  | String "-" r => option_map Z.opp (digits_from 0 false r)
  | String "+" r => digits_from 0 false r
  | t => digits_from 0 false t
  end.

(** The number of digits of a literal. *)
Fixpoint count_digits (s : string) : nat :=
  match s with
  | EmptyString => 0
  | String c r => if is_digit c then S (count_digits r) else count_digits r
  end.

Fixpoint nat_digits (fuel : nat) (n : nat) (acc : string) : string :=
  match fuel with
  | O => acc
  | S f =>
      let d := String (ascii_of_nat (48 + Nat.modulo n 10)) acc in
      match Nat.div n 10 with
      | O => d
      | q => nat_digits f q d
      end
  end.

(** [str(n)] for an integer. *)
Definition string_of_Z (n : Z) : string :=
  let m := Z.to_nat (Z.abs n) in
  let ds := nat_digits (S m) m EmptyString in
  if n <? 0 then String "-" ds else ds.

(** *** Slices *)

(** The bound of a slice index on a sequence of length [len]. *)
Definition slice_bound (len i : Z) : Z :=
  if i <? 0 then Z.max (i + len) 0 else Z.min i len.

(** [xs[start:stop]] *)
Definition slice {A : Type} (xs : list A) (start stop : Z) : list A :=
  let len := Z.of_nat (List.length xs) in
  let a := slice_bound len start in
  let b := slice_bound len stop in
  firstn (Z.to_nat (b - a)) (skipn (Z.to_nat a) xs).

End Py.

(** ** Exceptions *)

Module Exc.
Import Py.

(** The exception classes the program raises or catches. *)
Inductive exn_class : Type :=
| AuthError
| ValueError
| TypeError
| KeyError
| AttributeError
| PermissionError
| CosmosHttpResponseError
| CosmosResourceNotFoundError
| CosmosDBError
| DecodeError
| InvalidSignatureError
| InvalidAlgorithmError
| ExpiredSignatureError
| ImmatureSignatureError
| InvalidIssuedAtError
| InvalidAudienceError
| InvalidSubjectError
| InvalidJTIError
| InvalidKeyError.

(** An exception object: its class and [str(e)]. *)
Record exn : Type := Exn { exn_class_of : exn_class; exn_text : string }.

(** [isinstance(e, jwt.InvalidTokenError)]: every PyJWT error but
    [InvalidKeyError]. *)
Definition is_InvalidTokenError (c : exn_class) : bool :=
  match c with
  | DecodeError | InvalidSignatureError | InvalidAlgorithmError
  | ExpiredSignatureError | ImmatureSignatureError | InvalidIssuedAtError
  | InvalidAudienceError | InvalidSubjectError | InvalidJTIError => true
  | _ => false
  end.

(** [isinstance(e, jwt.PyJWTError)] *)
Definition is_PyJWTError (c : exn_class) : bool :=
  is_InvalidTokenError c || match c with InvalidKeyError => true | _ => false end.

(** [isinstance(e, exceptions.CosmosHttpResponseError)] *)
Definition is_CosmosHttpResponseError (c : exn_class) : bool :=
  match c with
  | CosmosHttpResponseError | CosmosResourceNotFoundError => true
  | _ => false
  end.

Definition exn_class_eqb (a b : exn_class) : bool :=
  match a, b with
  | AuthError, AuthError | ValueError, ValueError | TypeError, TypeError
  | KeyError, KeyError | AttributeError, AttributeError
  | PermissionError, PermissionError
  | CosmosHttpResponseError, CosmosHttpResponseError
  | CosmosResourceNotFoundError, CosmosResourceNotFoundError
  | CosmosDBError, CosmosDBError
  | DecodeError, DecodeError | InvalidSignatureError, InvalidSignatureError
  | InvalidAlgorithmError, InvalidAlgorithmError
  | ExpiredSignatureError, ExpiredSignatureError
  | ImmatureSignatureError, ImmatureSignatureError
  | InvalidIssuedAtError, InvalidIssuedAtError
  | InvalidAudienceError, InvalidAudienceError
  | InvalidSubjectError, InvalidSubjectError
  | InvalidJTIError, InvalidJTIError
  | InvalidKeyError, InvalidKeyError => true
  | _, _ => false
  end.

(** The result of a computation that may raise. *)
Inductive result (A : Type) : Type :=
| Ok (a : A)
| Raise (e : exn).
Arguments Ok {A} a.
Arguments Raise {A} e.

Definition rbind {A B : Type} (r : result A) (k : A -> result B) : result B :=
  match r with
  | Ok a => k a
  | Raise e => Raise e
  end.

(** The errors the interpreter itself raises in the modelled code. *)
Inductive fault : Type :=
| BadOperand (op : string) (a b : pyval)
| NoAttribute (v : pyval) (attr : string)
| MissingKey (k : string)
| BadIntLiteral (s : string)
| BadIntArgument (v : pyval)
| Unhashable (v : pyval)
| NotAString (v : pyval)
| NotIterable (v : pyval)
| BadSubscript (v : pyval) (k : string)
| Unorderable (keys : list pyval).

Definition fault_class (f : fault) : exn_class :=
  match f with
  | BadOperand _ _ _ => TypeError
  | NoAttribute _ _ => AttributeError
  | MissingKey _ => KeyError
  | BadIntLiteral _ => ValueError
  | BadIntArgument _ => TypeError
  | Unhashable _ => TypeError
  | NotAString _ => TypeError
  | NotIterable _ => TypeError
  | BadSubscript _ _ => TypeError
  | Unorderable _ => TypeError
  end.

End Exc.

Declare Scope result_scope.
Delimit Scope result_scope with result.
Notation "'let!' x ':=' e 'in' k" :=
  (Exc.rbind e (fun x => k))
  (at level 10, x name, e at level 100, k at level 200) : result_scope.
Notation "'do!' e 'in' k" :=
  (Exc.rbind e (fun _ => k))
  (at level 10, e at level 100, k at level 200) : result_scope.

(** ** What the program takes from its platform

    The JOSE codec and the MAC of the PyJWT library, the texts of the
    interpreter's own error messages and the answers of the Cosmos DB service
    (used through its SDK by the posts and comments endpoints) are parameters
    of the development: the handlers are verified for every implementation of
    them. *)

Module Platform.
Import Py Exc.

(** A compact token after [PyJWS._load]: the decoded JSON header, the bytes
    that were signed, the decoded signature and the payload segment read as
    JSON ([inl msg] when it is not valid JSON). *)
Record jws : Type := Jws {
  jws_header : pydict;
  jws_signing_input : string;
  jws_signature : string;
  jws_payload : string + pyval
}.

Class Runtime : Type := {
  (** [repr(v)] of a list or dict *)
  py_repr : pyval -> string;
  (** [str(e)] of an interpreter error *)
  fault_text : fault -> string;
  (** what [PyJWS.decode_complete] does before it verifies the signature:
      segment splitting, base64url decoding, JSON decoding of the header and
      the library's checks on the header; [inl msg] is [DecodeError(msg)] *)
  jws_load : string -> string + jws;
  (** [alg_obj.verify(signing_input, alg_obj.prepare_key(key), signature)] of
      the algorithm registered under a name; [None] when [prepare_key]
      refuses the key with [InvalidKeyError] *)
  sig_verify : string -> string -> string -> string -> option bool;
  (** [container.query_items(query=..., parameters=...)] of the SDK *)
  cosmos_query_items : string -> list (string * pyval) -> result (list pydict);
  (** [container.create_item(body=...)] of the SDK *)
  cosmos_create_item : pydict -> result unit;
  (** [create_database_if_not_exists] and [create_container_if_not_exists]
      of the SDK, by the name asked for *)
  cosmos_create_if_not_exists : string -> result unit;
  (** [sys.get_int_max_str_digits()]: the most digits [int] converts, [0]
      for no limit *)
  int_max_str_digits : nat;
  (** [s.lower()] of a string with a character outside ASCII *)
  unicode_lower : string -> string;
  (** [int(s)] of a string with a character outside ASCII, [None] when it
      raises [ValueError] *)
  unicode_int : string -> option Z;
  (** group 1 of [re.search(r'\$?(\d+)', s)] for a string with a character
      outside ASCII, [None] when nothing matches *)
  unicode_digits : string -> option string;
  (** [sorted(l, key=..., reverse=True)] for a list of two or more, given
      with its keys, when the keys are not all numbers and not all
      strings *)
  sorted_other : list (pyval * pydict) -> result (list pydict)
}.

Section WithRuntime.
Context `{Runtime}.

Definition raise_fault {A : Type} (f : fault) : result A :=
  Raise (Exn (fault_class f) (fault_text f)).

(** [str(v)] *)
Definition py_str (v : pyval) : string :=
  match v with
  | PNone => "None"
  | PBool true => "True"
  | PBool false => "False"
  | PInt n => string_of_Z n
  | PStr s => s
  | PList _ | PDict _ => py_repr v
  end.

(** [s.lower()] *)
Definition str_lower (s : string) : string :=
  if is_ascii s then lower s else unicode_lower s.

(** A literal has more digits than [int] converts. *)
Definition too_long (s : string) : bool :=
  Nat.ltb 0 int_max_str_digits && Nat.ltb int_max_str_digits (count_digits s).

(** [int(s)] for a string: a literal that is not one, or that is too long,
    raises [ValueError]. *)
Definition str_int (s : string) : result Z :=
  if is_ascii s then
    match int_of_string s with
    | Some n => if too_long s then raise_fault (BadIntLiteral s) else Ok n
    | None => raise_fault (BadIntLiteral s)
    end
  else
    match unicode_int s with
    | Some n => Ok n
    | None => raise_fault (BadIntLiteral s)
    end.

(** [int(v)] *)
Definition py_int (v : pyval) : result Z :=
  match v with
  | PInt n => Ok n
  | PBool b => Ok (bool_to_Z b)
  | PStr s => str_int s
  | _ => raise_fault (BadIntArgument v)
  end.

(** [d[k]] *)
Definition dict_item (d : pydict) (k : string) : result pyval :=
  match dict_lookup d k with
  | Some v => Ok v
  | None => raise_fault (MissingKey k)
  end.

(** The integer a number stands for, if [v] is one. *)
Definition as_number (v : pyval) : option Z :=
  match v with
  | PInt n => Some n
  | PBool b => Some (bool_to_Z b)
  | _ => None
  end.

(** [a + b] on numbers; strings and lists concatenate. *)
Definition py_add (a b : pyval) : result pyval :=
  match as_number a, as_number b with
  | Some x, Some y => Ok (PInt (x + y))
  | _, _ =>
      match a, b with
      | PStr s, PStr t => Ok (PStr (s ++ t))
      | PList xs, PList ys => Ok (PList (xs ++ ys))
      | _, _ => raise_fault (BadOperand "+" a b)
      end
  end.

(** [a - b] *)
Definition py_sub (a b : pyval) : result pyval :=
  match as_number a, as_number b with
  | Some x, Some y => Ok (PInt (x - y))
  | _, _ => raise_fault (BadOperand "-" a b)
  end.

(** [a < b]: numbers by value, strings by code point, lists by their first
    pair of elements that are not equal, or by length when there is none.
    Nothing else is ordered. *)
Fixpoint py_lt (a b : pyval) {struct a} : result bool :=
  match as_number a, as_number b with
  | Some x, Some y => Ok (x <? y)
  | _, _ =>
      match a, b with
      | PStr s, PStr t => Ok (String.ltb s t)
      | PList xs, PList ys =>
          (fix go (xs ys : list pyval) {struct xs} : result bool :=
             match xs, ys with
             | [], [] => Ok false
             | [], _ :: _ => Ok true
             | _ :: _, [] => Ok false
             | x :: xs', y :: ys' =>
                 if py_eqb x y then go xs' ys' else py_lt x y
             end) xs ys
      | _, _ => raise_fault (BadOperand "<" a b)
      end
  end.

(** [a <= b] *)
Fixpoint py_le (a b : pyval) {struct a} : result bool :=
  match as_number a, as_number b with
  | Some x, Some y => Ok (x <=? y)
  | _, _ =>
      match a, b with
      | PStr s, PStr t => Ok (String.leb s t)
      | PList xs, PList ys =>
          (fix go (xs ys : list pyval) {struct xs} : result bool :=
             match xs, ys with
             | [], _ => Ok true
             | _ :: _, [] => Ok false
             | x :: xs', y :: ys' =>
                 if py_eqb x y then go xs' ys' else py_le x y
             end) xs ys
      | _, _ => raise_fault (BadOperand "<=" a b)
      end
  end.

(** [max(0, v)]: [v] if [v > 0] else [0]. *)
Definition py_max0 (v : pyval) : result pyval :=
  Exc.rbind (py_lt (PInt 0) v) (fun gt => Ok (if gt then v else PInt 0)).

(** [v.strip()] *)
Definition py_strip (v : pyval) : result pyval :=
  match v with
  | PStr s => Ok (PStr (strip s))
  | _ => raise_fault (NoAttribute v "strip")
  end.

(** [v.lower()] *)
Definition py_lower (v : pyval) : result string :=
  match v with
  | PStr s => Ok (str_lower s)
  | _ => raise_fault (NoAttribute v "lower")
  end.

(** [k in v] for a string [k]: a key of a dict, an element of a list, a
    substring of a string. *)
Definition py_contains (v : pyval) (k : string) : result bool :=
  match v with
  | PDict d => Ok (dict_has d k)
  | PList xs => Ok (py_in_list (PStr k) xs)
  | PStr s => Ok (contains s k)
  | _ => raise_fault (NotIterable v)
  end.

(** [v[k]] for a string [k]. *)
Definition py_item (v : pyval) (k : string) : result pyval :=
  match v with
  | PDict d => dict_item d k
  | _ => raise_fault (BadSubscript v k)
  end.

(** [v.get(k, dflt)] *)
Definition py_get (v : pyval) (k : string) (dflt : pyval) : result pyval :=
  match v with
  | PDict d => Ok (dict_get_default d k dflt)
  | _ => raise_fault (NoAttribute v "get")
  end.

(** [a < b] for two numbers or two strings. *)
Definition plain_lt (a b : pyval) : bool :=
  match as_number a, as_number b with
  | Some x, Some y => x <? y
  | _, _ =>
      match a, b with
      | PStr s, PStr t => String.ltb s t
      | _, _ => false
      end
  end.

(** Insertion of [x] into a list sorted by decreasing key, after the
    elements whose key is not smaller. *)
Fixpoint insert_desc (key : pydict -> pyval) (x : pydict) (l : list pydict)
  : list pydict :=
  match l with
  | [] => [x]
  | y :: l' =>
      if plain_lt (key x) (key y) then y :: insert_desc key x l' else x :: l
  end.

Fixpoint sort_desc (key : pydict -> pyval) (l : list pydict) : list pydict :=
  match l with
  | [] => []
  | x :: r => insert_desc key x (sort_desc key r)
  end.

Definition is_number (v : pyval) : bool :=
  match as_number v with Some _ => true | None => false end.

Definition is_string (v : pyval) : bool :=
  match v with PStr _ => true | _ => false end.

(** Keys that are all numbers, or all strings. *)
Definition plain_keys (ks : list pyval) : bool :=
  forallb is_number ks || forallb is_string ks.

(** [sorted(l, key=key, reverse=True)], also [l.sort(key=key, reverse=True)].
    With no element or one nothing is compared.  Keys that are all numbers,
    or all strings, are totally ordered, and the list is arranged by
    decreasing key, elements with equal keys in their original order.  For
    other keys the order in which the library compares them decides whether
    [TypeError] is raised, and is left to the platform. *)
Definition py_sorted_desc (key : pydict -> pyval) (l : list pydict)
  : result (list pydict) :=
  match l with
  | [] | [_] => Ok l
  | _ =>
      if plain_keys (List.map key l) then Ok (sort_desc key l)
      else sorted_other (List.map (fun x => (key x, x)) l)
  end.

End WithRuntime.
End Platform.

(** ** The PyJWT calls the program makes

    [jwt.decode(token, key, algorithms=[...])] of PyJWT 2.10 with the
    library's default options ([verify_signature], [verify_exp],
    [verify_nbf], [verify_iat], [verify_aud], [verify_iss], [verify_sub],
    [verify_jti] all on), no [audience], no [issuer], no [subject] and no
    leeway, which is how both [validate_jwt] and [get_authenticated_user_id]
    call it.  [now] is the clock, in whole seconds since the epoch. *)

Module PyJWT.
Import Py Exc Platform.

Section WithRuntime.
Context `{Runtime}.
Local Open Scope result_scope.

Definition jwt_error {A : Type} (c : exn_class) (msg : string) : result A :=
  Raise (Exn c msg).

(** [PyJWS._verify_signature]: the algorithm named by the header must be
    one of those the caller allows; only then is the signature checked, and
    with that algorithm. *)
Definition verify_signature (j : jws) (key : string) (algorithms : list string)
  : result unit :=
  match dict_lookup (jws_header j) "alg" with
  | None => jwt_error InvalidAlgorithmError "Algorithm not specified"
  | Some alg =>
      if negb (truthy alg) then
        jwt_error InvalidAlgorithmError "The specified alg value is not allowed"
      else
        match List.find (fun a => py_eqb alg (PStr a)) algorithms with
        | None =>
            jwt_error InvalidAlgorithmError "The specified alg value is not allowed"
        | Some a =>
            match sig_verify a key (jws_signing_input j) (jws_signature j) with
            | None =>
                jwt_error InvalidKeyError
                  "The specified key is an asymmetric key or x509 certificate and should not be used as an HMAC secret."
            | Some false =>
                jwt_error InvalidSignatureError "Signature verification failed"
            | Some true => Ok tt
            end
        end
  end.

(** [PyJWT._decode_payload] *)
Definition decode_payload (j : jws) : result pydict :=
  match jws_payload j with
  | inl msg => jwt_error DecodeError ("Invalid payload string: " ++ msg)
  | inr (PDict d) => Ok d
  | inr _ => jwt_error DecodeError "Invalid payload string: must be a json object"
  end.

(** [int(payload[claim])], a [ValueError] becoming the given PyJWT error. *)
Definition int_claim (v : pyval) (c : exn_class) (msg : string) : result Z :=
  match py_int v with
  | Ok n => Ok n
  | Raise e =>
      if exn_class_eqb (exn_class_of e) ValueError then jwt_error c msg
      else Raise e
  end.

Definition validate_iat (payload : pydict) (now : Z) : result unit :=
  match dict_lookup payload "iat" with
  | None => Ok tt
  | Some v =>
      let! iat := int_claim v InvalidIssuedAtError
                    "Issued At claim (iat) must be an integer." in
      if now <? iat
      then jwt_error ImmatureSignatureError "The token is not yet valid (iat)"
      else Ok tt
  end.

Definition validate_nbf (payload : pydict) (now : Z) : result unit :=
  match dict_lookup payload "nbf" with
  | None => Ok tt
  | Some v =>
      let! nbf := int_claim v DecodeError
                    "Not Before claim (nbf) must be an integer." in
      if now <? nbf
      then jwt_error ImmatureSignatureError "The token is not yet valid (nbf)"
      else Ok tt
  end.

Definition validate_exp (payload : pydict) (now : Z) : result unit :=
  match dict_lookup payload "exp" with
  | None => Ok tt
  | Some v =>
      let! exp := int_claim v DecodeError
                    "Expiration Time claim (exp) must be an integer." in
      if exp <=? now
      then jwt_error ExpiredSignatureError "Signature has expired"
      else Ok tt
  end.

(** With no [audience] argument a token that names an audience is refused. *)
Definition validate_aud (payload : pydict) : result unit :=
  match dict_lookup payload "aud" with
  | None => Ok tt
  | Some v =>
      if truthy v then jwt_error InvalidAudienceError "Invalid audience"
      else Ok tt
  end.

(** With no [subject] argument the subject, if there is one, must be a
    string. *)
Definition validate_sub (payload : pydict) : result unit :=
  match dict_lookup payload "sub" with
  | None | Some (PStr _) => Ok tt
  | Some _ => jwt_error InvalidSubjectError "Subject must be a string"
  end.

Definition validate_jti (payload : pydict) : result unit :=
  match dict_lookup payload "jti" with
  | None | Some (PStr _) => Ok tt
  | Some _ => jwt_error InvalidJTIError "JWT ID must be a string"
  end.

(** [PyJWT._validate_claims]: issued-at, not-before, expiry, audience,
    subject, JWT ID, in that order (the issuer is not checked without an
    [issuer] argument). *)
Definition validate_claims (payload : pydict) (now : Z) : result unit :=
  do! validate_iat payload now in
  do! validate_nbf payload now in
  do! validate_exp payload now in
  do! validate_aud payload in
  do! validate_sub payload in
  validate_jti payload.

(** The claim [k] of a payload is a string, or the payload has no claim
    [k]. *)
Definition string_claim (payload : pydict) (k : string) : bool :=
  match dict_lookup payload k with
  | None | Some (PStr _) => true
  | Some _ => false
  end.

Definition algorithms_required : string :=
  "It is required that you pass in a value for the " ++
  String (ascii_of_nat 34) "algorithms" ++
  String (ascii_of_nat 34) " argument when calling decode().".

(** [jwt.decode(token, key, algorithms=algorithms)] *)
Definition decode (now : Z) (token key : string) (algorithms : list string)
  : result pydict :=
  match algorithms with
  | [] => jwt_error DecodeError algorithms_required
  | _ =>
      match jws_load token with
      | inl msg => jwt_error DecodeError msg
      | inr j =>
          do! verify_signature j key algorithms in
          let! payload := decode_payload j in
          do! validate_claims payload now in
          Ok payload
      end
  end.

(** The integer claim [k] of a payload passes [test], or the payload has no
    claim [k]. *)
Definition claim_ok (payload : pydict) (k : string) (test : Z -> bool) : bool :=
  match dict_lookup payload k with
  | None => true
  | Some v =>
      match py_int v with
      | Ok n => test n
      | Raise _ => false
      end
  end.

End WithRuntime.
End PyJWT.

(** ** Requests, responses and the process environment *)

Module Http.
Import Py Exc.

(** [func.HttpRequest].  [json_body] is what [req.get_json()] returns, [None]
    when it raises [ValueError]. *)
Record HttpRequest : Type := {
  method : string;
  headers : gmap string string;
  params : gmap string string;
  route_params : gmap string string;
  json_body : option pyval
}.

(** [req.headers.get(name)]: the header mapping of the Functions host keeps
    names in lower case and lower-cases the name it is asked for; the
    program asks for ASCII names. *)
Definition headers_get (req : HttpRequest) (name : string) : option string :=
  headers req !! lower name.

(** [func.HttpResponse(json.dumps(body), status_code=...)]; [body] is the
    object handed to [json.dumps]. *)
Record HttpResponse : Type := {
  status_code : Z;
  body : pyval
}.

Definition error_body (msg : string) : pyval := PDict [("error", PStr msg)].

Definition error_details (msg details : string) : pyval :=
  PDict [("error", PStr msg); ("details", PStr details)].

(** [os.environ] *)
Definition environ : Type := gmap string string.

(** [os.getenv(name)] *)
Definition getenv (env : environ) (name : string) : option string := env !! name.

(** [not s] for an optional string. *)
Definition falsy_str (s : option string) : bool :=
  match s with
  | None => true
  | Some t => String.eqb t ""
  end.

(** [a or b] for optional strings. *)
Definition or_str (a b : option string) : option string :=
  if falsy_str a then b else a.

End Http.

(** ** shared/auth.py *)

Module Auth.
Import Py Exc Platform Http.

Section WithRuntime.
Context `{Runtime}.
Local Open Scope result_scope.

Definition auth_error {A : Type} (msg : string) : result A :=
  Raise (Exn AuthError msg).

Definition secret_not_set : string :=
  "SUPABASE_JWT_SECRET environment variable is not set. " ++
  "Please configure it in local.settings.json or Azure Function App settings.".

Definition get_jwt_secret (env : environ) : result string :=
  match getenv env "SUPABASE_JWT_SECRET" with
  | Some secret =>
      if String.eqb secret "" then auth_error secret_not_set else Ok secret
  | None => auth_error secret_not_set
  end.

Definition extract_token (req : HttpRequest) : result string :=
  let auth_header := headers_get req "Authorization" in
  match auth_header with
  | None => auth_error "Missing Authorization header"
  | Some h =>
      if String.eqb h "" then auth_error "Missing Authorization header"
      else
        match split h with
        | [scheme; token] =>
            if negb (String.eqb (str_lower scheme) "bearer")
            then auth_error
                   "Invalid Authorization header format. Expected 'Bearer <token>'"
            else Ok token
        | _ =>
            auth_error
              "Invalid Authorization header format. Expected 'Bearer <token>'"
        end
  end.

(** The three [except] clauses of [validate_jwt], in order. *)
Definition validate_jwt_handler (e : exn) : exn :=
  let c := exn_class_of e in
  if exn_class_eqb c ExpiredSignatureError then Exn AuthError "Token has expired"
  else if is_InvalidTokenError c then
    Exn AuthError ("Invalid token: " ++ exn_text e)
  else Exn AuthError ("Token validation failed: " ++ exn_text e).

Definition validate_jwt (env : environ) (now : Z) (token : string)
  : result pydict :=
  match (let! secret := get_jwt_secret env in
         PyJWT.decode now token secret ["HS256"]) with
  | Ok payload => Ok payload
  | Raise e => Raise (validate_jwt_handler e)
  end.

Definition get_user_id_from_token (payload : pydict) : result pyval :=
  let user_id := dict_get payload "sub" in
  if negb (truthy user_id)
  then auth_error "User ID not found in token payload"
  else Ok user_id.

Definition authenticate_request (env : environ) (now : Z) (req : HttpRequest)
  : result (pyval * pydict) :=
  match (let! token := extract_token req in
         let! payload := validate_jwt env now token in
         let! user_id := get_user_id_from_token payload in
         Ok (user_id, payload)) with
  | Ok r => Ok r
  | Raise e =>
      if exn_class_eqb (exn_class_of e) AuthError then Raise e
      else Raise (Exn AuthError ("Authentication failed: " ++ exn_text e))
  end.

End WithRuntime.
End Auth.

(** ** utils.py *)

Module Utils.
Import Py Exc Platform Http.

Section WithRuntime.
Context `{Runtime}.
Local Open Scope result_scope.

(** The body of the [try] in [get_authenticated_user_id]. *)
Definition decode_sub (env : environ) (now : Z) (token : string)
  : result pyval :=
  let secret := getenv env "SUPABASE_JWT_SECRET" in
  if falsy_str secret then Ok PNone
  else
    let! payload :=
      PyJWT.decode now token (default "" secret) ["HS256"] in
    let user_id := dict_get payload "sub" in
    Ok user_id.

(** [get_authenticated_user_id(req)]: the [sub] claim, or [None]; no
    exception leaves it. *)
Definition get_authenticated_user_id (env : environ) (now : Z)
  (req : HttpRequest) : pyval :=
  let auth_header :=
    or_str (headers_get req "Authorization") (headers_get req "authorization") in
  if falsy_str auth_header
     || negb (startswith (default "" auth_header) "Bearer ")
  then PNone
  else
    let token := strip (replace (default "" auth_header) "Bearer " "") in
    match decode_sub env now token with
    | Ok user_id => user_id
    | Raise _ => PNone
    end.

(** [validate_required(obj, fields)]; [obj.get] needs a dict. *)
Definition validate_required (obj : pyval) (fields : list string)
  : result (option string) :=
  match obj with
  | PDict d =>
      let missing := List.filter (fun f => negb (truthy (dict_get d f))) fields in
      match missing with
      | [] => Ok None
      | _ => Ok (Some ("Missing required fields: " ++ join ", " missing))
      end
  | _ => raise_fault (NoAttribute obj "get")
  end.

(** The first maximal run of digits of an ASCII [s], if any: group 1 of the
    leftmost match of the pattern [\$?(\d+)]. *)
Fixpoint first_digits (s : string) (cur : option string) : option string :=
  match s with
  | EmptyString => cur
  | String c r =>
      if is_digit c then
        first_digits r
          (Some (match cur with
                 | Some w => w ++ String c EmptyString
                 | None => String c EmptyString
                 end))
      else
        match cur with
        | Some w => Some w
        | None => first_digits r None
        end
  end.

(** Group 1 of [re.search(r'\$?(\d+)', s)]. *)
Definition search_digits (s : string) : option string :=
  if is_ascii s then first_digits s None else unicode_digits s.

Definition parse_budget_value (budget_string : pyval) : result pyval :=
  match budget_string with
  | PStr s =>
      match search_digits s with
      | Some ds => Exc.rbind (str_int ds) (fun n => Ok (PInt n))
      | None => Ok (PInt 0)
      end
  | _ => raise_fault (NotAString budget_string)
  end.

Definition parse_requirements (raw_requirements : pyval) : pyval :=
  match raw_requirements with
  | PList xs =>
      PList (List.map (fun r => PStr (strip (py_str r)))
               (List.filter (fun r => negb (String.eqb (strip (py_str r)) "")) xs))
  | PStr s =>
      PList (List.map (fun r => PStr (strip r))
               (List.filter (fun r => negb (String.eqb (strip r) ""))
                  (split_on "010" s)))
  | _ => PList []
  end.

End WithRuntime.
End Utils.

(** ** cosmos.py: the in-memory containers, and the state the handlers run in *)

Module Cosmos.
Import Py Exc Platform.

(** The keys of [containers]. *)
Inductive cname : Type := Problems | Proposals | Upvotes | Tips.

(** [MockContainer.items]: item id to body, in insertion order. *)
Definition container : Type := list (pyval * pydict).

(** Every call that reaches a store: the mock containers, the Supabase
    [wallets] table and the Cosmos DB service. *)
Inductive store_call : Type :=
| QueryItems (c : cname) (parameters : list (string * pyval))
| CreateItem (c : cname) (body : pydict)
| ReplaceItem (c : cname) (item_id : pyval)
| DeleteItem (c : cname) (item_id : pyval)
| WalletsSelect (filters : list (string * pyval))
| WalletsDelete (filters : list (string * pyval))
| CreateDatabaseIfNotExists (db_name : string)
| CreateContainerIfNotExists (container_name : string)
| SdkQueryItems (query : string) (parameters : list (string * pyval))
| SdkCreateItem (body : pydict).

Record Store : Type := {
  problems : container;
  proposals : container;
  upvotes : container;
  tips : container;
  (** the rows of the Supabase table [wallets] *)
  wallets : list pydict;
  (** the calls issued so far, oldest first *)
  calls : list store_call
}.

Definition get_container (c : cname) (s : Store) : container :=
  match c with
  | Problems => problems s
  | Proposals => proposals s
  | Upvotes => upvotes s
  | Tips => tips s
  end.

Definition set_container (c : cname) (items : container) (s : Store) : Store :=
  match c with
  | Problems =>
      {| problems := items; proposals := proposals s; upvotes := upvotes s;
         tips := tips s; wallets := wallets s; calls := calls s |}
  | Proposals =>
      {| problems := problems s; proposals := items; upvotes := upvotes s;
         tips := tips s; wallets := wallets s; calls := calls s |}
  | Upvotes =>
      {| problems := problems s; proposals := proposals s; upvotes := items;
         tips := tips s; wallets := wallets s; calls := calls s |}
  | Tips =>
      {| problems := problems s; proposals := proposals s; upvotes := upvotes s;
         tips := items; wallets := wallets s; calls := calls s |}
  end.

Definition set_wallets (rows : list pydict) (s : Store) : Store :=
  {| problems := problems s; proposals := proposals s; upvotes := upvotes s;
     tips := tips s; wallets := rows; calls := calls s |}.

Definition log_call (c : store_call) (s : Store) : Store :=
  {| problems := problems s; proposals := proposals s; upvotes := upvotes s;
     tips := tips s; wallets := wallets s; calls := calls s ++ [c] |}.

(** The documents of a store, the call log left out. *)
Definition documents (s : Store)
  : container * container * container * container * list pydict :=
  (problems s, proposals s, upvotes s, tips s, wallets s).

(** *** Dictionary operations on [items] *)

Definition hashable (k : pyval) : bool :=
  match k with
  | PList _ | PDict _ => false
  | _ => true
  end.

(** [k in items] *)
Definition has_key (items : container) (k : pyval) : bool :=
  existsb (fun kv => py_eqb (fst kv) k) items.

(** [items[k] = body]: an existing key keeps its place. *)
Fixpoint set_key (items : container) (k : pyval) (body : pydict) : container :=
  match items with
  | [] => [(k, body)]
  | (k', b') :: r =>
      if py_eqb k' k then (k', body) :: r else (k', b') :: set_key r k body
  end.

(** [del items[k]] *)
Fixpoint del_key (items : container) (k : pyval) : container :=
  match items with
  | [] => []
  | (k', b') :: r => if py_eqb k' k then r else (k', b') :: del_key r k
  end.

(** One pass of the parameter loop of [query_items] over an item. *)
Definition param_matches (item : pydict) (param : string * pyval) : bool :=
  let param_name := replace (fst param) "@" "" in
  let param_value := snd param in
  negb (dict_has item param_name
        && negb (py_eqb (dict_get item param_name) param_value)).

Definition item_matches (parameters : list (string * pyval)) (item : pydict)
  : bool :=
  forallb (param_matches item) parameters.

(** The positions in [items] of the items a query returns, from position
    [i] on. *)
Fixpoint matching_from (parameters : list (string * pyval)) (i : nat)
  (items : container) : list nat :=
  match items with
  | [] => []
  | (_, item) :: r =>
      if item_matches parameters item
      then i :: matching_from parameters (S i) r
      else matching_from parameters (S i) r
  end.

(** The body at a position. *)
Definition body_at (items : container) (ref : nat) : pydict :=
  match nth_error items ref with
  | Some (_, b) => b
  | None => []
  end.

(** [items] with the body at a position changed by [f]. *)
Fixpoint update_at (items : container) (ref : nat) (f : pydict -> pydict)
  : container :=
  match items, ref with
  | [], _ => []
  | (k, b) :: r, O => (k, f b) :: r
  | kv :: r, S n => kv :: update_at r n f
  end.

(** *** The state-and-exception monad *)

Definition M (A : Type) : Type := Store -> result A * Store.

Definition ret {A : Type} (a : A) : M A := fun s => (Ok a, s).

Definition throw {A : Type} (e : exn) : M A := fun s => (Raise e, s).

Definition bind {A B : Type} (m : M A) (k : A -> M B) : M B :=
  fun s =>
    match m s with
    | (Ok a, s') => k a s'
    | (Raise e, s') => (Raise e, s')
    end.

(** A computation that touches no store. *)
Definition lift {A : Type} (r : result A) : M A := fun s => (r, s).

Definition record (c : store_call) : M unit := fun s => (Ok tt, log_call c s).

End Cosmos.

Declare Scope store_scope.
Delimit Scope store_scope with store.
Notation "'let*' x ':=' e 'in' k" :=
  (Cosmos.bind e (fun x => k))
  (at level 10, x name, e at level 100, k at level 200) : store_scope.
Notation "'do*' e 'in' k" :=
  (Cosmos.bind e (fun _ => k))
  (at level 10, e at level 100, k at level 200) : store_scope.

(** ** handlers/*.py *)

Module Handlers.
Import Py Exc Platform Http Cosmos Utils.

(** What a request finds outside the store: the process environment, the
    clock, and the values [generate_id] and the successive calls of
    [get_timestamp] produce. *)
Record World : Type := {
  env : environ;
  now : Z;
  uuid : string;
  timestamp : nat -> string
}.

Definition response (code : Z) (b : pyval) : HttpResponse :=
  {| status_code := code; body := b |}.

(** [req.route_params.get(name)] *)
Definition route_param (req : HttpRequest) (name : string) : pyval :=
  match route_params req !! name with
  | Some v => PStr v
  | None => PNone
  end.

(** [req.params.get(name, dflt)] for a string default. *)
Definition param_str (req : HttpRequest) (name dflt : string) : string :=
  default dflt (params req !! name).

Section WithRuntime.
Context `{Runtime}.
Local Open Scope store_scope.

(** *** The methods of [MockContainer] *)

Definition create_item (c : cname) (body : pydict) : M pydict :=
  do* record (CreateItem c body) in
  let item_id := dict_get body "id" in
  if negb (truthy item_id)
  then throw (Exn ValueError "Item must have 'id' field")
  else if negb (hashable item_id) then lift (raise_fault (Unhashable item_id))
  else fun s =>
         (Ok body, set_container c (set_key (get_container c s) item_id body) s).

(** [query_items]: the matching items, as references (positions) into the
    container, since the mock hands out the stored dictionaries themselves. *)
Definition query_items (c : cname) (parameters : list (string * pyval))
  : M (list nat) :=
  do* record (QueryItems c parameters) in
  fun s => (Ok (matching_from parameters O (get_container c s)), s).

(** [replace_item(item_id, body)] where [body] is the stored dictionary at
    [ref]. *)
Definition replace_item (c : cname) (item_id : pyval) (ref : nat) : M unit :=
  do* record (ReplaceItem c item_id) in
  if negb (hashable item_id) then lift (raise_fault (Unhashable item_id))
  else fun s =>
         let items := get_container c s in
         if has_key items item_id
         then (Ok tt, set_container c (set_key items item_id (body_at items ref)) s)
         else (Raise (Exn CosmosResourceNotFoundError "Item not found"), s).

Definition delete_item (c : cname) (item_id : pyval) : M unit :=
  do* record (DeleteItem c item_id) in
  if negb (hashable item_id) then lift (raise_fault (Unhashable item_id))
  else fun s =>
         let items := get_container c s in
         if has_key items item_id
         then (Ok tt, set_container c (del_key items item_id) s)
         else (Raise (Exn CosmosResourceNotFoundError "Item not found"), s).

(** The present contents of a stored dictionary. *)
Definition item_read (c : cname) (ref : nat) : M pydict :=
  fun s => (Ok (body_at (get_container c s) ref), s).

Definition items_read (c : cname) (refs : list nat) : M (list pydict) :=
  fun s => (Ok (List.map (body_at (get_container c s)) refs), s).

(** [item[k] = v] on a stored dictionary: the store sees it at once. *)
Definition item_write (c : cname) (ref : nat) (k : string) (v : pyval)
  : M unit :=
  fun s =>
    (Ok tt,
     set_container c
       (update_at (get_container c s) ref (fun b => dict_set b k v)) s).

(** [try: ... except Exception as e: return 500]. *)
Definition run_handler (failure : string) (m : M HttpResponse) (s : Store)
  : HttpResponse * Store :=
  match m s with
  | (Ok r, s') => (r, s')
  | (Raise e, s') => (response 500 (error_details failure (exn_text e)), s')
  end.

Definition auth_required_response : HttpResponse :=
  response 401 (error_body "Authentication required").

Definition by_id (v : pyval) : list (string * pyval) := [("@id", v)].

(** [f"{problem_id}-{user_id}"] *)
Definition upvote_id_of (problem_id user_id : pyval) : string :=
  py_str problem_id ++ "-" ++ py_str user_id.

(** *** upvote_problem.py *)

Definition upvote_problem (w : World) (req : HttpRequest)
  : Store -> HttpResponse * Store :=
  run_handler "Failed to upvote problem"
    (let problem_id := route_param req "id" in
     let user_id := get_authenticated_user_id (env w) (now w) req in
     if negb (truthy user_id) then ret auth_required_response
     else
       let* problems := query_items Problems (by_id problem_id) in
       match problems with
       | [] => ret (response 404 (error_body "Problem not found"))
       | problem :: _ =>
           let upvote_id := upvote_id_of problem_id user_id in
           let* upvotes := query_items Upvotes (by_id (PStr upvote_id)) in
           match upvotes with
           | _ :: _ =>
               ret (response 409 (error_body "You already upvoted this problem"))
           | [] =>
               let upvote :=
                 [("id", PStr upvote_id); ("problemId", problem_id);
                  ("userId", user_id); ("createdAt", PStr (timestamp w 0))] in
               do* create_item Upvotes upvote in
               let* doc := item_read Problems problem in
               let* count :=
                 lift (py_add (dict_get_default doc "upvotes" (PInt 0)) (PInt 1)) in
               do* item_write Problems problem "upvotes" count in
               do* item_write Problems problem "updatedAt" (PStr (timestamp w 1)) in
               let* doc := item_read Problems problem in
               let* item_id := lift (dict_item doc "id") in
               do* replace_item Problems item_id problem in
               let* doc := item_read Problems problem in
               ret (response 200
                      (PDict [("problem", PDict doc);
                              ("message", PStr "Upvote successful")]))
           end
       end).

(** *** remove_upvote.py *)

Definition remove_upvote (w : World) (req : HttpRequest)
  : Store -> HttpResponse * Store :=
  run_handler "Failed to remove upvote"
    (let problem_id := route_param req "id" in
     let user_id := get_authenticated_user_id (env w) (now w) req in
     if negb (truthy user_id) then ret auth_required_response
     else
       let upvote_id := upvote_id_of problem_id user_id in
       let* upvotes := query_items Upvotes (by_id (PStr upvote_id)) in
       match upvotes with
       | [] => ret (response 404 (error_body "Upvote not found"))
       | _ :: _ =>
           do* delete_item Upvotes (PStr upvote_id) in
           let* problems := query_items Problems (by_id problem_id) in
           let* shown :=
             match problems with
             | [] => ret PNone
             | problem :: _ =>
                 let* doc := item_read Problems problem in
                 let* less :=
                   lift (py_sub (dict_get_default doc "upvotes" (PInt 0)) (PInt 1)) in
                 let* count := lift (py_max0 less) in
                 do* item_write Problems problem "upvotes" count in
                 do* item_write Problems problem "updatedAt"
                       (PStr (timestamp w 0)) in
                 let* doc := item_read Problems problem in
                 let* item_id := lift (dict_item doc "id") in
                 do* replace_item Problems item_id problem in
                 let* doc := item_read Problems problem in
                 ret (PDict doc)
             end in
           ret (response 200
                  (PDict [("problem", shown);
                          ("message", PStr "Upvote removed successfully")]))
       end).

(** *** get_problems.py *)

(** [int(req.params.get(name, dflt))] *)
Definition param_int (req : HttpRequest) (name : string) (dflt : Z)
  : result Z :=
  match params req !! name with
  | Some v => py_int (PStr v)
  | None => Ok dflt
  end.

(** [[p for p in ps if budget_min <= p.get('budgetValue', 0) <= budget_max]] *)
Fixpoint filter_budget (budget_min budget_max : Z) (ps : list pydict)
  : result (list pydict) :=
  match ps with
  | [] => Ok []
  | p :: r =>
      let v := dict_get_default p "budgetValue" (PInt 0) in
      (let! above := py_le (PInt budget_min) v in
       let! keep := (if above then py_le v (PInt budget_max) else Ok false) in
       let! rest := filter_budget budget_min budget_max r in
       Ok (if keep then p :: rest else rest))%result
  end.

Definition by_created_at (x : pydict) : pyval :=
  dict_get_default x "createdAt" (PStr "").
Definition by_budget_value (x : pydict) : pyval :=
  dict_get_default x "budgetValue" (PInt 0).
Definition by_upvotes (x : pydict) : pyval :=
  dict_get_default x "upvotes" (PInt 0).

(** The page a listing answers with. *)
Definition listing (items : list pydict) (limit offset : Z) : pyval :=
  PDict [("problems", PList (List.map PDict (slice items offset (offset + limit))));
         ("total", PInt (Z.of_nat (List.length items)));
         ("limit", PInt limit);
         ("offset", PInt offset)].

Definition get_problems (w : World) (req : HttpRequest)
  : Store -> HttpResponse * Store :=
  run_handler "Failed to fetch problems"
    (let category := param_str req "category" "all" in
     let sort_by := param_str req "sortBy" "upvotes" in
     let* budget_min := lift (param_int req "budgetMin" 0) in
     let* budget_max := lift (param_int req "budgetMax" 999999) in
     let* limit := lift (param_int req "limit" 100) in
     let* offset := lift (param_int req "offset" 0) in
     let* refs := query_items Problems [] in
     let* problems := items_read Problems refs in
     let* filtered := lift (filter_budget budget_min budget_max problems) in
     let filtered :=
       if negb (String.eqb category "all")
       then List.filter
              (fun p => py_eqb (dict_get p "category") (PStr category)) filtered
       else filtered in
     let* filtered :=
       lift (if String.eqb sort_by "newest"
             then py_sorted_desc by_created_at filtered
             else if String.eqb sort_by "budget"
             then py_sorted_desc by_budget_value filtered
             else py_sorted_desc by_upvotes filtered) in
     ret (response 200 (listing filtered limit offset))).

(** *** get_user_problems.py *)

Definition get_user_problems (w : World) (req : HttpRequest)
  : Store -> HttpResponse * Store :=
  run_handler "Failed to fetch user problems"
    (let user_id := get_authenticated_user_id (env w) (now w) req in
     if negb (truthy user_id) then ret auth_required_response
     else
       let sort_by := param_str req "sortBy" "newest" in
       let* limit := lift (param_int req "limit" 100) in
       let* offset := lift (param_int req "offset" 0) in
       let* refs := query_items Problems [("@authorId", user_id)] in
       let* user_problems := items_read Problems refs in
       let* user_problems :=
         lift (if String.eqb sort_by "upvotes"
               then py_sorted_desc by_upvotes user_problems
               else if String.eqb sort_by "budget"
               then py_sorted_desc by_budget_value user_problems
               else py_sorted_desc by_created_at user_problems) in
       ret (response 200 (listing user_problems limit offset))).

(** *** create_problem.py *)

Definition valid_categories : list pyval :=
  List.map PStr ["AI/ML"; "Web3"; "Finance"; "Governance"; "Trading";
                 "Infrastructure"].

Definition create_problem (w : World) (req : HttpRequest)
  : Store -> HttpResponse * Store :=
  run_handler "Failed to create problem"
    (let user_id := get_authenticated_user_id (env w) (now w) req in
     if negb (truthy user_id) then ret auth_required_response
     else
       match json_body req with
       | None => ret (response 400 (error_body "Invalid JSON"))
       | Some data =>
           let* validation_error :=
             lift (validate_required data
                     ["title"; "description"; "category"; "budget"]) in
           match validation_error with
           | Some msg => ret (response 400 (error_body msg))
           | None =>
               let* category := lift (py_item data "category") in
               if negb (py_in_list category valid_categories)
               then ret (response 400 (error_body "Invalid category"))
               else
                 let* raw := lift (py_get data "requirements" (PList [])) in
                 let requirements := parse_requirements raw in
                 let* title := lift (Exc.rbind (py_item data "title") py_strip) in
                 let* description :=
                   lift (Exc.rbind (py_item data "description") py_strip) in
                 let* category := lift (py_item data "category") in
                 let* budget := lift (py_item data "budget") in
                 let* budget_value :=
                   lift (Exc.rbind (py_item data "budget") parse_budget_value) in
                 let* author :=
                   lift (py_get data "author" (PStr "Anonymous User")) in
                 let* deadline := lift (py_get data "deadline" PNone) in
                 let problem :=
                   [("id", PStr (uuid w)); ("title", title);
                    ("description", description);
                    ("requirements", requirements); ("category", category);
                    ("budget", budget); ("budgetValue", budget_value);
                    ("upvotes", PInt 0); ("proposals", PInt 0);
                    ("author", author); ("authorId", user_id);
                    ("deadline", deadline);
                    ("createdAt", PStr (timestamp w 0));
                    ("updatedAt", PStr (timestamp w 1))] in
                 do* create_item Problems problem in
                 ret (response 201 (PDict problem))
           end
       end).

(** *** update_problem.py *)

(** [if k in updates: problem[field] = value(updates)] *)
Definition update_field (updates : pyval) (k : string) (ref : nat)
  (field : string) (value : result pyval) : M unit :=
  let* present := lift (py_contains updates k) in
  if present then
    let* v := lift value in
    item_write Problems ref field v
  else ret tt.

Definition update_problem (w : World) (req : HttpRequest)
  : Store -> HttpResponse * Store :=
  run_handler "Failed to update problem"
    (let problem_id := route_param req "id" in
     let user_id := get_authenticated_user_id (env w) (now w) req in
     if negb (truthy user_id) then ret auth_required_response
     else
       match json_body req with
       | None => ret (response 400 (error_body "Invalid JSON"))
       | Some updates =>
           let* problems := query_items Problems (by_id problem_id) in
           match problems with
           | [] => ret (response 404 (error_body "Problem not found"))
           | problem :: _ =>
               let* doc := item_read Problems problem in
               if negb (py_eqb (dict_get doc "authorId") user_id)
               then ret (response 403
                           (error_body "You can only edit your own problems"))
               else
                 do* update_field updates "title" problem "title"
                       (Exc.rbind (py_item updates "title") py_strip) in
                 do* update_field updates "description" problem "description"
                       (Exc.rbind (py_item updates "description") py_strip) in
                 do* update_field updates "category" problem "category"
                       (py_item updates "category") in
                 do* update_field updates "budget" problem "budget"
                       (py_item updates "budget") in
                 do* update_field updates "budget" problem "budgetValue"
                       (Exc.rbind (py_item updates "budget") parse_budget_value) in
                 do* update_field updates "requirements" problem "requirements"
                       (Exc.rbind (py_item updates "requirements")
                          (fun r => Ok (parse_requirements r))) in
                 do* update_field updates "deadline" problem "deadline"
                       (py_get updates "deadline" PNone) in
                 do* item_write Problems problem "updatedAt"
                       (PStr (timestamp w 0)) in
                 let* doc := item_read Problems problem in
                 let* item_id := lift (dict_item doc "id") in
                 do* replace_item Problems item_id problem in
                 let* doc := item_read Problems problem in
                 ret (response 200 (PDict doc))
           end
       end).

(** *** delete_problem.py *)

Definition delete_problem (w : World) (req : HttpRequest)
  : Store -> HttpResponse * Store :=
  run_handler "Failed to delete problem"
    (let problem_id := route_param req "id" in
     let user_id := get_authenticated_user_id (env w) (now w) req in
     if negb (truthy user_id) then ret auth_required_response
     else
       let* problems := query_items Problems (by_id problem_id) in
       match problems with
       | [] => ret (response 404 (error_body "Problem not found"))
       | problem :: _ =>
           let* doc := item_read Problems problem in
           if negb (py_eqb (dict_get doc "authorId") user_id)
           then ret (response 403
                       (error_body "You can only delete your own problems"))
           else
             do* delete_item Problems problem_id in
             ret (response 200
                    (PDict [("message", PStr "Problem deleted successfully");
                            ("id", problem_id)]))
       end).

End WithRuntime.
End Handlers.

(** ** The function entry points that do not go through handlers/ *)

Module Functions.
Import Py Exc Platform Http Cosmos Utils Auth Handlers.

Section WithRuntime.
Context `{Runtime}.
Local Open Scope store_scope.

(** *** supabase_client.py and the query builder

    The [wallets] table is a list of rows; [.eq(column, value)] keeps the
    rows whose column equals the value. *)

Definition get_supabase_client (e : environ) : result unit :=
  let url := or_str (getenv e "SUPABASE_URL")
               (Some (default "" (getenv e "VITE_SUPABASE_URL"))) in
  let key := or_str (getenv e "SUPABASE_SERVICE_ROLE_KEY")
               (Some (default "" (getenv e "SUPABASE_ANON_KEY"))) in
  if falsy_str url || falsy_str key
  then Raise (Exn ValueError
                ("Missing Supabase credentials. " ++
                 "Set SUPABASE_URL and SUPABASE_SERVICE_ROLE_KEY in local.settings.json."))
  else Ok tt.

Definition row_matches (filters : list (string * pyval)) (row : pydict) : bool :=
  forallb (fun f => py_eqb (dict_get row (fst f)) (snd f)) filters.

(** [sb.table("wallets").select("id").eq(...).eq(...).execute().data] *)
Definition wallets_select_id (filters : list (string * pyval))
  : M (list pydict) :=
  do* record (WalletsSelect filters) in
  fun s =>
    (Ok (List.map (fun row => [("id", dict_get row "id")])
           (List.filter (row_matches filters) (wallets s))), s).

(** [sb.table("wallets").delete().eq(...).eq(...).execute()] *)
Definition wallets_delete (filters : list (string * pyval)) : M unit :=
  do* record (WalletsDelete filters) in
  fun s =>
    (Ok tt,
     set_wallets
       (List.filter (fun row => negb (row_matches filters row)) (wallets s)) s).

(** *** WalletById/__init__.py *)

Definition wallet_by_id (w : World) (req : HttpRequest)
  : Store -> HttpResponse * Store :=
  let user_id := get_authenticated_user_id (env w) (now w) req in
  if negb (truthy user_id)
  then fun s => (response 401 (error_body "Authentication required"), s)
  else
    let wallet_id := strip (default "" (route_params req !! "wallet_id")) in
    if String.eqb wallet_id ""
    then fun s => (response 400 (error_body "wallet_id is required"), s)
    else
      run_handler "Failed to delete wallet"
        (do* lift (get_supabase_client (env w)) in
         let filters := [("id", PStr wallet_id); ("user_id", user_id)] in
         let* check := wallets_select_id filters in
         match check with
         | [] =>
             ret (response 404 (error_body "Wallet not found or access denied"))
         | _ :: _ =>
             do* wallets_delete filters in
             ret (response 200 (PDict [("deleted", PStr wallet_id)]))
         end).

(** *** shared/db.py, get_posts, and GetProblems/__init__.py *)

Definition get_posts_query : string :=
  "SELECT * FROM c WHERE c.user_id = @user_id ORDER BY c.created_at DESC OFFSET @offset LIMIT @limit".

(** [CosmosDBClient.get_posts]: every failure becomes a [CosmosDBError]. *)
Definition get_posts (user_id : pyval) (limit offset : Z) : M (list pydict) :=
  let parameters :=
    [("@user_id", user_id); ("@offset", PInt offset); ("@limit", PInt limit)] in
  do* record (SdkQueryItems get_posts_query parameters) in
  match cosmos_query_items get_posts_query parameters with
  | Ok items => ret items
  | Raise e =>
      if is_CosmosHttpResponseError (exn_class_of e)
      then throw (Exn CosmosDBError ("Failed to retrieve posts: " ++ exn_text e))
      else throw (Exn CosmosDBError ("Unexpected error: " ++ exn_text e))
  end.

(** The pagination parameters of the posts listing, as served; [None] when
    [int] raises [ValueError]. *)
Definition posts_pagination (req : HttpRequest) : option (Z * Z) :=
  match param_int req "limit" 10 with
  | Ok limit =>
      match param_int req "offset" 0 with
      | Ok offset =>
          let limit := Z.min limit 100 in
          let limit := Z.max limit 1 in
          let offset := Z.max offset 0 in
          Some (limit, offset)
      | Raise _ => None
      end
  | Raise _ => None
  end.

Definition get_posts_main (w : World) (req : HttpRequest)
  : Store -> HttpResponse * Store :=
  match authenticate_request (env w) (now w) req with
  | Raise e => fun s => (response 401 (error_body (exn_text e)), s)
  | Ok (user_id, _) =>
      match posts_pagination req with
      | None =>
          fun s =>
            (response 400 (error_body "Invalid limit or offset parameters"), s)
      | Some (limit, offset) =>
          fun s =>
            match get_posts user_id limit offset s with
            | (Ok posts, s') => (response 200 (PList (List.map PDict posts)), s')
            | (Raise _, s') =>
                (response 500 (error_body "Failed to retrieve posts"), s')
            end
      end
  end.

(** *** PythonFunction/__init__.py: the comments endpoint *)

Definition get_env_var (e : environ) (name : string) : result string :=
  match getenv e name with
  | Some v =>
      if String.eqb v ""
      then Raise (Exn ValueError ("Missing required env var: " ++ name))
      else Ok v
  | None => Raise (Exn ValueError ("Missing required env var: " ++ name))
  end.

Definition get_supabase_user_id (w : World) (req : HttpRequest) : result pyval :=
  let auth := default "" (headers_get req "Authorization") in
  if negb (startswith auth "Bearer ")
  then Raise (Exn PermissionError "Missing Bearer token")
  else
    let token := strip (replace auth "Bearer " "") in
    (let! secret := get_env_var (env w) "SUPABASE_JWT_SECRET" in
     match PyJWT.decode (now w) token secret ["HS256"] with
     | Ok payload => Ok (dict_get payload "sub")
     | Raise e =>
         if is_PyJWTError (exn_class_of e)
         then Raise (Exn PermissionError "Invalid token")
         else Raise e
     end)%result.

(** [_get_cosmos_container]: four settings, then the database and the
    container are created unless they exist. *)
Definition get_cosmos_container (w : World) : M unit :=
  let* _ := lift (get_env_var (env w) "COSMOS_ENDPOINT") in
  let* _ := lift (get_env_var (env w) "COSMOS_KEY") in
  let* db_name := lift (get_env_var (env w) "COSMOS_DATABASE") in
  let* container_name := lift (get_env_var (env w) "COSMOS_CONTAINER") in
  do* record (CreateDatabaseIfNotExists db_name) in
  do* lift (cosmos_create_if_not_exists db_name) in
  do* record (CreateContainerIfNotExists container_name) in
  lift (cosmos_create_if_not_exists container_name).

Definition comments_query : string :=
  "SELECT * FROM c WHERE c.problemId = @pid ORDER BY c.createdAt DESC".

(** [len(text.split())] *)
Definition word_count (text : pyval) : result Z :=
  match text with
  | PStr t => Ok (Z.of_nat (List.length (split t)))
  | _ => raise_fault (NoAttribute text "split")
  end.

(** The body of [main] after authentication; an exception here leaves
    [main]. *)
Definition comments_body (w : World) (req : HttpRequest) (user_id : pyval)
  : M HttpResponse :=
  do* get_cosmos_container w in
  if String.eqb (method req) "GET" then
    match params req !! "problemId" with
    | None => ret (response 400 (error_body "Missing problemId"))
    | Some problem_id =>
        if String.eqb problem_id ""
        then ret (response 400 (error_body "Missing problemId"))
        else
          let parameters := [("@pid", PStr problem_id)] in
          do* record (SdkQueryItems comments_query parameters) in
          let* items := lift (cosmos_query_items comments_query parameters) in
          ret (response 200 (PDict [("comments", PList (List.map PDict items))]))
    end
  else if String.eqb (method req) "POST" then
    match json_body req with
    | None => ret (response 400 (error_body "Invalid JSON"))
    | Some data =>
        let* problem_id := lift (py_get data "problemId" PNone) in
        let* text := lift (py_get data "text" PNone) in
        if negb (truthy problem_id) || negb (truthy text)
        then ret (response 400 (error_body "problemId and text are required"))
        else
          let* words := lift (word_count text) in
          let comment :=
            [("id", PStr (uuid w)); ("problemId", problem_id);
             ("userId", user_id); ("text", text); ("wordCount", PInt words);
             ("createdAt", PStr (timestamp w 0))] in
          do* record (SdkCreateItem comment) in
          match cosmos_create_item comment with
          | Ok _ => ret (response 201 (PDict [("comment", PDict comment)]))
          | Raise e =>
              if is_CosmosHttpResponseError (exn_class_of e)
              then ret (response 500
                          (error_details "Cosmos write failed" (exn_text e)))
              else throw e
          end
    end
  else ret (response 405 (error_body "Method not allowed")).

Definition comments_main (w : World) (req : HttpRequest)
  : Store -> result HttpResponse * Store :=
  match get_supabase_user_id w req with
  | Raise e =>
      if exn_class_eqb (exn_class_of e) PermissionError
      then fun s => (Ok (response 401 (error_body (exn_text e))), s)
      else fun s => (Ok (response 401 (error_details "Auth error" (exn_text e))), s)
  | Ok user_id => comments_body w req user_id
  end.

(** *** The endpoints *)

Definition endpoint : Type := World -> HttpRequest -> Store -> HttpResponse * Store.

(** The endpoints that authenticate with [get_authenticated_user_id]. *)
Definition utils_endpoints : list endpoint :=
  [upvote_problem; remove_upvote; create_problem; update_problem;
   delete_problem; get_user_problems; wallet_by_id].

(** The endpoints of the model whose every exception is caught. *)
Definition endpoints : list endpoint :=
  get_problems :: get_posts_main :: utils_endpoints.

(** The stores the endpoints can build from an empty one. *)
Inductive reachable : Store -> Prop :=
| reach_empty :
    reachable {| problems := []; proposals := []; upvotes := []; tips := [];
                 wallets := []; calls := [] |}
| reach_step (s : Store) (h : endpoint) (w : World) (req : HttpRequest) :
    reachable s -> In h endpoints -> reachable (snd (h w req s)).

(** The store calls that open a database or a container. *)
Definition opens_container (c : store_call) : bool :=
  match c with
  | CreateDatabaseIfNotExists _ | CreateContainerIfNotExists _ => true
  | _ => false
  end.

End WithRuntime.
End Functions.

(** ** Two concrete platforms, to run the program on *)

Module Probe.
Import Py Exc Platform Http Cosmos Handlers.

(** A MAC that can be read: the tag of [input] under [key]. *)
Definition mac (key input : string) : string :=
  "mac(" ++ key ++ "," ++ input ++ ")".

Definition hs256_header : pydict := [("alg", PStr "HS256"); ("typ", PStr "JWT")].

(** A token signed with the secret [s3cret]. *)
Definition signed (name : string) (header payload : pydict) : jws :=
  {| jws_header := header;
     jws_signing_input := name;
     jws_signature := mac "s3cret" name;
     jws_payload := inr (PDict payload) |}.

Definition forged (name : string) (header payload : pydict) : jws :=
  {| jws_header := header;
     jws_signing_input := name;
     jws_signature := "forged";
     jws_payload := inr (PDict payload) |}.

(** The tokens of the table platform. *)
Definition table_load (token : string) : string + jws :=
  if String.eqb token "good" then
    inr (signed token hs256_header [("sub", PStr "U1"); ("exp", PInt 2000)])
  else if String.eqb token "tokA" then
    inr (signed token hs256_header [("sub", PStr "A"); ("exp", PInt 2000)])
  else if String.eqb token "tokB" then
    inr (signed token hs256_header [("sub", PStr "B"); ("exp", PInt 2000)])
  else if String.eqb token "expired" then
    inr (signed token hs256_header [("sub", PStr "U1"); ("exp", PInt 900)])
  else if String.eqb token "expired-forged" then
    inr (forged token hs256_header [("sub", PStr "U1"); ("exp", PInt 900)])
  else if String.eqb token "aud" then
    inr (signed token hs256_header
           [("sub", PStr "U1"); ("exp", PInt 2000);
            ("aud", PStr "authenticated")])
  else if String.eqb token "emptysub" then
    inr (signed token hs256_header [("sub", PStr ""); ("exp", PInt 2000)])
  else if String.eqb token "rs256" then
    inr (signed token [("alg", PStr "RS256"); ("typ", PStr "JWT")]
           [("sub", PStr "U1"); ("exp", PInt 2000)])
  else if String.eqb token "noalg" then
    inr (signed token [("typ", PStr "JWT")]
           [("sub", PStr "U1"); ("exp", PInt 2000)])
  else if String.eqb token "numsub" then
    inr (signed token hs256_header [("sub", PInt 123); ("exp", PInt 2000)])
  else inl "Not enough segments".

Definition table_verify (alg key input signature : string) : option bool :=
  if String.eqb alg "HS256" then Some (String.eqb signature (mac key input))
  else Some true.

Definition no_service_query (q : string) (ps : list (string * pyval))
  : result (list pydict) := Ok [].

Definition table_runtime : Runtime := {|
  py_repr := fun _ => "[...]";
  fault_text := fun _ => "fault";
  jws_load := table_load;
  sig_verify := table_verify;
  cosmos_query_items := no_service_query;
  cosmos_create_item := fun _ => Ok tt;
  cosmos_create_if_not_exists := fun _ => Ok tt;
  int_max_str_digits := 4300;
  unicode_lower := fun s => s;
  unicode_int := fun _ => None;
  unicode_digits := fun _ => None;
  sorted_other := fun _ => Raise (Exn TypeError "fault")
|}.

(** A platform on which every string is a valid token whose subject is the
    string itself: the identity a request is given shows which token
    reached the verifier. *)
Definition echo_load (token : string) : string + jws :=
  inr {| jws_header := hs256_header;
         jws_signing_input := token;
         jws_signature := "";
         jws_payload := inr (PDict [("sub", PStr token)]) |}.

Definition echo_runtime : Runtime := {|
  py_repr := fun _ => "[...]";
  fault_text := fun _ => "fault";
  jws_load := echo_load;
  sig_verify := fun _ _ _ _ => Some true;
  cosmos_query_items := no_service_query;
  cosmos_create_item := fun _ => Ok tt;
  cosmos_create_if_not_exists := fun _ => Ok tt;
  int_max_str_digits := 4300;
  unicode_lower := fun s => s;
  unicode_int := fun _ => None;
  unicode_digits := fun _ => None;
  sorted_other := fun _ => Raise (Exn TypeError "fault")
|}.

Definition process_env : environ :=
  <["SUPABASE_JWT_SECRET" := "s3cret"]>
  (<["SUPABASE_URL" := "https://db.example"]>
   (<["SUPABASE_SERVICE_ROLE_KEY" := "service-key"]>
    (<["COSMOS_ENDPOINT" := "https://cosmos.example"]>
     (<["COSMOS_KEY" := "cosmos-key"]>
      (<["COSMOS_DATABASE" := "ProblemHuntDB"]>
       (<["COSMOS_CONTAINER" := "Comments"]> ∅)))))).

Definition world : World :=
  {| env := process_env; now := 1000; uuid := "uuid-1";
     timestamp := fun i => "t" ++ string_of_Z (Z.of_nat i) |}.

(** The same process without its signing secret. *)
Definition world_without_secret : World :=
  {| env := delete "SUPABASE_JWT_SECRET" process_env; now := 1000;
     uuid := "uuid-1";
     timestamp := fun i => "t" ++ string_of_Z (Z.of_nat i) |}.

Definition request (meth : string) (hs ps rs : list (string * string))
  (json : option pyval) : HttpRequest :=
  {| method := meth;
     headers := list_to_map hs;
     params := list_to_map ps;
     route_params := list_to_map rs;
     json_body := json |}.

Definition bearer (token : string) : list (string * string) :=
  [("authorization", "Bearer " ++ token)].

Definition empty_store : Store :=
  {| problems := []; proposals := []; upvotes := []; tips := [];
     wallets := []; calls := [] |}.

Definition problem_p1 : pydict :=
  [("id", PStr "p1"); ("title", PStr "Slow builds"); ("authorId", PStr "A");
   ("budgetValue", PInt 50); ("upvotes", PInt 0); ("createdAt", PStr "t0")].

Definition store_p1 : Store :=
  {| problems := [(PStr "p1", problem_p1)]; proposals := []; upvotes := [];
     tips := [];
     wallets := [[("id", PStr "w1"); ("user_id", PStr "A");
                  ("chain", PStr "solana")]];
     calls := [] |}.

(** Requests of the callers of the table. *)

Definition as_caller (token : string) (meth : string)
  (ps rs : list (string * string)) (json : option pyval) : HttpRequest :=
  request meth (bearer token) ps rs json.

Definition delete_p1_as (token : string) : HttpRequest :=
  as_caller token "DELETE" [] [("id", "p1")] None.

Definition delete_w1_as (token : string) : HttpRequest :=
  as_caller token "DELETE" [] [("wallet_id", "w1")] None.

Definition list_posts_as (token : string) (ps : list (string * string))
  : HttpRequest :=
  as_caller token "GET" ps [] None.

Definition with_header (value : string) : HttpRequest :=
  request "GET" [("authorization", value)] [] [] None.

Definition create_without_json : HttpRequest :=
  as_caller "good" "POST" [] [] None.




End Probe.

(** ** The shape of an authorization header, in the specification's words *)

Module HeaderShape.
Import Py.

(** Units that are all white space. *)
Definition all_white (us : list string) : bool := forallb is_white us.

(** Units none of which is white space. *)
Definition none_white (us : list string) : bool :=
  forallb (fun u => negb (is_white u)) us.

(** [h] consists of exactly two tokens separated by white space: cut at
    its white space, it is optional white space, the bytes of [scheme], at
    least one white-space character, the bytes of [token], optional white
    space; and neither token is empty. *)
Definition two_tokens (h scheme token : string) : Prop :=
  exists a s b t c,
    units h = (a ++ s ++ b ++ t ++ c)%list /\
    all_white a = true /\ all_white b = true /\ b <> [] /\
    all_white c = true /\
    none_white s = true /\ s <> [] /\ scheme = unsplit s /\
    none_white t = true /\ t <> [] /\ token = unsplit t.

End HeaderShape.

(** ** The upvote records, in the specification's words *)

Module Invariants.
Import Py Platform Cosmos Handlers.

Section WithRuntime.
Context `{Runtime}.


(** Every item of a container is filed under its own [id], a string. *)
Definition filed_by_id (items : container) : bool :=
  forallb
    (fun kv =>
       match fst kv, dict_lookup (snd kv) "id" with
       | PStr u, Some (PStr v) => String.eqb u v
       | _, _ => false
       end) items.

(** The field [k] of an update is a string, if it is there. *)
Definition string_or_absent (u : pydict) (k : string) : bool :=
  match dict_lookup u k with
  | None | Some (PStr _) => true
  | Some _ => false
  end.

(** The budget of an update, if it is there, is one [parse_budget_value]
    converts. *)
Definition budget_parses (u : pydict) : bool :=
  match dict_lookup u "budget" with
  | None => true
  | Some b =>
      match Utils.parse_budget_value b with
      | Exc.Ok _ => true
      | Exc.Raise _ => false
      end
  end.

(** An update whose title and description are strings and whose budget
    parses. *)
Definition well_typed (u : pydict) : bool :=
  string_or_absent u "title" && string_or_absent u "description"
  && budget_parses u.

(** [m] leaves the problems filed by id. *)
Definition filing {A : Type} (m : M A) : Prop :=
  forall s, filed_by_id (problems s) = true ->
            filed_by_id (problems (snd (m s))) = true.


End WithRuntime.
End Invariants.

(** ** Requests that fail validation *)

Module Refusals.
Import Py Exc Platform Http Cosmos Utils Auth Handlers Functions.

Section WithRuntime.
Context `{Runtime}.

Definition required_of_a_problem : list string :=
  ["title"; "description"; "category"; "budget"].

(** The checks of [create_problem] on the body of a request, in the order
    the handler makes them, with the message of the one that fails. *)
Inductive invalid_problem (req : HttpRequest) : string -> Prop :=
| problem_not_json :
    json_body req = None -> invalid_problem req "Invalid JSON"
| problem_field_missing (data : pyval) (msg : string) :
    json_body req = Some data ->
    validate_required data required_of_a_problem = Ok (Some msg) ->
    invalid_problem req msg
| problem_category (data category : pyval) :
    json_body req = Some data ->
    validate_required data required_of_a_problem = Ok None ->
    py_item data "category" = Ok category ->
    py_in_list category valid_categories = false ->
    invalid_problem req "Invalid category".

(** The checks of the comments endpoint on a request, with the message of
    the one that fails. *)
Inductive invalid_comment (req : HttpRequest) : string -> Prop :=
| comment_no_problem :
    method req = "GET" -> falsy_str (params req !! "problemId") = true ->
    invalid_comment req "Missing problemId"
| comment_not_json :
    method req = "POST" -> json_body req = None ->
    invalid_comment req "Invalid JSON"
| comment_field_missing (data : pydict) :
    method req = "POST" -> json_body req = Some (PDict data) ->
    truthy (dict_get data "problemId") && truthy (dict_get data "text") = false ->
    invalid_comment req "problemId and text are required".

(** A listing parameter that [int] does not read. *)
Definition bad_listing_parameter (req : HttpRequest) : Prop :=
  exists (name : string) (dflt : Z) (e : exn),
    In (name, dflt)
      [("budgetMin", 0); ("budgetMax", 999999); ("limit", 100); ("offset", 0)]
    /\ param_int req name dflt = Raise e.

(** A page parameter of [get_user_problems] that [int] does not read. *)
Definition bad_page_parameter (req : HttpRequest) : Prop :=
  exists (name : string) (dflt : Z) (e : exn),
    In (name, dflt) [("limit", 100); ("offset", 0)]
    /\ param_int req name dflt = Raise e.

End WithRuntime.
End Refusals.

(** ** What the problem listings show *)

Module Listings.
Import Py Exc Platform Http Cosmos Utils Auth Handlers Functions.

(** [list(self.items.values())] *)
Definition stored (items : container) : list pydict := List.map snd items.

(** The key [get_problems] sorts by: [upvotes] unless it is asked for the
    newest or for the budget. *)
Definition problems_key (sort_by : string) : pydict -> pyval :=
  if String.eqb sort_by "newest" then by_created_at
  else if String.eqb sort_by "budget" then by_budget_value
  else by_upvotes.

(** The key [get_user_problems] sorts by: [createdAt] unless it is asked
    for the upvotes or for the budget. *)
Definition user_problems_key (sort_by : string) : pydict -> pyval :=
  if String.eqb sort_by "upvotes" then by_upvotes
  else if String.eqb sort_by "budget" then by_budget_value
  else by_created_at.

(** The problems of a category; all of them for the category [all]. *)
Definition in_category (category : string) (ps : list pydict) : list pydict :=
  if String.eqb category "all" then ps
  else List.filter (fun p => py_eqb (dict_get p "category") (PStr category)) ps.

(** [a] does not come before [b] by mistake: its key is not smaller. *)
Definition not_below (key : pydict -> pyval) (a b : pydict) : Prop :=
  plain_lt (key a) (key b) = false.

End Listings.

(** * Properties *)

(** ** [str.split] against the shape of its input *)

Module SplitFacts.
Import Py HeaderShape.

Lemma append_cons (c : ascii) (r s : string) :
  String c r ++ s = String c (r ++ s).
Proof. reflexivity. Qed.

Lemma append_nil_l (s : string) : "" ++ s = s.
Proof. reflexivity. Qed.

Ltac str_simpl := rewrite ?append_cons, ?append_nil_l; simpl.

Lemma append_nil_r (s : string) : s ++ "" = s.
Proof. induction s as [|c r IH]; str_simpl; congruence. Qed.

Lemma append_assoc (a b c : string) : (a ++ b) ++ c = a ++ (b ++ c).
Proof. induction a as [|x a IH]; str_simpl; congruence. Qed.

Lemma unsplit_cons (u : string) (us : list string) :
  unsplit (u :: us) = u ++ unsplit us.
Proof.
  unfold unsplit. destruct us as [|v us]; simpl.
  - now rewrite append_nil_r.
  - reflexivity.
Qed.

Lemma unsplit_app (us vs : list string) :
  unsplit (us ++ vs) = unsplit us ++ unsplit vs.
Proof.
  induction us as [|u us IH]; [reflexivity|].
  change ((u :: us) ++ vs)%list with (u :: (us ++ vs))%list.
  now rewrite !unsplit_cons, IH, append_assoc.
Qed.

(** Leading white space is skipped. *)
Lemma words_skip (a us : list string) :
  all_white a = true -> words None (a ++ us) = words None us.
Proof.
  induction a as [|u a IH]; simpl; [reflexivity|].
  intros E. apply andb_prop in E as [C A]. rewrite C. auto.
Qed.

(** A run without white space extends the word being read. *)
Lemma words_word (s us : list string) (cur : string) :
  none_white s = true ->
  words (Some cur) (s ++ us) = words (Some (cur ++ unsplit s)) us.
Proof.
  revert cur. induction s as [|u s IH]; simpl; intros cur E.
  - now rewrite append_nil_r.
  - apply andb_prop in E as [C W]. apply negb_true_iff in C. rewrite C.
    rewrite (IH _ W). now rewrite unsplit_cons, append_assoc.
Qed.

Lemma words_word_start (s us : list string) :
  none_white s = true -> s <> [] ->
  words None (s ++ us) = words (Some (unsplit s)) us.
Proof.
  destruct s as [|u s]; [easy|]. simpl. intros E _.
  apply andb_prop in E as [C W]. apply negb_true_iff in C. rewrite C.
  rewrite (words_word _ _ _ W). now rewrite unsplit_cons.
Qed.

(** White space ends the word being read. *)
Lemma words_end_word (b us : list string) (cur : string) :
  all_white b = true -> b <> [] ->
  words (Some cur) (b ++ us) = cur :: words None us.
Proof.
  destruct b as [|u b]; [easy|]. simpl. intros E _.
  apply andb_prop in E as [C B]. rewrite C. now rewrite (words_skip _ _ B).
Qed.

Lemma words_trailing (c : list string) (cur : string) :
  all_white c = true -> words (Some cur) c = [cur].
Proof.
  destruct c as [|u c]; [easy|]. intros E.
  rewrite <- (app_nil_r (u :: c)).
  now rewrite (words_end_word _ _ _ E).
Qed.

(** Two tokens split into exactly those two. *)
Lemma split_two_tokens (h scheme token : string) :
  two_tokens h scheme token -> split h = [scheme; token].
Proof.
  intros (a & s & b & t & c & U & A & B & Bn & C & S & Sn & -> & T & Tn & ->).
  unfold split. rewrite U. rewrite (words_skip _ _ A).
  rewrite (words_word_start _ _ S Sn).
  rewrite (words_end_word _ _ _ B Bn).
  rewrite (words_word_start _ _ T Tn).
  now rewrite (words_trailing _ _ C).
Qed.

(** What is left after a word: nothing, or something that starts with
    white space. *)
Definition at_boundary (us : list string) : Prop :=
  us = [] \/ exists u r, us = u :: r /\ is_white u = true.

Lemma words_word_inv (us : list string) (cur w : string) (l : list string) :
  words (Some cur) us = w :: l ->
  exists s rest,
    us = (s ++ rest)%list /\ none_white s = true /\ w = cur ++ unsplit s /\
    at_boundary rest /\ words None rest = l.
Proof.
  revert cur. induction us as [|u us IH]; simpl; intros cur E.
  - injection E as <- <-. exists [], []. rewrite append_nil_r.
    refine (conj _ (conj _ (conj _ (conj _ _)))); trivial. now left.
  - destruct (is_white u) eqn:C.
    + injection E as <- <-. exists [], (u :: us). rewrite append_nil_r.
      refine (conj _ (conj _ (conj _ (conj _ _)))); trivial.
      * right. eauto.
      * simpl. now rewrite C.
    + destruct (IH _ E) as (s & rest & -> & W & -> & B & L).
      exists (u :: s), rest.
      refine (conj _ (conj _ (conj _ (conj _ _)))); trivial.
      * simpl. now rewrite C, W.
      * now rewrite unsplit_cons, append_assoc.
Qed.

Lemma words_cons_inv (us : list string) (w : string) (l : list string) :
  words None us = w :: l ->
  exists a s rest,
    us = (a ++ s ++ rest)%list /\ all_white a = true /\
    none_white s = true /\ s <> [] /\ w = unsplit s /\
    at_boundary rest /\ words None rest = l.
Proof.
  induction us as [|u us IH]; simpl; [discriminate|]. intros E.
  destruct (is_white u) eqn:C.
  - destruct (IH E) as (a & s & rest & -> & A & S & Sn & W & B & L).
    exists (u :: a), s, rest.
    refine (conj _ (conj _ (conj _ (conj _ (conj _ (conj _ _)))))); trivial.
    simpl. now rewrite C, A.
  - destruct (words_word_inv _ _ _ _ E) as (s & rest & -> & W & -> & B & L).
    exists [], (u :: s), rest.
    refine (conj _ (conj _ (conj _ (conj _ (conj _ (conj _ _)))))); trivial.
    + simpl. now rewrite C, W.
    + discriminate.
    + now rewrite unsplit_cons.
Qed.

Lemma words_some_nonempty (us : list string) (cur : string) :
  words (Some cur) us <> [].
Proof.
  revert cur. induction us as [|u us IH]; simpl; intros cur; [discriminate|].
  destruct (is_white u); [discriminate|apply IH].
Qed.

Lemma words_nil_inv (us : list string) :
  words None us = [] -> all_white us = true.
Proof.
  induction us as [|u us IH]; simpl; [reflexivity|]. intros E.
  destruct (is_white u) eqn:C; [auto|].
  now apply words_some_nonempty in E.
Qed.

(** A header that splits into two words has the two-token shape. *)
Lemma two_tokens_of_split (h scheme token : string) :
  split h = [scheme; token] -> two_tokens h scheme token.
Proof.
  unfold split. intros E.
  destruct (words_cons_inv _ _ _ E) as (a & s & r1 & U & A & S & Sn & -> & B1 & E1).
  destruct (words_cons_inv _ _ _ E1) as (b & t & r2 & -> & B & T & Tn & -> & B2 & E2).
  apply words_nil_inv in E2.
  exists a, s, b, t, r2.
  refine (conj U (conj A (conj B (conj _ (conj E2 (conj S (conj Sn (conj eq_refl
            (conj T (conj Tn eq_refl)))))))))).
  intros ->. destruct t as [|x t]; [easy|].
  destruct B1 as [B1 | (u & r & B1 & C)]; [discriminate|].
  injection B1 as -> _. simpl in T. now rewrite C in T.
Qed.

Theorem split_two_tokens_iff (h scheme token : string) :
  split h = [scheme; token] <-> two_tokens h scheme token.
Proof. split; [apply two_tokens_of_split | apply split_two_tokens]. Qed.

End SplitFacts.

(** ** The token verifier and the authorization guard *)

Module AuthFacts.
Import Py Exc Platform Http Auth Utils.

Section WithRuntime.
Context `{Runtime}.

Lemma py_eqb_str (s t : string) : py_eqb (PStr s) (PStr t) = String.eqb s t.
Proof. reflexivity. Qed.

Lemma int_claim_ok (v : pyval) (c : exn_class) (msg : string) (n : Z) :
  py_int v = Ok n -> PyJWT.int_claim v c msg = Ok n.
Proof. intros E. unfold PyJWT.int_claim. now rewrite E. Qed.

Lemma claim_ok_inv (payload : pydict) (k : string) (test : Z -> bool) :
  PyJWT.claim_ok payload k test = true ->
  dict_lookup payload k = None \/
  exists v n, dict_lookup payload k = Some v /\ py_int v = Ok n /\ test n = true.
Proof.
  unfold PyJWT.claim_ok. destruct (dict_lookup payload k) as [v|]; [|now left].
  destruct (py_int v) as [n|e] eqn:E; [|discriminate].
  intros T. right. now exists v, n.
Qed.

Lemma validate_iat_ok (payload : pydict) (now : Z) :
  PyJWT.claim_ok payload "iat" (fun n => n <=? now) = true ->
  PyJWT.validate_iat payload now = Ok tt.
Proof.
  intros C. unfold PyJWT.validate_iat.
  destruct (claim_ok_inv _ _ _ C) as [E | (v & n & E & I & T)]; rewrite E; [easy|].
  rewrite (int_claim_ok _ _ _ _ I). simpl.
  apply Z.leb_le in T. destruct (now <? n) eqn:L; [|easy].
  apply Z.ltb_lt in L. lia.
Qed.

Lemma validate_nbf_ok (payload : pydict) (now : Z) :
  PyJWT.claim_ok payload "nbf" (fun n => n <=? now) = true ->
  PyJWT.validate_nbf payload now = Ok tt.
Proof.
  intros C. unfold PyJWT.validate_nbf.
  destruct (claim_ok_inv _ _ _ C) as [E | (v & n & E & I & T)]; rewrite E; [easy|].
  rewrite (int_claim_ok _ _ _ _ I). simpl.
  apply Z.leb_le in T. destruct (now <? n) eqn:L; [|easy].
  apply Z.ltb_lt in L. lia.
Qed.

Lemma validate_exp_ok (payload : pydict) (now : Z) :
  PyJWT.claim_ok payload "exp" (fun n => now <? n) = true ->
  PyJWT.validate_exp payload now = Ok tt.
Proof.
  intros C. unfold PyJWT.validate_exp.
  destruct (claim_ok_inv _ _ _ C) as [E | (v & n & E & I & T)]; rewrite E; [easy|].
  rewrite (int_claim_ok _ _ _ _ I). simpl.
  apply Z.ltb_lt in T. destruct (n <=? now) eqn:L; [|easy].
  apply Z.leb_le in L. lia.
Qed.

Lemma validate_aud_ok (payload : pydict) :
  truthy (dict_get payload "aud") = false -> PyJWT.validate_aud payload = Ok tt.
Proof.
  unfold PyJWT.validate_aud, dict_get, dict_get_default.
  destruct (dict_lookup payload "aud") as [v|]; [|easy].
  now intros ->.
Qed.

(** A token with the fixed algorithm and a signature that verifies passes
    the signature step. *)
Lemma verify_signature_hs256 (j : jws) (key : string) :
  dict_lookup (jws_header j) "alg" = Some (PStr "HS256") ->
  sig_verify "HS256" key (jws_signing_input j) (jws_signature j) = Some true ->
  PyJWT.verify_signature j key ["HS256"] = Ok tt.
Proof.
  intros A S. unfold PyJWT.verify_signature. rewrite A. simpl. now rewrite S.
Qed.

(** What [jwt.decode] answers for a well-formed, well-signed token: whatever
    the claim checks say. *)
Lemma decode_signed (now : Z) (token key : string) (j : jws) (payload : pydict) :
  jws_load token = inr j ->
  dict_lookup (jws_header j) "alg" = Some (PStr "HS256") ->
  sig_verify "HS256" key (jws_signing_input j) (jws_signature j) = Some true ->
  jws_payload j = inr (PDict payload) ->
  PyJWT.decode now token key ["HS256"] =
  Exc.rbind (PyJWT.validate_claims payload now) (fun _ => Ok payload).
Proof.
  intros L A S P. unfold PyJWT.decode. rewrite L.
  rewrite (verify_signature_hs256 _ _ A S). simpl.
  unfold PyJWT.decode_payload. now rewrite P.
Qed.

Lemma get_jwt_secret_set (env : environ) (secret : string) :
  getenv env "SUPABASE_JWT_SECRET" = Some secret -> secret <> "" ->
  get_jwt_secret env = Ok secret.
Proof.
  intros E N. unfold get_jwt_secret. rewrite E.
  apply String.eqb_neq in N. now rewrite N.
Qed.

Lemma get_jwt_secret_unset (env : environ) :
  falsy_str (getenv env "SUPABASE_JWT_SECRET") = true ->
  get_jwt_secret env = Raise (Exn AuthError secret_not_set).
Proof.
  unfold get_jwt_secret, falsy_str.
  destruct (getenv env "SUPABASE_JWT_SECRET") as [k|]; [|easy].
  now intros ->.
Qed.

Lemma validate_jwt_of_decode (env : environ) (now : Z) (token secret : string) :
  get_jwt_secret env = Ok secret ->
  validate_jwt env now token =
  match PyJWT.decode now token secret ["HS256"] with
  | Ok payload => Ok payload
  | Raise e => Raise (validate_jwt_handler e)
  end.
Proof. intros E. unfold validate_jwt. now rewrite E. Qed.

Lemma get_user_id_truthy (payload : pydict) (sub : pyval) :
  dict_lookup payload "sub" = Some sub -> truthy sub = true ->
  get_user_id_from_token payload = Ok sub.
Proof.
  intros E T. unfold get_user_id_from_token, dict_get, dict_get_default.
  rewrite E. now rewrite T.
Qed.

Lemma validate_sub_ok (payload : pydict) :
  PyJWT.string_claim payload "sub" = true -> PyJWT.validate_sub payload = Ok tt.
Proof.
  unfold PyJWT.string_claim, PyJWT.validate_sub.
  now destruct (dict_lookup payload "sub") as [[]|].
Qed.

Lemma validate_jti_ok (payload : pydict) :
  PyJWT.string_claim payload "jti" = true -> PyJWT.validate_jti payload = Ok tt.
Proof.
  unfold PyJWT.string_claim, PyJWT.validate_jti.
  now destruct (dict_lookup payload "jti") as [[]|].
Qed.

(** The claims of a payload pass: nothing is in the future or past its
    time, no audience is named, and the subject and the JWT ID are
    strings where they are present. *)
Lemma validate_claims_ok (payload : pydict) (now : Z) :
  PyJWT.claim_ok payload "iat" (fun n => n <=? now) = true ->
  PyJWT.claim_ok payload "nbf" (fun n => n <=? now) = true ->
  PyJWT.claim_ok payload "exp" (fun n => now <? n) = true ->
  truthy (dict_get payload "aud") = false ->
  PyJWT.string_claim payload "sub" = true ->
  PyJWT.string_claim payload "jti" = true ->
  PyJWT.validate_claims payload now = Ok tt.
Proof.
  intros Iat Nbf Exp Aud Sub Jti. unfold PyJWT.validate_claims.
  rewrite (validate_iat_ok _ _ Iat), (validate_nbf_ok _ _ Nbf),
    (validate_exp_ok _ _ Exp). cbn [Exc.rbind].
  rewrite (validate_aud_ok _ Aud), (validate_sub_ok _ Sub). cbn [Exc.rbind].
  apply (validate_jti_ok _ Jti).
Qed.

(** C1, as the code has it: a well-formed token carrying the fixed
    algorithm, signed with the configured secret, not expired, whose
    issued-at and not-before claims are not in the future, that names no
    audience, and whose subject and JWT ID are strings where present, is
    accepted by [validate_jwt].  When its subject is a non-empty string,
    [authenticate_request] returns that subject, unchanged, with the
    decoded claims; when it has no subject, or the empty one,
    [authenticate_request] refuses it with "User ID not found in token
    payload". *)
Theorem C1_authenticate_returns_subject
  (env : environ) (now : Z) (req : HttpRequest) (token secret : string)
  (j : jws) (payload : pydict) :
  extract_token req = Ok token ->
  getenv env "SUPABASE_JWT_SECRET" = Some secret -> secret <> "" ->
  jws_load token = inr j ->
  dict_lookup (jws_header j) "alg" = Some (PStr "HS256") ->
  sig_verify "HS256" secret (jws_signing_input j) (jws_signature j) = Some true ->
  jws_payload j = inr (PDict payload) ->
  PyJWT.claim_ok payload "iat" (fun n => n <=? now) = true ->
  PyJWT.claim_ok payload "nbf" (fun n => n <=? now) = true ->
  PyJWT.claim_ok payload "exp" (fun n => now <? n) = true ->
  truthy (dict_get payload "aud") = false ->
  PyJWT.string_claim payload "sub" = true ->
  PyJWT.string_claim payload "jti" = true ->
  validate_jwt env now token = Ok payload /\
  (forall u, dict_lookup payload "sub" = Some (PStr u) -> u <> "" ->
     get_user_id_from_token payload = Ok (PStr u) /\
     authenticate_request env now req = Ok (PStr u, payload)) /\
  (dict_lookup payload "sub" = None \/ dict_lookup payload "sub" = Some (PStr "") ->
   authenticate_request env now req
   = Raise (Exn AuthError "User ID not found in token payload")).
Proof.
  intros X E N L A S P Iat Nbf Exp Aud Sub Jti.
  assert (V : validate_jwt env now token = Ok payload).
  { rewrite (validate_jwt_of_decode _ _ _ _ (get_jwt_secret_set _ _ E N)).
    rewrite (decode_signed _ _ _ _ _ L A S P).
    now rewrite (validate_claims_ok _ _ Iat Nbf Exp Aud Sub Jti). }
  split; [exact V|]. split.
  - intros u U Nu.
    assert (T : truthy (PStr u) = true)
      by (simpl; apply negb_true_iff; now apply String.eqb_neq).
    pose proof (get_user_id_truthy _ _ U T) as G.
    split; [exact G|].
    unfold authenticate_request. rewrite X. cbn [Exc.rbind]. rewrite V.
    cbn [Exc.rbind]. now rewrite G.
  - intros U. unfold authenticate_request. rewrite X. cbn [Exc.rbind].
    rewrite V. cbn [Exc.rbind].
    unfold get_user_id_from_token, dict_get, dict_get_default.
    now destruct U as [-> | ->].
Qed.

Lemma py_eqb_to_str (a : pyval) (s : string) :
  py_eqb a (PStr s) = true -> a = PStr s.
Proof.
  destruct a; simpl; try discriminate.
  intros E. apply String.eqb_eq in E. now subst.
Qed.

(** The signature step refuses a header that names anything but the one
    algorithm the call allows, without looking at the signature. *)
Lemma verify_signature_other_alg (j : jws) (key : string) :
  dict_lookup (jws_header j) "alg" <> Some (PStr "HS256") ->
  exists msg,
    PyJWT.verify_signature j key ["HS256"] = Raise (Exn InvalidAlgorithmError msg).
Proof.
  intros A. unfold PyJWT.verify_signature.
  destruct (dict_lookup (jws_header j) "alg") as [alg|]; [|eauto].
  destruct (truthy alg); simpl; [|eauto].
  destruct (py_eqb alg (PStr "HS256")) eqn:E; [|eauto].
  apply py_eqb_to_str in E. now subst.
Qed.

Lemma decode_other_alg (now : Z) (token key : string) :
  (forall j, jws_load token = inr j ->
             dict_lookup (jws_header j) "alg" <> Some (PStr "HS256")) ->
  exists e,
    PyJWT.decode now token key ["HS256"] = Raise e /\
    is_InvalidTokenError (exn_class_of e) = true /\
    (forall j, jws_load token = inr j -> exn_class_of e = InvalidAlgorithmError).
Proof.
  intros A. unfold PyJWT.decode.
  destruct (jws_load token) as [msg|j] eqn:L.
  - eexists. split; [reflexivity|]. split; [reflexivity|]. discriminate.
  - destruct (verify_signature_other_alg j key (A j eq_refl)) as [msg V].
    rewrite V. eexists. split; [reflexivity|]. now split.
Qed.

(** C2: the verifier accepts the single algorithm written in the call.  A
    token whose header names another algorithm, or none, is refused by
    [validate_jwt] with an [AuthError] and by [get_authenticated_user_id]
    with [None], for every secret and every signature; when the secret is
    configured the refusal is PyJWT's [InvalidAlgorithmError], raised before
    any signature is computed. *)
Theorem C2_only_hs256 (env : environ) (now : Z) (token : string) :
  (forall j, jws_load token = inr j ->
             dict_lookup (jws_header j) "alg" <> Some (PStr "HS256")) ->
  (exists msg, validate_jwt env now token = Raise (Exn AuthError msg)) /\
  (forall key j, jws_load token = inr j ->
     exists msg,
       PyJWT.decode now token key ["HS256"] =
       Raise (Exn InvalidAlgorithmError msg)) /\
  (forall req,
     (forall h,
        or_str (headers_get req "Authorization")
          (headers_get req "authorization") = Some h ->
        strip (replace h "Bearer " "") = token) ->
     get_authenticated_user_id env now req = PNone).
Proof.
  intros A. split; [|split].
  - destruct (get_jwt_secret env) as [secret|e] eqn:G.
    + rewrite (validate_jwt_of_decode _ _ _ _ G).
      destruct (decode_other_alg now token secret A) as (e & D & C & _).
      rewrite D. unfold validate_jwt_handler. rewrite C.
      destruct (exn_class_eqb (exn_class_of e) ExpiredSignatureError); eauto.
    + unfold validate_jwt. rewrite G. cbn [Exc.rbind].
      unfold validate_jwt_handler.
      destruct (exn_class_eqb (exn_class_of e) ExpiredSignatureError); eauto.
      destruct (is_InvalidTokenError (exn_class_of e)); eauto.
  - intros key j L. destruct (decode_other_alg now token key A) as (e & D & _ & C).
    specialize (C j L). destruct e as [c msg]. simpl in C. subst c. eauto.
  - intros req T. unfold get_authenticated_user_id.
    destruct (or_str _ _) as [h|] eqn:O; [|reflexivity].
    specialize (T h eq_refl). change (default "" (Some h)) with h.
    destruct (_ || _); [reflexivity|]. rewrite T.
    unfold decode_sub.
    destruct (falsy_str (getenv env "SUPABASE_JWT_SECRET")); [reflexivity|].
    destruct (decode_other_alg now token
                (default "" (getenv env "SUPABASE_JWT_SECRET")) A)
      as (e & D & _). now rewrite D.
Qed.

(** The expiry check speaks for a token that passed every earlier check. *)
Lemma decode_expired (now : Z) (token key : string) (j : jws)
  (payload : pydict) :
  jws_load token = inr j ->
  dict_lookup (jws_header j) "alg" = Some (PStr "HS256") ->
  sig_verify "HS256" key (jws_signing_input j) (jws_signature j) = Some true ->
  jws_payload j = inr (PDict payload) ->
  PyJWT.claim_ok payload "iat" (fun n => n <=? now) = true ->
  PyJWT.claim_ok payload "nbf" (fun n => n <=? now) = true ->
  dict_has payload "exp" = true ->
  PyJWT.claim_ok payload "exp" (fun n => n <=? now) = true ->
  PyJWT.decode now token key ["HS256"] =
  Raise (Exn ExpiredSignatureError "Signature has expired").
Proof.
  intros L A S P Iat Nbf Has Exp.
  rewrite (decode_signed _ _ _ _ _ L A S P).
  unfold PyJWT.validate_claims.
  rewrite (validate_iat_ok _ _ Iat), (validate_nbf_ok _ _ Nbf). simpl.
  unfold PyJWT.validate_exp.
  destruct (claim_ok_inv _ _ _ Exp) as [E | (v & n & E & I & T)].
  - unfold dict_has in Has. now rewrite E in Has.
  - rewrite E, (int_claim_ok _ _ _ _ I). simpl. now rewrite T.
Qed.

Definition missing_header : exn := Exn AuthError "Missing Authorization header".

Definition malformed_header : exn :=
  Exn AuthError "Invalid Authorization header format. Expected 'Bearer <token>'".

Lemma extract_token_empty (req : HttpRequest) :
  falsy_str (headers_get req "Authorization") = true ->
  extract_token req = Raise missing_header.
Proof.
  unfold extract_token, falsy_str.
  destruct (headers_get req "Authorization") as [h|]; [|reflexivity].
  now intros ->.
Qed.

Lemma extract_token_split (req : HttpRequest) (h : string) :
  headers_get req "Authorization" = Some h -> h <> "" ->
  extract_token req =
  match split h with
  | [scheme; token] =>
      if String.eqb (str_lower scheme) "bearer" then Ok token
      else Raise malformed_header
  | _ => Raise malformed_header
  end.
Proof.
  intros E N. unfold extract_token. rewrite E.
  apply String.eqb_neq in N. rewrite N.
  destruct (split h) as [|a [|b [|c l]]]; try reflexivity.
  now destruct (String.eqb (str_lower a) "bearer").
Qed.

Lemma extract_token_cases (req : HttpRequest) :
  (exists token, extract_token req = Ok token) \/
  extract_token req = Raise missing_header \/
  extract_token req = Raise malformed_header.
Proof.
  destruct (falsy_str (headers_get req "Authorization")) eqn:F.
  - right. left. now apply extract_token_empty.
  - unfold falsy_str in F.
    destruct (headers_get req "Authorization") as [h|] eqn:E; [|discriminate].
    apply String.eqb_neq in F. rewrite (extract_token_split _ _ E F).
    destruct (split h) as [|a [|b [|c l]]]; auto.
    destruct (String.eqb (str_lower a) "bearer"); eauto.
Qed.

(** A header error ends [authenticate_request]: the verifier is not
    called. *)
Lemma authenticate_request_stops (env : environ) (now : Z) (req : HttpRequest)
  (e : exn) :
  extract_token req = Raise e -> authenticate_request env now req = Raise e.
Proof.
  intros X. unfold authenticate_request. rewrite X. cbn [Exc.rbind].
  destruct (extract_token_cases req) as [(t & X') | [X' | X']];
    rewrite X' in X; inversion X; reflexivity.
Qed.

(** C5, as the code has it.  [extract_token] fails with the missing-header
    error when the authorization header is absent or empty; for any other
    header it returns a token exactly when the header consists of two
    tokens separated by white space -- any characters [str.isspace]
    accepts -- of which the first is "bearer" in any letter case, the
    token returned being the second, and fails with the malformed-header
    error otherwise; [authenticate_request] stops with
    that error, so nothing else reaches the verifier.
    [get_authenticated_user_id] has its own test: it answers [None] unless
    the header starts with the exact prefix "Bearer ", and otherwise hands
    the verifier the header with every "Bearer " removed, stripped. *)
Theorem C5_extract_token (req : HttpRequest) :
  (falsy_str (headers_get req "Authorization") = true ->
   extract_token req = Raise missing_header) /\
  (forall h, headers_get req "Authorization" = Some h -> h <> "" ->
     (forall token,
        extract_token req = Ok token <->
        exists scheme,
          HeaderShape.two_tokens h scheme token /\ str_lower scheme = "bearer") /\
     ((forall scheme token,
         HeaderShape.two_tokens h scheme token -> str_lower scheme <> "bearer") ->
      extract_token req = Raise malformed_header)) /\
  (forall env now e,
     extract_token req = Raise e -> authenticate_request env now req = Raise e) /\
  (forall env now,
     let header := or_str (headers_get req "Authorization")
                     (headers_get req "authorization") in
     (falsy_str header = true \/ startswith (default "" header) "Bearer " = false ->
      get_authenticated_user_id env now req = PNone) /\
     (falsy_str header = false -> startswith (default "" header) "Bearer " = true ->
      get_authenticated_user_id env now req =
      match decode_sub env now (strip (replace (default "" header) "Bearer " "")) with
      | Ok user_id => user_id
      | Raise _ => PNone
      end)).
Proof.
  split; [apply extract_token_empty|]. split; [|split].
  - intros h E N. rewrite (extract_token_split _ _ E N). split.
    + intros token. split.
      * destruct (split h) as [|a [|b [|c l]]] eqn:S; try discriminate.
        destruct (String.eqb (str_lower a) "bearer") eqn:B; [|discriminate].
        intros [= <-]. exists a. split.
        -- now apply SplitFacts.two_tokens_of_split.
        -- now apply String.eqb_eq.
      * intros (scheme & T & B). rewrite (SplitFacts.split_two_tokens _ _ _ T).
        apply String.eqb_eq in B. now rewrite B.
    + intros No. destruct (split h) as [|a [|b [|c l]]] eqn:S; try reflexivity.
      destruct (String.eqb (str_lower a) "bearer") eqn:B; [|reflexivity].
      apply String.eqb_eq in B.
      now destruct (No a b (SplitFacts.two_tokens_of_split _ _ _ S)).
  - intros env now e. apply authenticate_request_stops.
  - intros env now header. unfold get_authenticated_user_id. fold header. split.
    + intros [F | S]; [now rewrite F|]. rewrite S. simpl.
      now rewrite orb_true_r.
    + intros F S. now rewrite F, S.
Qed.

(** The verifier's answer when the process has no signing secret: the
    [AuthError] every other authentication failure raises, with its own
    text. *)
Lemma validate_jwt_without_secret (env : environ) (now : Z) (token : string) :
  falsy_str (getenv env "SUPABASE_JWT_SECRET") = true ->
  validate_jwt env now token =
  Raise (Exn AuthError ("Token validation failed: " ++ secret_not_set)).
Proof.
  intros F. unfold validate_jwt. now rewrite (get_jwt_secret_unset _ F).
Qed.

Lemma validate_jwt_expired (env : environ) (now : Z) (token secret : string)
  (j : jws) (payload : pydict) :
  getenv env "SUPABASE_JWT_SECRET" = Some secret -> secret <> "" ->
  jws_load token = inr j ->
  dict_lookup (jws_header j) "alg" = Some (PStr "HS256") ->
  sig_verify "HS256" secret (jws_signing_input j) (jws_signature j) = Some true ->
  jws_payload j = inr (PDict payload) ->
  PyJWT.claim_ok payload "iat" (fun n => n <=? now) = true ->
  PyJWT.claim_ok payload "nbf" (fun n => n <=? now) = true ->
  dict_has payload "exp" = true ->
  PyJWT.claim_ok payload "exp" (fun n => n <=? now) = true ->
  validate_jwt env now token = Raise (Exn AuthError "Token has expired").
Proof.
  intros E N L A S P Iat Nbf Has Exp.
  rewrite (validate_jwt_of_decode _ _ _ _ (get_jwt_secret_set _ _ E N)).
  now rewrite (decode_expired _ _ _ _ _ L A S P Iat Nbf Has Exp).
Qed.

(** [get_authenticated_user_id] answers [None] whenever [jwt.decode] raises
    on the token it extracted. *)
Lemma no_user_when_decode_raises (env : environ) (now : Z) (req : HttpRequest) :
  (forall h,
     or_str (headers_get req "Authorization")
       (headers_get req "authorization") = Some h ->
     exists e,
       PyJWT.decode now (strip (replace h "Bearer " ""))
         (default "" (getenv env "SUPABASE_JWT_SECRET")) ["HS256"] = Raise e) ->
  get_authenticated_user_id env now req = PNone.
Proof.
  intros D. unfold get_authenticated_user_id.
  destruct (or_str _ _) as [h|]; [|reflexivity].
  destruct (D h eq_refl) as [e E]. change (default "" (Some h)) with h.
  destruct (_ || _); [reflexivity|]. unfold decode_sub.
  destruct (falsy_str _); [reflexivity|]. now rewrite E.
Qed.

End WithRuntime.
End AuthFacts.

(** ** What a response code says about the store *)

Module Effects.
Import Py Exc Platform Http Cosmos Handlers.

Section WithRuntime.
Context `{Runtime}.

(** Every response [m] can produce satisfies [P]. *)
Definition answers (P : HttpResponse -> Prop) (m : M HttpResponse) : Prop :=
  forall s, match m s with
            | (Ok r, _) => P r
            | (Raise _, _) => True
            end.

(** [m] does not change what [view] shows of the store. *)
Definition preserves {V A : Type} (view : Store -> V) (m : M A) : Prop :=
  forall s, view (snd (m s)) = view s.

(** Whenever [m] answers with one of [codes], [view] shows the store as it
    was. *)
Definition keeps {V : Type} (view : Store -> V) (codes : Z -> bool)
  (m : M HttpResponse) : Prop :=
  forall s, match m s with
            | (Ok r, s') => codes (status_code r) = true -> view s' = view s
            | (Raise _, _) => True
            end.

Lemma answers_ret (P : HttpResponse -> Prop) (r : HttpResponse) :
  P r -> answers P (ret r).
Proof. intros p s. exact p. Qed.

Lemma answers_bind {A : Type} (P : HttpResponse -> Prop) (m : M A)
  (k : A -> M HttpResponse) :
  (forall a, answers P (k a)) -> answers P (bind m k).
Proof.
  intros K s. unfold bind. destruct (m s) as [[a|e] s']; [apply K|exact I].
Qed.

Lemma keeps_ret {V : Type} (view : Store -> V) codes (r : HttpResponse) :
  keeps view codes (ret r).
Proof. intros s. simpl. intros _. reflexivity. Qed.

Lemma keeps_bind {V A : Type} (view : Store -> V) codes (m : M A)
  (k : A -> M HttpResponse) :
  preserves view m -> (forall a, keeps view codes (k a)) ->
  keeps view codes (bind m k).
Proof.
  intros Pm K s. unfold bind. specialize (Pm s).
  destruct (m s) as [[a|e] s']; [|exact I]. simpl in Pm.
  pose proof (K a s') as K'. unfold keeps in K'.
  destruct (k a s') as [[r|e] s'']; [|exact I].
  intros C. rewrite (K' C). exact Pm.
Qed.

Lemma keeps_answers {V : Type} (view : Store -> V) codes (m : M HttpResponse) :
  answers (fun r => codes (status_code r) = false) m -> keeps view codes m.
Proof.
  intros A s. specialize (A s). destruct (m s) as [[r|e] s']; [|exact I].
  intros C. congruence.
Qed.

(** The rule for a whole handler: the catch-all answers 500. *)
Lemma run_handler_keeps {V : Type} (view : Store -> V) codes (failure : string)
  (m : M HttpResponse) (s : Store) :
  keeps view codes m -> codes 500 = false ->
  codes (status_code (fst (run_handler failure m s))) = true ->
  view (snd (run_handler failure m s)) = view s.
Proof.
  intros K F. unfold run_handler. specialize (K s).
  destruct (m s) as [[r|e] s']; simpl; [exact K|]. congruence.
Qed.

Lemma preserves_lift {V A : Type} (view : Store -> V) (r : result A) :
  preserves view (lift r).
Proof. intros s. reflexivity. Qed.

Lemma preserves_item_read {V : Type} (view : Store -> V) c ref :
  preserves view (item_read c ref).
Proof. intros s. reflexivity. Qed.

Lemma preserves_items_read {V : Type} (view : Store -> V) c refs :
  preserves view (items_read c refs).
Proof. intros s. reflexivity. Qed.

Lemma documents_log (c : store_call) (s : Store) :
  documents (log_call c s) = documents s.
Proof. reflexivity. Qed.

Lemma preserves_query c parameters :
  preserves documents (query_items c parameters).
Proof. intros s. reflexivity. Qed.

End WithRuntime.

(** The codes of a failed authentication or validation. *)
Definition rejected (code : Z) : bool := (code =? 400) || (code =? 401).

Definition denied (code : Z) : bool :=
  (code =? 403) || (code =? 404) || (code =? 409).

(** Proves [answers P m] for a handler body whose responses are literal. *)
Ltac answers :=
  repeat first
    [ apply answers_ret; reflexivity
    | apply answers_bind; intros
    | match goal with
      | |- answers _ (match ?x with _ => _ end) => destruct x
      | |- answers _ (if ?x then _ else _) => destruct x
      end ].

(** Proves [keeps view codes m]: store-preserving steps are walked through,
    the rest of the body must answer outside [codes]. *)
Ltac keeps :=
  repeat first
    [ apply keeps_ret
    | apply keeps_bind;
      [ first [ apply preserves_lift | apply preserves_item_read
              | apply preserves_items_read | apply preserves_query ]
      | intros ]
    | match goal with
      | |- keeps _ _ (match ?x with _ => _ end) => destruct x
      | |- keeps _ _ (if ?x then _ else _) => destruct x
      end
    | apply keeps_answers; answers ].

End Effects.

(** ** The handlers *)

Module HandlerFacts.
Import Py Exc Platform Http Cosmos Utils Auth Handlers Functions Effects
  Refusals.

Section WithRuntime.
Context `{Runtime}.

Definition whole (s : Store) : Store := s.

Lemma upvote_problem_rejected w req s :
  rejected (status_code (fst (upvote_problem w req s))) = true ->
  snd (upvote_problem w req s) = s.
Proof.
  apply (run_handler_keeps whole); [|reflexivity]. cbv zeta. keeps.
Qed.

Lemma remove_upvote_rejected w req s :
  rejected (status_code (fst (remove_upvote w req s))) = true ->
  snd (remove_upvote w req s) = s.
Proof.
  apply (run_handler_keeps whole); [|reflexivity]. cbv zeta. keeps.
Qed.

Lemma create_problem_rejected w req s :
  rejected (status_code (fst (create_problem w req s))) = true ->
  snd (create_problem w req s) = s.
Proof.
  apply (run_handler_keeps whole); [|reflexivity]. cbv zeta. keeps.
Qed.

Lemma update_problem_rejected w req s :
  rejected (status_code (fst (update_problem w req s))) = true ->
  snd (update_problem w req s) = s.
Proof.
  apply (run_handler_keeps whole); [|reflexivity]. cbv zeta. keeps.
Qed.

Lemma delete_problem_rejected w req s :
  rejected (status_code (fst (delete_problem w req s))) = true ->
  snd (delete_problem w req s) = s.
Proof.
  apply (run_handler_keeps whole); [|reflexivity]. cbv zeta. keeps.
Qed.

Lemma get_problems_rejected w req s :
  rejected (status_code (fst (get_problems w req s))) = true ->
  snd (get_problems w req s) = s.
Proof.
  apply (run_handler_keeps whole); [|reflexivity]. cbv zeta. keeps.
Qed.

Lemma get_user_problems_rejected w req s :
  rejected (status_code (fst (get_user_problems w req s))) = true ->
  snd (get_user_problems w req s) = s.
Proof.
  apply (run_handler_keeps whole); [|reflexivity]. cbv zeta. keeps.
Qed.

Lemma wallet_by_id_rejected w req s :
  rejected (status_code (fst (wallet_by_id w req s))) = true ->
  snd (wallet_by_id w req s) = s.
Proof.
  unfold wallet_by_id. cbv zeta.
  destruct (negb _); [reflexivity|].
  destruct (String.eqb _ ""); [reflexivity|].
  apply (run_handler_keeps whole); [|reflexivity]. keeps.
Qed.

Lemma get_posts_main_rejected w req s :
  rejected (status_code (fst (get_posts_main w req s))) = true ->
  snd (get_posts_main w req s) = s.
Proof.
  unfold get_posts_main.
  destruct (authenticate_request _ _ _) as [[user_id payload]|e]; [|reflexivity].
  destruct (posts_pagination req) as [[limit offset]|]; [|reflexivity].
  destruct (get_posts user_id limit offset s) as [[posts|e] s']; discriminate.
Qed.

Lemma endpoints_rejected (h : endpoint) w req s :
  In h endpoints ->
  rejected (status_code (fst (h w req s))) = true -> snd (h w req s) = s.
Proof.
  unfold endpoints, utils_endpoints. simpl.
  intros [<-|[<-|[<-|[<-|[<-|[<-|[<-|[<-|[<-|[]]]]]]]]]].
  - apply get_problems_rejected.
  - apply get_posts_main_rejected.
  - apply upvote_problem_rejected.
  - apply remove_upvote_rejected.
  - apply create_problem_rejected.
  - apply update_problem_rejected.
  - apply delete_problem_rejected.
  - apply get_user_problems_rejected.
  - apply wallet_by_id_rejected.
Qed.

(** A request [get_authenticated_user_id] gives no identity is answered 401
    by every endpoint that relies on it, the store untouched. *)
Lemma utils_endpoints_unauthenticated (h : endpoint) w req s :
  In h utils_endpoints ->
  truthy (get_authenticated_user_id (env w) (now w) req) = false ->
  h w req s = (auth_required_response, s).
Proof.
  unfold utils_endpoints. simpl.
  intros [<-|[<-|[<-|[<-|[<-|[<-|[<-|[]]]]]]]] T;
    unfold upvote_problem, remove_upvote, create_problem, update_problem,
      delete_problem, get_user_problems, wallet_by_id, run_handler;
    cbv zeta; now rewrite T.
Qed.

(** The comments endpoint opens its container between authentication and
    validation. *)
Lemma get_cosmos_container_calls w s s' :
  get_cosmos_container w s = (Ok tt, s') ->
  documents s' = documents s /\
  exists db c,
    calls s' = (calls s ++ [CreateDatabaseIfNotExists db;
                            CreateContainerIfNotExists c])%list.
Proof.
  unfold get_cosmos_container, bind, lift, record.
  destruct (get_env_var (env w) "COSMOS_ENDPOINT"); [|discriminate].
  destruct (get_env_var (env w) "COSMOS_KEY"); [|discriminate].
  destruct (get_env_var (env w) "COSMOS_DATABASE") as [db|]; [|discriminate].
  destruct (get_env_var (env w) "COSMOS_CONTAINER") as [c|]; [|discriminate].
  destruct (cosmos_create_if_not_exists db); [|discriminate].
  destruct (cosmos_create_if_not_exists c) as [[]|]; [|discriminate].
  intros [= <-]. split; [reflexivity|]. exists db, c. simpl.
  now rewrite <- app_assoc.
Qed.

Lemma comments_main_rejected w req s r s' :
  comments_main w req s = (Ok r, s') ->
  (status_code r = 401 -> s' = s) /\
  (status_code r = 400 ->
   documents s' = documents s /\
   exists db c,
     calls s' = (calls s ++ [CreateDatabaseIfNotExists db;
                             CreateContainerIfNotExists c])%list).
Proof.
  unfold comments_main.
  destruct (get_supabase_user_id w req) as [user_id|e].
  - unfold comments_body, bind.
    destruct (get_cosmos_container w s) as [[[]|e] s1] eqn:G; [|discriminate].
    apply get_cosmos_container_calls in G.
    destruct (String.eqb (method req) "GET").
    + destruct (params req !! "problemId") as [problem_id|].
      * destruct (String.eqb problem_id "").
        -- intros [= <- <-]. simpl. split; [discriminate|now intros _].
        -- unfold record, lift, ret.
           destruct (cosmos_query_items _ _); intros [= <- <-].
           simpl. split; discriminate.
      * intros [= <- <-]. simpl. split; [discriminate|now intros _].
    + destruct (String.eqb (method req) "POST").
      * destruct (json_body req) as [data|].
        -- unfold lift, ret, record, throw.
           destruct (py_get data "problemId" PNone); [|discriminate].
           destruct (py_get data "text" PNone); [|discriminate].
           destruct (_ || _).
           ++ intros [= <- <-]. simpl. split; [discriminate|now intros _].
           ++ destruct (word_count _); [|discriminate].
              destruct (cosmos_create_item _) as [|e].
              ** intros [= <- <-]. simpl. split; discriminate.
              ** destruct (is_CosmosHttpResponseError _); [|discriminate].
                 intros [= <- <-]. simpl. split; discriminate.
        -- intros [= <- <-]. simpl. split; [discriminate|now intros _].
      * intros [= <- <-]. simpl. split; discriminate.
  - destruct (exn_class_eqb _ _); intros [= <- <-]; simpl;
      split; try reflexivity; discriminate.
Qed.

(** *** Requests that fail validation *)

Lemma create_problem_invalid w req s msg :
  truthy (get_authenticated_user_id (env w) (now w) req) = true ->
  invalid_problem req msg ->
  create_problem w req s = (response 400 (error_body msg), s).
Proof.
  intros T I. unfold create_problem, run_handler. cbv zeta. rewrite T.
  cbn [negb].
  destruct I as [J | data msg J V | data category J V C N]; rewrite J.
  - reflexivity.
  - unfold bind, lift, ret. fold required_of_a_problem. now rewrite V.
  - unfold bind, lift, ret. fold required_of_a_problem. rewrite V.
    cbv beta iota. rewrite C. cbv beta iota. now rewrite N.
Qed.

Lemma update_problem_not_json w req s :
  truthy (get_authenticated_user_id (env w) (now w) req) = true ->
  json_body req = None ->
  update_problem w req s = (response 400 (error_body "Invalid JSON"), s).
Proof.
  intros T J. unfold update_problem, run_handler. cbv zeta.
  now rewrite T, J.
Qed.

Lemma wallet_by_id_blank w req s :
  truthy (get_authenticated_user_id (env w) (now w) req) = true ->
  strip (default "" (route_params req !! "wallet_id")) = "" ->
  wallet_by_id w req s = (response 400 (error_body "wallet_id is required"), s).
Proof.
  intros T B. unfold wallet_by_id. cbv zeta. now rewrite T, B.
Qed.

Lemma get_posts_main_bad_page w req s user payload :
  authenticate_request (env w) (now w) req = Ok (user, payload) ->
  posts_pagination req = None ->
  get_posts_main w req s
  = (response 400 (error_body "Invalid limit or offset parameters"), s).
Proof. intros A P. unfold get_posts_main. now rewrite A, P. Qed.

(** A listing parameter that is not an integer ends [get_problems] before
    it queries the store; the catch-all answers 500. *)
Lemma get_problems_bad_parameter w req s :
  bad_listing_parameter req ->
  exists r, get_problems w req s = (r, s) /\ status_code r = 500.
Proof.
  intros (name & dflt & e & I & E).
  unfold get_problems, run_handler, bind, lift. cbv zeta.
  destruct (param_int req "budgetMin" 0) as [bmin|] eqn:E1;
    [|eexists; split; reflexivity].
  destruct (param_int req "budgetMax" 999999) as [bmax|] eqn:E2;
    [|eexists; split; reflexivity].
  destruct (param_int req "limit" 100) as [limit|] eqn:E3;
    [|eexists; split; reflexivity].
  destruct (param_int req "offset" 0) as [offset|] eqn:E4;
    [|eexists; split; reflexivity].
  simpl in I. destruct I as [[= <- <-]|[[= <- <-]|[[= <- <-]|[[= <- <-]|[]]]]];
    congruence.
Qed.

Lemma get_user_problems_bad_parameter w req s :
  truthy (get_authenticated_user_id (env w) (now w) req) = true ->
  bad_page_parameter req ->
  exists r, get_user_problems w req s = (r, s) /\ status_code r = 500.
Proof.
  intros T (name & dflt & e & I & E).
  unfold get_user_problems, run_handler, bind, lift. cbv zeta. rewrite T.
  cbn [negb].
  destruct (param_int req "limit" 100) as [limit|] eqn:E1;
    [|eexists; split; reflexivity].
  destruct (param_int req "offset" 0) as [offset|] eqn:E2;
    [|eexists; split; reflexivity].
  simpl in I. destruct I as [[= <- <-]|[[= <- <-]|[]]]; congruence.
Qed.

(** A request whose header [get_authenticated_user_id] does not take, or
    whose token the decoder refuses, has no identity. *)
Lemma no_identity env now req :
  let header := or_str (headers_get req "Authorization")
                  (headers_get req "authorization") in
  falsy_str header = true \/
  startswith (default "" header) "Bearer " = false \/
  (exists e, decode_sub env now (strip (replace (default "" header) "Bearer " ""))
             = Raise e) ->
  get_authenticated_user_id env now req = PNone.
Proof.
  intros header C. unfold get_authenticated_user_id. fold header.
  destruct (falsy_str header || negb (startswith (default "" header) "Bearer "))
    eqn:G; [reflexivity|].
  apply orb_false_iff in G as [F S]. apply negb_false_iff in S.
  destruct C as [C|[C|[e C]]]; [congruence|congruence|].
  now rewrite C.
Qed.

Lemma posts_listing_bad_header w req s e :
  extract_token req = Raise e ->
  get_posts_main w req s = (response 401 (error_body (exn_text e)), s).
Proof.
  intros X. unfold get_posts_main.
  now rewrite (AuthFacts.authenticate_request_stops _ _ _ _ X).
Qed.

Lemma posts_listing_bad_token w req s token msg :
  extract_token req = Ok token ->
  validate_jwt (env w) (now w) token = Raise (Exn AuthError msg) ->
  get_posts_main w req s = (response 401 (error_body msg), s).
Proof.
  intros X V. unfold get_posts_main, authenticate_request.
  rewrite X. cbn [Exc.rbind]. now rewrite V.
Qed.

Lemma comments_main_unauthenticated w req s e :
  get_supabase_user_id w req = Raise e ->
  exists r, comments_main w req s = (Ok r, s) /\ status_code r = 401.
Proof.
  intros A. unfold comments_main. rewrite A.
  destruct (exn_class_eqb _ _); eexists; split; reflexivity.
Qed.

Lemma comments_main_invalid w req s s1 user msg :
  get_supabase_user_id w req = Ok user ->
  get_cosmos_container w s = (Ok tt, s1) ->
  invalid_comment req msg ->
  comments_main w req s = (Ok (response 400 (error_body msg)), s1).
Proof.
  intros A G I. unfold comments_main. rewrite A.
  unfold comments_body, bind. rewrite G.
  destruct I as [M P | M J | data M J F]; rewrite M; cbn [String.eqb Ascii.eqb Bool.eqb].
  - unfold falsy_str in P.
    destruct (params req !! "problemId") as [problem_id|]; [|reflexivity].
    now rewrite P.
  - now rewrite J.
  - rewrite J. unfold lift, ret. cbn [py_get].
    fold (dict_get data "problemId"). fold (dict_get data "text").
    apply andb_false_iff in F.
    destruct (truthy (dict_get data "problemId")),
      (truthy (dict_get data "text")); try reflexivity.
    destruct F; discriminate.
Qed.

(** C6, as the code has it.  A request that fails authentication -- its
    authorization header is missing or is not what the endpoint expects,
    or its token is refused -- is answered 401 before any store call, at
    every endpoint that authenticates (the problems listing does
    not).  A request of
    an authenticated caller that fails validation -- a body that is not
    JSON, a required field missing, a category that is not one of the
    six, a blank wallet id, a limit or offset of the posts listing that is
    not an integer -- is answered 400 before any store call; a listing
    parameter of [get_problems] or [get_user_problems] that [int] does not
    read ends the handler with 500, also before any store call.  The store is left as it was found, call
    log included; and whenever one of these endpoints answers 400 or 401
    it has left the store so.  The comments endpoint authenticates first
    too, but opens its container -- it creates the database and the
    container unless they exist -- before it validates the request: its
    400 answers come with those two calls, and with no call on any
    item. *)
Theorem C6_rejected_requests_leave_the_store (w : World) (req : HttpRequest)
  (s : Store) :
  (truthy (get_authenticated_user_id (env w) (now w) req) = false ->
   forall h : endpoint, In h utils_endpoints ->
     h w req s = (auth_required_response, s)) /\
  (forall e,
     authenticate_request (env w) (now w) req = Raise e ->
     get_posts_main w req s = (response 401 (error_body (exn_text e)), s)) /\
  (forall e,
     get_supabase_user_id w req = Raise e ->
     exists r, comments_main w req s = (Ok r, s) /\ status_code r = 401) /\
  (truthy (get_authenticated_user_id (env w) (now w) req) = true ->
   (forall msg, invalid_problem req msg ->
      create_problem w req s = (response 400 (error_body msg), s)) /\
   (json_body req = None ->
    update_problem w req s = (response 400 (error_body "Invalid JSON"), s)) /\
   (strip (default "" (route_params req !! "wallet_id")) = "" ->
    wallet_by_id w req s
    = (response 400 (error_body "wallet_id is required"), s))) /\
  (forall user payload,
     authenticate_request (env w) (now w) req = Ok (user, payload) ->
     posts_pagination req = None ->
     get_posts_main w req s
     = (response 400 (error_body "Invalid limit or offset parameters"), s)) /\
  (bad_listing_parameter req ->
   exists r, get_problems w req s = (r, s) /\ status_code r = 500) /\
  (truthy (get_authenticated_user_id (env w) (now w) req) = true ->
   bad_page_parameter req ->
   exists r, get_user_problems w req s = (r, s) /\ status_code r = 500) /\
  (forall h : endpoint,
     In h endpoints ->
     rejected (status_code (fst (h w req s))) = true ->
     snd (h w req s) = s) /\
  (forall user s1 msg,
     get_supabase_user_id w req = Ok user ->
     get_cosmos_container w s = (Ok tt, s1) ->
     invalid_comment req msg ->
     comments_main w req s = (Ok (response 400 (error_body msg)), s1) /\
     documents s1 = documents s /\
     exists db c,
       calls s1 = (calls s ++ [CreateDatabaseIfNotExists db;
                               CreateContainerIfNotExists c])%list) /\
  (forall r s',
     comments_main w req s = (Ok r, s') ->
     (status_code r = 401 -> s' = s) /\
     (status_code r = 400 ->
      documents s' = documents s /\
      exists db c,
        calls s' = (calls s ++ [CreateDatabaseIfNotExists db;
                                CreateContainerIfNotExists c])%list)) /\
  (let header := or_str (headers_get req "Authorization")
                   (headers_get req "authorization") in
   falsy_str header = true \/
   startswith (default "" header) "Bearer " = false \/
   (exists e,
      decode_sub (env w) (now w)
        (strip (replace (default "" header) "Bearer " "")) = Raise e) ->
   forall h : endpoint, In h utils_endpoints ->
     h w req s = (auth_required_response, s)) /\
  (forall e,
     extract_token req = Raise e ->
     get_posts_main w req s = (response 401 (error_body (exn_text e)), s)) /\
  (forall token msg,
     extract_token req = Ok token ->
     validate_jwt (env w) (now w) token = Raise (Exn AuthError msg) ->
     get_posts_main w req s = (response 401 (error_body msg), s)).
Proof.
  split; [|split; [|split; [|split; [|split; [|split; [|split; [|split; [|split;
    [|split; [|split; [|split]]]]]]]]]]].
  - intros T h I. now apply utils_endpoints_unauthenticated.
  - intros e A. unfold get_posts_main. now rewrite A.
  - intros e. apply comments_main_unauthenticated.
  - intros T. split; [|split].
    + intros msg. now apply create_problem_invalid.
    + now apply update_problem_not_json.
    + now apply wallet_by_id_blank.
  - apply get_posts_main_bad_page.
  - apply get_problems_bad_parameter.
  - apply get_user_problems_bad_parameter.
  - intros h. apply endpoints_rejected.
  - intros user s1 msg A G I. split.
    + now apply (comments_main_invalid w req s s1 user msg).
    + now apply (get_cosmos_container_calls w).
  - apply comments_main_rejected.
  - intros header C h I. apply utils_endpoints_unauthenticated; [exact I|].
    now rewrite (no_identity (env w) (now w) req C).
  - apply posts_listing_bad_header.
  - apply posts_listing_bad_token.
Qed.

End WithRuntime.
End HandlerFacts.

(** ** Dictionaries and containers *)

Module StoreFacts.
Import Py Exc Platform Cosmos.

Lemma dict_lookup_set_same (d : pydict) (k : string) (v : pyval) :
  dict_lookup (dict_set d k v) k = Some v.
Proof.
  induction d as [|[k' v'] d IH]; simpl.
  - now rewrite String.eqb_refl.
  - destruct (String.eqb k' k) eqn:E; simpl.
    + now rewrite String.eqb_refl.
    + now rewrite E.
Qed.

Lemma dict_lookup_set_other (d : pydict) (k k' : string) (v : pyval) :
  k <> k' -> dict_lookup (dict_set d k v) k' = dict_lookup d k'.
Proof.
  intros N. induction d as [|[k0 v0] d IH]; simpl.
  - apply String.eqb_neq in N. now rewrite N.
  - destruct (String.eqb k0 k) eqn:E; simpl.
    + apply String.eqb_eq in E. subst k0.
      apply String.eqb_neq in N. now rewrite N.
    + now rewrite IH.
Qed.


Lemma keys_update_at (items : container) (p : nat) f :
  List.map fst (update_at items p f) = List.map fst items.
Proof.
  revert p. induction items as [|[k b] items IH]; intros [|p]; simpl;
    try rewrite IH; auto.
Qed.

Lemma body_at_update_same (items : container) (p : nat) f :
  (p < List.length items)%nat ->
  body_at (update_at items p f) p = f (body_at items p).
Proof.
  unfold body_at. revert p.
  induction items as [|[k b] items IH]; intros [|p]; simpl; try lia; auto.
  intros L. apply IH. lia.
Qed.

Lemma body_at_update_other (items : container) (p q : nat) f :
  p <> q -> body_at (update_at items p f) q = body_at items q.
Proof.
  unfold body_at. revert p q.
  induction items as [|[k b] items IH]; intros [|p] [|q]; simpl; auto; try easy.
Qed.

Lemma has_key_keys (items items' : container) (k : pyval) :
  List.map fst items' = List.map fst items ->
  has_key items' k = has_key items k.
Proof.
  revert items'. induction items as [|[k0 b] items IH];
    intros [|[k1 b1] items']; simpl; try easy.
  intros [= -> E]. unfold has_key in *. simpl. now rewrite (IH _ E).
Qed.

Lemma has_key_update_at (items : container) (p : nat) f (k : pyval) :
  has_key (update_at items p f) k = has_key items k.
Proof. apply has_key_keys, keys_update_at. Qed.

(** Filing a body under a key that is there changes one body, to that body. *)
Lemma body_at_set_key (items : container) (k : pyval) (b : pydict) (p : nat) :
  has_key items k = true ->
  body_at (set_key items k b) p = body_at items p \/
  body_at (set_key items k b) p = b.
Proof.
  unfold body_at, has_key. revert p.
  induction items as [|[k0 b0] items IH]; simpl; [discriminate|].
  intros p E. destruct (py_eqb k0 k) eqn:K.
  - destruct p; simpl; auto.
  - simpl in E. destruct p; simpl; auto.
Qed.

Lemma body_at_set_key_self (items : container) (k : pyval) (p : nat) :
  has_key items k = true ->
  body_at (set_key items k (body_at items p)) p = body_at items p.
Proof.
  intros E. now destruct (body_at_set_key items k (body_at items p) p E).
Qed.

Lemma keys_set_key_present (items : container) (k : pyval) (b : pydict) :
  has_key items k = true ->
  List.map fst (set_key items k b) = List.map fst items.
Proof.
  unfold has_key. induction items as [|[k0 b0] items IH]; simpl; [discriminate|].
  destruct (py_eqb k0 k); simpl; [reflexivity|]. intros E. now rewrite IH.
Qed.

(** What a query by id looks at. *)
Lemma item_matches_by_id (v : pyval) (b : pydict) :
  item_matches [("@id", v)] b =
  negb (dict_has b "id" && negb (py_eqb (dict_get b "id") v)).
Proof.
  unfold item_matches, param_matches. simpl. now rewrite andb_true_r.
Qed.

Lemma matching_from_In (parameters : list (string * pyval)) (items : container)
  (i p : nat) :
  In p (matching_from parameters i items) <->
  (i <= p < i + List.length items)%nat /\
  item_matches parameters (body_at items (p - i)) = true.
Proof.
  revert i. induction items as [|[k b] items IH]; intros i; simpl.
  - split; [easy|]. lia.
  - assert (Step : In p (matching_from parameters (S i) items) <->
                   (S i <= p < i + S (List.length items))%nat /\
                   item_matches parameters (body_at ((k, b) :: items) (p - i))
                   = true).
    { rewrite IH. split; intros [L M]; (split; [lia|]).
      - replace (p - i)%nat with (S (p - S i)) by lia. exact M.
      - replace (p - i)%nat with (S (p - S i)) in M by lia. exact M. }
    destruct (item_matches parameters b) eqn:M; simpl; rewrite Step.
    + split.
      * intros [<-|[L M']]; [|split; [lia|exact M']].
        split; [lia|]. now rewrite Nat.sub_diag.
      * intros [L M']. destruct (Nat.eq_dec i p) as [->|N]; [now left|].
        right. split; [lia|exact M'].
    + split.
      * intros [L M']. split; [lia|exact M'].
      * intros [L M']. split; [|exact M'].
        destruct (Nat.eq_dec i p) as [->|N]; [|lia].
        rewrite Nat.sub_diag in M'. unfold body_at in M'. simpl in M'.
        congruence.
Qed.

Lemma matching_head (parameters : list (string * pyval)) (items : container)
  (p : nat) (rest : list nat) :
  matching_from parameters O items = p :: rest ->
  (p < List.length items)%nat /\
  item_matches parameters (body_at items p) = true.
Proof.
  intros E. assert (I : In p (matching_from parameters O items))
    by (rewrite E; now left).
  apply matching_from_In in I as [L M]. rewrite Nat.sub_0_r in M.
  split; [lia|exact M].
Qed.


End StoreFacts.

(** ** Runs of the handlers that change the store *)

Module Runs.
Import Py Exc Platform Http Cosmos Utils Auth Handlers Functions StoreFacts.


(** The same, in the goal. *)
Ltac run_goal :=
  cbv beta iota zeta delta
    [run_handler bind ret lift throw record query_items item_read items_read
     item_write replace_item delete_item create_item update_field
     wallets_select_id wallets_delete set_wallets raise_fault
     get_container set_container log_call];
  cbn [problems upvotes proposals tips wallets calls fst snd hashable negb
       dict_get dict_get_default dict_lookup String.eqb Ascii.eqb Bool.eqb].




Section WithRuntime.
Context `{Runtime}.




End WithRuntime.
End Runs.

(** ** Parts of the store a handler does not write *)

Module Frames.
Import Py Exc Platform Http Cosmos Utils Auth Handlers Functions Effects.

Section WithRuntime.
Context `{Runtime}.

Section View.
Context {V : Type} (view : Store -> V).
Hypothesis view_log : forall c s, view (log_call c s) = view s.
Hypothesis view_problems :
  forall items s, view (set_container Problems items s) = view s.
Hypothesis view_wallets : forall rows s, view (set_wallets rows s) = view s.

Lemma frame_ret {A : Type} (a : A) : preserves view (ret a).
Proof. intros s. reflexivity. Qed.

Lemma frame_throw {A : Type} (e : exn) : preserves view (@throw A e).
Proof. intros s. reflexivity. Qed.

Lemma frame_bind {A B : Type} (m : M A) (k : A -> M B) :
  preserves view m -> (forall a, preserves view (k a)) ->
  preserves view (bind m k).
Proof.
  intros Pm Pk s. unfold bind. specialize (Pm s).
  destruct (m s) as [[a|e] s1]; simpl in *; [|exact Pm].
  now rewrite (Pk a s1).
Qed.

Lemma frame_record (c : store_call) : preserves view (record c).
Proof. intros s. apply view_log. Qed.

Lemma frame_query c parameters : preserves view (query_items c parameters).
Proof. intros s. apply view_log. Qed.

Lemma frame_item_write ref k v : preserves view (item_write Problems ref k v).
Proof. intros s. apply view_problems. Qed.

Lemma frame_replace_item item_id ref :
  preserves view (replace_item Problems item_id ref).
Proof.
  intros s. unfold replace_item, bind, record, lift. cbv beta iota.
  destruct (negb (hashable item_id)); cbn [snd]; [apply view_log|].
  destruct (has_key _ _); cbn [snd]; [|apply view_log].
  rewrite view_problems. apply view_log.
Qed.

Lemma frame_delete_item item_id : preserves view (delete_item Problems item_id).
Proof.
  intros s. unfold delete_item, bind, record, lift. cbv beta iota.
  destruct (negb (hashable item_id)); cbn [snd]; [apply view_log|].
  destruct (has_key _ _); cbn [snd]; [|apply view_log].
  rewrite view_problems. apply view_log.
Qed.

Lemma frame_create_item body : preserves view (create_item Problems body).
Proof.
  intros s. unfold create_item, bind, record, lift, throw. cbv beta iota.
  destruct (negb (truthy _)); cbn [snd]; [apply view_log|].
  destruct (negb (hashable _)); cbn [snd]; [apply view_log|].
  rewrite view_problems. apply view_log.
Qed.

Lemma frame_update_field updates k ref field value :
  preserves view (update_field updates k ref field value).
Proof.
  unfold update_field. apply frame_bind; [apply preserves_lift|].
  intros [|]; [|apply frame_ret].
  apply frame_bind; [apply preserves_lift|]. intros v. apply frame_item_write.
Qed.

Lemma frame_wallets_select filters : preserves view (wallets_select_id filters).
Proof. intros s. apply view_log. Qed.

Lemma frame_wallets_delete filters : preserves view (wallets_delete filters).
Proof.
  intros s. unfold wallets_delete, bind, record. cbv beta iota. cbn [snd].
  rewrite view_wallets. apply view_log.
Qed.

Lemma frame_get_posts user_id limit offset :
  preserves view (get_posts user_id limit offset).
Proof.
  intros s. unfold get_posts, bind, record, ret, throw. cbv beta iota zeta.
  destruct (cosmos_query_items _ _); cbn [snd]; [apply view_log|].
  destruct (is_CosmosHttpResponseError _); apply view_log.
Qed.


End View.
End WithRuntime.

(** Proves [preserves view m] for a handler body that writes only the
    problems and the wallets. *)
Ltac frames :=
  repeat first
    [ apply frame_ret | apply frame_throw | apply preserves_lift
    | apply preserves_item_read | apply preserves_items_read
    | apply frame_query; assumption
    | apply frame_record; assumption
    | apply frame_item_write; assumption
    | apply frame_replace_item; assumption
    | apply frame_delete_item; assumption
    | apply frame_create_item; assumption
    | apply frame_update_field; assumption
    | apply frame_wallets_select; assumption
    | apply frame_wallets_delete; assumption
    | apply frame_bind; [|intros]
    | match goal with
      | |- preserves _ (match ?x with _ => _ end) => destruct x
      | |- preserves _ (if ?x then _ else _) => destruct x
      end ].

End Frames.

(** ** One upvote for each problem and caller *)

Module Upvotes.
Import Py Exc Platform Http Cosmos Utils Auth Handlers Functions StoreFacts
  Effects Frames Runs Invariants.

Section WithRuntime.
Context `{Runtime}.



















End WithRuntime.
End Upvotes.

(** ** Problems stay filed by id *)

Module Filing.
Import Py Exc Platform Http Cosmos Utils Auth Handlers Functions Invariants
  AuthFacts Effects StoreFacts Frames.

Section WithRuntime.
Context `{Runtime}.
Local Open Scope store_scope.

Lemma filed_update_at (items : container) (ref : nat) (k : string) (v : pyval) :
  k <> "id" -> filed_by_id items = true ->
  filed_by_id (update_at items ref (fun b => dict_set b k v)) = true.
Proof.
  intros N. unfold filed_by_id. revert ref.
  induction items as [|[k0 b] items IH]; intros [|ref]; simpl; auto.
  - now rewrite (dict_lookup_set_other b k "id" v N).
  - intros F. apply andb_true_iff in F as [F1 F2].
    apply andb_true_iff. split; [exact F1|now apply IH].
Qed.

Lemma filed_set_key (items : container) (u : string) (body : pydict) :
  dict_lookup body "id" = Some (PStr u) -> filed_by_id items = true ->
  filed_by_id (set_key items (PStr u) body) = true.
Proof.
  intros I. unfold filed_by_id.
  induction items as [|[k0 b] items IH]; simpl.
  - intros _. rewrite I. now rewrite String.eqb_refl.
  - intros F. apply andb_true_iff in F as [F1 F2].
    destruct (py_eqb k0 (PStr u)) eqn:E; simpl.
    + apply py_eqb_to_str in E. subst k0. rewrite I, String.eqb_refl.
      exact F2.
    + rewrite F1. now apply IH.
Qed.

Lemma filed_del_key (items : container) (k : pyval) :
  filed_by_id items = true -> filed_by_id (del_key items k) = true.
Proof.
  unfold filed_by_id. induction items as [|[k0 b] items IH]; simpl; auto.
  intros F. apply andb_true_iff in F as [F1 F2].
  destruct (py_eqb k0 k); simpl; [exact F2|].
  rewrite F1. now apply IH.
Qed.

(** A key that is there in a container filed by id is a string. *)
Lemma filed_key_string (items : container) (k : pyval) :
  filed_by_id items = true -> has_key items k = true -> exists u, k = PStr u.
Proof.
  unfold filed_by_id, has_key. intros F K.
  apply existsb_exists in K as ([k0 b] & I & E).
  rewrite forallb_forall in F. specialize (F _ I). simpl in *.
  destruct k0; try discriminate. destruct k; try discriminate.
  eauto.
Qed.

Lemma filing_ret {A : Type} (a : A) : filing (ret a).
Proof. intros s F. exact F. Qed.

Lemma filing_throw {A : Type} (e : exn) : filing (@throw A e).
Proof. intros s F. exact F. Qed.

Lemma filing_lift {A : Type} (r : result A) : filing (lift r).
Proof. intros s F. exact F. Qed.

Lemma filing_bind {A B : Type} (m : M A) (k : A -> M B) :
  filing m -> (forall a, filing (k a)) -> filing (bind m k).
Proof.
  intros Pm Pk s F. unfold bind. specialize (Pm s F).
  destruct (m s) as [[a|e] s1]; simpl in *; [|exact Pm].
  now apply Pk.
Qed.

Lemma filing_record (c : store_call) : filing (record c).
Proof. intros s F. exact F. Qed.

Lemma filing_query c parameters : filing (query_items c parameters).
Proof. intros s F. exact F. Qed.

Lemma filing_item_read c ref : filing (item_read c ref).
Proof. intros s F. exact F. Qed.

Lemma filing_items_read c refs : filing (items_read c refs).
Proof. intros s F. exact F. Qed.

Lemma filing_item_write ref k v :
  k <> "id" -> filing (item_write Problems ref k v).
Proof. intros N s F. simpl. now apply filed_update_at. Qed.

Lemma filing_create_upvote body : filing (create_item Upvotes body).
Proof.
  intros s F. unfold create_item, bind, record, lift, throw. cbv beta iota.
  destruct (negb (truthy _)); cbn [snd]; [exact F|].
  destruct (negb (hashable _)); cbn [snd]; exact F.
Qed.

Lemma filing_create_problem body u :
  dict_lookup body "id" = Some (PStr u) -> filing (create_item Problems body).
Proof.
  intros I s F. unfold create_item, bind, record, lift, throw. cbv beta iota.
  destruct (negb (truthy _)); cbn [snd]; [exact F|].
  destruct (negb (hashable _)); cbn [snd]; [exact F|].
  unfold dict_get, dict_get_default. rewrite I. simpl.
  now apply filed_set_key.
Qed.

Lemma filing_delete_item c item_id : filing (delete_item c item_id).
Proof.
  intros s F. unfold delete_item, bind, record, lift. cbv beta iota.
  destruct (negb (hashable item_id)); cbn [snd]; [exact F|].
  destruct (has_key _ _); cbn [snd]; [|exact F].
  destruct c; simpl; try exact F. now apply filed_del_key.
Qed.

(** [container.replace_item(item=problem['id'], body=problem)] on a stored
    problem. *)
Lemma filing_save {A : Type} ref (k : unit -> M A) :
  (forall a, filing (k a)) ->
  filing (let* doc := item_read Problems ref in
          let* item_id := lift (dict_item doc "id") in
          bind (replace_item Problems item_id ref) k).
Proof.
  intros Pk s F. unfold bind at 1, item_read. cbv beta iota.
  unfold bind at 1, lift. cbv beta iota. unfold dict_item.
  destruct (dict_lookup (body_at (get_container Problems s) ref) "id")
    as [item_id|] eqn:I; [|exact F].
  unfold bind at 1, replace_item. unfold bind at 1, record. cbv beta iota.
  destruct (negb (hashable item_id)); [exact F|].
  cbn [get_container problems log_call].
  cbn [get_container] in I.
  destruct (has_key (problems s) item_id) eqn:K; [|exact F].
  apply Pk. cbn [set_container problems log_call].
  destruct (filed_key_string _ _ F K) as [u ->].
  now apply filed_set_key.
Qed.

Lemma filing_update_field updates k ref field value :
  field <> "id" -> filing (update_field updates k ref field value).
Proof.
  intros N. unfold update_field. apply filing_bind; [apply filing_lift|].
  intros [|]; [|apply filing_ret].
  apply filing_bind; [apply filing_lift|]. intros v.
  now apply filing_item_write.
Qed.

Lemma filing_run_handler failure (m : M HttpResponse) (s : Store) :
  filing m -> filed_by_id (problems s) = true ->
  filed_by_id (problems (snd (run_handler failure m s))) = true.
Proof.
  intros P F. unfold run_handler. specialize (P s F).
  now destruct (m s) as [[r|e] s1].
Qed.

End WithRuntime.

(** Proves [filing m] for a handler body. *)
Ltac files :=
  repeat first
    [ apply filing_ret | apply filing_throw | apply filing_lift
    | apply filing_item_read | apply filing_items_read
    | apply filing_query | apply filing_record
    | apply filing_item_write; discriminate
    | apply filing_update_field; discriminate
    | apply filing_create_upvote
    | eapply filing_create_problem; reflexivity
    | apply filing_delete_item
    | apply filing_save; intros
    | apply filing_bind; [|intros]
    | progress cbv zeta
    | match goal with
      | |- filing (match ?x with _ => _ end) => destruct x
      | |- filing (if ?x then _ else _) => destruct x
      end ].

Section WithRuntime.
Context `{Runtime}.

Lemma upvote_problem_files w req s :
  filed_by_id (problems s) = true ->
  filed_by_id (problems (snd (upvote_problem w req s))) = true.
Proof. apply filing_run_handler. files. Qed.

Lemma remove_upvote_files w req s :
  filed_by_id (problems s) = true ->
  filed_by_id (problems (snd (remove_upvote w req s))) = true.
Proof. apply filing_run_handler. files. Qed.

Lemma create_problem_files w req s :
  filed_by_id (problems s) = true ->
  filed_by_id (problems (snd (create_problem w req s))) = true.
Proof. apply filing_run_handler. files. Qed.

Lemma update_problem_files w req s :
  filed_by_id (problems s) = true ->
  filed_by_id (problems (snd (update_problem w req s))) = true.
Proof. apply filing_run_handler. files. Qed.

Lemma delete_problem_files w req s :
  filed_by_id (problems s) = true ->
  filed_by_id (problems (snd (delete_problem w req s))) = true.
Proof. apply filing_run_handler. files. Qed.

Lemma filing_preserves {A : Type} (m : M A) : preserves problems m -> filing m.
Proof. intros P s F. now rewrite (P s). Qed.

(** The endpoints leave the problems filed by id. *)
Lemma endpoints_file (h : endpoint) w req s :
  In h endpoints ->
  filed_by_id (problems s) = true ->
  filed_by_id (problems (snd (h w req s))) = true.
Proof.
  assert (L : forall c s, problems (log_call c s) = problems s) by reflexivity.
  assert (W : forall rows s, problems (set_wallets rows s) = problems s)
    by reflexivity.
  unfold endpoints, utils_endpoints. simpl.
  intros [<-|[<-|[<-|[<-|[<-|[<-|[<-|[<-|[<-|[]]]]]]]]]].
  - apply filing_run_handler. files.
  - intros F. unfold get_posts_main.
    destruct (authenticate_request _ _ _) as [[user_id payload]|e]; [|exact F].
    destruct (posts_pagination req) as [[limit offset]|]; [|exact F].
    pose proof (frame_get_posts problems L user_id limit offset s) as G.
    destruct (get_posts user_id limit offset s) as [[posts|e] s1];
      simpl in *; now rewrite G.
  - apply upvote_problem_files.
  - apply remove_upvote_files.
  - apply create_problem_files.
  - apply update_problem_files.
  - apply delete_problem_files.
  - apply filing_run_handler. files.
  - intros F. unfold wallet_by_id. cbv zeta.
    destruct (negb _); [exact F|].
    destruct (String.eqb _ ""); [exact F|].
    revert F. apply filing_run_handler, filing_preserves. frames.
Qed.

(** On every store the endpoints build, the problems are filed by id. *)
Lemma reachable_filed (s : Store) :
  reachable s -> filed_by_id (problems s) = true.
Proof.
  induction 1 as [|s h w req R IH I].
  - reflexivity.
  - now apply endpoints_file.
Qed.

End WithRuntime.
End Filing.

(** ** The owner-gated mutations *)

Module Ownership.
Import Py Exc Platform Http Cosmos Utils Auth Handlers Functions StoreFacts
  Effects HandlerFacts Frames Runs Invariants Filing.

Section WithRuntime.
Context `{Runtime}.

Lemma filed_at (items : container) (p : nat) (k : pyval) (b : pydict) :
  filed_by_id items = true -> nth_error items p = Some (k, b) ->
  exists u, k = PStr u /\ dict_lookup b "id" = Some (PStr u).
Proof.
  unfold filed_by_id. intros F E. rewrite forallb_forall in F.
  specialize (F _ (nth_error_In _ _ E)). simpl in F.
  destruct k; try discriminate.
  destruct (dict_lookup b "id") as [[]|]; try discriminate.
  apply String.eqb_eq in F. subst. eauto.
Qed.

Lemma has_key_at (items : container) (p : nat) (k v : pyval) (b : pydict) :
  nth_error items p = Some (k, b) -> py_eqb k v = true ->
  has_key items v = true.
Proof.
  intros E Q. unfold has_key. apply existsb_exists.
  exists (k, b). split; [eapply nth_error_In, E|exact Q].
Qed.

(** On a container filed by id, the item a query by id finds is filed under
    the id asked for. *)
Lemma found_is_filed (items : container) (v : pyval) (p : nat) (rest : list nat) :
  filed_by_id items = true ->
  matching_from (by_id v) O items = p :: rest ->
  has_key items v = true /\
  exists u k, nth_error items p = Some (PStr u, k) /\
              body_at items p = k /\ dict_lookup k "id" = Some (PStr u).
Proof.
  intros F Q. destruct (matching_head _ _ _ _ Q) as [L M].
  destruct (nth_error items p) as [[k b]|] eqn:E;
    [|apply nth_error_None in E; lia].
  destruct (filed_at _ _ _ _ F E) as (u & -> & I).
  assert (B : body_at items p = b) by (unfold body_at; now rewrite E).
  rewrite B in M. unfold by_id in M. rewrite item_matches_by_id in M.
  unfold dict_has, dict_get, dict_get_default in M. rewrite I in M.
  simpl in M. apply negb_true_iff, negb_false_iff in M.
  split; [|now exists u, b].
  eapply has_key_at; [exact E|exact M].
Qed.

Definition not_found : HttpResponse :=
  response 404 (error_body "Problem not found").

(** *** delete_problem *)

Lemma delete_problem_not_found w req s :
  truthy (get_authenticated_user_id (env w) (now w) req) = true ->
  matching_from (by_id (route_param req "id")) O (problems s) = [] ->
  delete_problem w req s =
  (not_found, log_call (QueryItems Problems (by_id (route_param req "id"))) s).
Proof.
  intros T Q. unfold delete_problem. run_goal. rewrite T. run_goal.
  now rewrite Q.
Qed.

Lemma delete_problem_forbidden w req s p rest :
  truthy (get_authenticated_user_id (env w) (now w) req) = true ->
  matching_from (by_id (route_param req "id")) O (problems s) = p :: rest ->
  py_eqb (dict_get (body_at (problems s) p) "authorId")
    (get_authenticated_user_id (env w) (now w) req) = false ->
  delete_problem w req s =
  (response 403 (error_body "You can only delete your own problems"),
   log_call (QueryItems Problems (by_id (route_param req "id"))) s).
Proof.
  intros T Q O. unfold delete_problem. run_goal. rewrite T. run_goal.
  rewrite Q. run_goal. now rewrite O.
Qed.

Lemma delete_problem_owner w req s p rest :
  truthy (get_authenticated_user_id (env w) (now w) req) = true ->
  matching_from (by_id (route_param req "id")) O (problems s) = p :: rest ->
  py_eqb (dict_get (body_at (problems s) p) "authorId")
    (get_authenticated_user_id (env w) (now w) req) = true ->
  filed_by_id (problems s) = true ->
  exists s',
    delete_problem w req s =
    (response 200
       (PDict [("message", PStr "Problem deleted successfully");
               ("id", route_param req "id")]), s') /\
    problems s' = del_key (problems s) (route_param req "id") /\
    (proposals s', upvotes s', tips s', wallets s')
    = (proposals s, upvotes s, tips s, wallets s).
Proof.
  intros T Q O F. destruct (found_is_filed _ _ _ _ F Q) as [K _].
  assert (Hh : hashable (route_param req "id") = true).
  { unfold route_param. now destruct (route_params req !! "id"). }
  unfold delete_problem. run_goal. rewrite T. run_goal.
  rewrite Q. run_goal. rewrite O. run_goal. rewrite Hh. run_goal.
  rewrite K. eexists. split; [reflexivity|]. now split.
Qed.

(** *** update_problem *)

Lemma update_problem_not_found w req s updates :
  truthy (get_authenticated_user_id (env w) (now w) req) = true ->
  json_body req = Some updates ->
  matching_from (by_id (route_param req "id")) O (problems s) = [] ->
  update_problem w req s =
  (not_found, log_call (QueryItems Problems (by_id (route_param req "id"))) s).
Proof.
  intros T J Q. unfold update_problem. run_goal. rewrite T, J. run_goal.
  now rewrite Q.
Qed.

Lemma update_problem_forbidden w req s updates p rest :
  truthy (get_authenticated_user_id (env w) (now w) req) = true ->
  json_body req = Some updates ->
  matching_from (by_id (route_param req "id")) O (problems s) = p :: rest ->
  py_eqb (dict_get (body_at (problems s) p) "authorId")
    (get_authenticated_user_id (env w) (now w) req) = false ->
  update_problem w req s =
  (response 403 (error_body "You can only edit your own problems"),
   log_call (QueryItems Problems (by_id (route_param req "id"))) s).
Proof.
  intros T J Q O. unfold update_problem. run_goal. rewrite T, J. run_goal.
  rewrite Q. run_goal. now rewrite O.
Qed.

(** *** WalletById *)

Definition wallet_filters (w : World) (req : HttpRequest)
  : list (string * pyval) :=
  [("id", PStr (strip (default "" (route_params req !! "wallet_id"))));
   ("user_id", get_authenticated_user_id (env w) (now w) req)].

(** No wallet with that id belongs to the caller -- there is none with that
    id, or it is another user's: the answer is 404 in both cases. *)
Lemma wallet_by_id_not_owned w req s :
  truthy (get_authenticated_user_id (env w) (now w) req) = true ->
  strip (default "" (route_params req !! "wallet_id")) <> "" ->
  get_supabase_client (env w) = Ok tt ->
  List.filter (row_matches (wallet_filters w req)) (wallets s) = [] ->
  wallet_by_id w req s =
  (response 404 (error_body "Wallet not found or access denied"),
   log_call (WalletsSelect (wallet_filters w req)) s).
Proof.
  intros T N C Q. unfold wallet_by_id. cbv zeta. rewrite T.
  apply String.eqb_neq in N. rewrite N. cbn [negb]. run_goal.
  rewrite C. run_goal. fold (wallet_filters w req). now rewrite Q.
Qed.

Lemma wallet_by_id_owned w req s row rows :
  truthy (get_authenticated_user_id (env w) (now w) req) = true ->
  strip (default "" (route_params req !! "wallet_id")) <> "" ->
  get_supabase_client (env w) = Ok tt ->
  List.filter (row_matches (wallet_filters w req)) (wallets s) = row :: rows ->
  exists s',
    wallet_by_id w req s =
    (response 200
       (PDict [("deleted",
                PStr (strip (default "" (route_params req !! "wallet_id"))))]),
     s') /\
    wallets s' =
    List.filter (fun r => negb (row_matches (wallet_filters w req) r)) (wallets s) /\
    (problems s', proposals s', upvotes s', tips s')
    = (problems s, proposals s, upvotes s, tips s).
Proof.
  intros T N C Q. unfold wallet_by_id. cbv zeta. rewrite T.
  apply String.eqb_neq in N. rewrite N. cbn [negb]. run_goal.
  rewrite C. run_goal. fold (wallet_filters w req). rewrite Q.
  simpl. eexists. split; [reflexivity|]. now split.
Qed.

(** *** update_problem, when the caller owns the problem *)

(** [m] runs to the end from every store that satisfies [P], and leaves
    one that satisfies [Q]. *)
Definition total {A : Type} (P : Store -> Prop) (m : M A)
  (Q : A -> Store -> Prop) : Prop :=
  forall s, P s -> exists a s', m s = (Ok a, s') /\ Q a s'.

Lemma total_bind {A B : Type} (P : Store -> Prop) (m : M A)
  (Q : A -> Store -> Prop) (k : A -> M B) (R : B -> Store -> Prop) :
  total P m Q -> (forall a, total (Q a) (k a) R) -> total P (bind m k) R.
Proof.
  intros Tm Tk s Ps. destruct (Tm s Ps) as (a & s1 & E & Qa).
  destruct (Tk a s1 Qa) as (b & s2 & E2 & Rb).
  exists b, s2. unfold bind. rewrite E. now split.
Qed.

(** The store while the problem at [p] is being edited: same keys, same
    other collections, and a document that satisfies [P]. *)
Definition editing (s0 : Store) (p : nat) (P : pydict -> Prop) (s1 : Store)
  : Prop :=
  List.map fst (problems s1) = List.map fst (problems s0) /\
  (proposals s1, upvotes s1, tips s1, wallets s1)
  = (proposals s0, upvotes s0, tips s0, wallets s0) /\
  P (body_at (problems s1) p).

Lemma editing_length s0 p P s1 :
  editing s0 p P s1 -> List.length (problems s1) = List.length (problems s0).
Proof.
  intros (K & _). rewrite <- (length_map fst (problems s1)), K.
  apply length_map.
Qed.

Lemma item_write_total s0 p (P P' : pydict -> Prop) k v :
  (p < List.length (problems s0))%nat ->
  (forall d, P d -> P' (dict_set d k v)) ->
  total (editing s0 p P) (item_write Problems p k v) (fun _ => editing s0 p P').
Proof.
  intros L Step s1 E. pose proof (editing_length _ _ _ _ E) as Len.
  destruct E as (K & O & Pd).
  exists tt, (set_container Problems
                (update_at (problems s1) p (fun b => dict_set b k v)) s1).
  split; [reflexivity|]. split; [|split].
  - cbn [problems set_container]. now rewrite keys_update_at.
  - exact O.
  - cbn [problems set_container].
    rewrite body_at_update_same by lia. now apply Step.
Qed.

Lemma update_field_total s0 p (P P' : pydict -> Prop) u k field value :
  (p < List.length (problems s0))%nat ->
  (dict_has u k = true ->
   exists v, value = Ok v /\ forall d, P d -> P' (dict_set d field v)) ->
  (dict_has u k = false -> forall d, P d -> P' d) ->
  total (editing s0 p P) (update_field (PDict u) k p field value)
    (fun _ => editing s0 p P').
Proof.
  intros L Present Absent s1 E. unfold update_field, bind, lift.
  cbn [py_contains]. destruct (dict_has u k) eqn:D.
  - destruct (Present eq_refl) as (v & -> & Step).
    exact (item_write_total s0 p P P' field v L Step s1 E).
  - exists tt, s1. split; [reflexivity|].
    destruct E as (K & O & Pd). split; [exact K|]. split; [exact O|].
    now apply Absent.
Qed.

Lemma all_digits_parse (ds : string) (acc : Z) :
  (forall c, In c (list_ascii_of_string ds) -> is_digit c = true) ->
  ds <> "" -> exists n, digits_from acc false ds = Some n.
Proof.
  destruct ds as [|c ds]; [easy|]. intros D _.
  simpl. rewrite (D c (or_introl eq_refl)).
  assert (D' : forall x, In x (list_ascii_of_string ds) -> is_digit x = true)
    by (intros x I; apply D; now right).
  clear D. generalize (10 * acc + digit_val c). revert D'.
  induction ds as [|d ds IH]; intros D' a; simpl; [eauto|].
  rewrite (D' d (or_introl eq_refl)). apply IH. intros x I. apply D'. now right.
Qed.

Lemma first_digits_all (s : string) (cur : option string) (ds : string) :
  match cur with
  | Some w => (forall c, In c (list_ascii_of_string w) -> is_digit c = true)
              /\ w <> ""
  | None => True
  end ->
  first_digits s cur = Some ds ->
  (forall c, In c (list_ascii_of_string ds) -> is_digit c = true) /\ ds <> "".
Proof.
  revert cur. induction s as [|c s IH]; simpl; intros cur C E.
  - subst cur. exact C.
  - destruct (is_digit c) eqn:D.
    + apply IH in E; [exact E|]. destruct cur as [w|].
      * destruct C as [Cw Nw]. split.
        -- intros x I. clear -I Cw D.
           induction w as [|y w IHw]; simpl in I.
           ++ destruct I as [<-|[]]. exact D.
           ++ destruct I as [<-|I]; [apply Cw; now left|].
              apply IHw; [|exact I]. intros z Iz. apply Cw. now right.
        -- destruct w; discriminate.
      * split; [|discriminate]. intros x [<-|[]]. exact D.
    + destruct cur as [w|]; [now injection E as <-|]. now apply IH in E.
Qed.

Lemma digit_code (c : ascii) :
  is_digit c = true -> (48 <= code c <= 57)%N.
Proof.
  unfold is_digit. intros D. apply andb_prop in D as [A B].
  apply N.leb_le in A, B. lia.
Qed.

Lemma digit_not_c_space (c : ascii) : is_digit c = true -> is_c_space c = false.
Proof.
  intros D. apply digit_code in D. unfold is_c_space.
  destruct ((9 <=? code c) && (code c <=? 13) || (code c =? 32))%N eqn:E;
    [|reflexivity].
  apply orb_prop in E as [E|E].
  - apply andb_prop in E as [E1 E2]. apply N.leb_le in E1, E2. lia.
  - apply N.eqb_eq in E. lia.
Qed.

Definition all_digit (s : string) : Prop :=
  forall c, In c (list_ascii_of_string s) -> is_digit c = true.

Lemma all_digit_tail (c : ascii) (s : string) :
  all_digit (String c s) -> is_digit c = true /\ all_digit s.
Proof.
  intros D. split; [apply D; now left|]. intros x I. apply D. now right.
Qed.

Lemma all_digit_ascii (s : string) : all_digit s -> is_ascii s = true.
Proof.
  induction s as [|c s IH]; [reflexivity|]. intros D.
  apply all_digit_tail in D as [C D]. simpl. rewrite (IH D).
  apply digit_code in C. rewrite andb_true_r. apply N.ltb_lt. lia.
Qed.

Lemma rstrip_c_digits (s : string) : all_digit s -> rstrip_c s = s.
Proof.
  induction s as [|c s IH]; [reflexivity|]. intros D.
  apply all_digit_tail in D as [C D]. simpl. rewrite (IH D).
  now rewrite (digit_not_c_space _ C), andb_false_r.
Qed.

(** A run of digits is a literal [int] reads as it stands. *)
Lemma int_of_digits (ds : string) :
  all_digit ds -> ds <> "" -> int_of_string ds = digits_from 0 false ds.
Proof.
  intros D N. unfold int_of_string.
  destruct ds as [|c ds]; [easy|].
  pose proof (all_digit_tail _ _ D) as [C _].
  change (lstrip_c (String c ds))
    with (if is_c_space c then lstrip_c ds else String c ds).
  rewrite (digit_not_c_space _ C), (rstrip_c_digits _ D).
  destruct c as [[] [] [] [] [] [] [] []]; try reflexivity;
    vm_compute in C; discriminate C.
Qed.

(** [parse_budget_value] answers a number for every ASCII string whose
    first run of digits is not too long for [int]. *)
Lemma parse_budget_value_ascii (b : string) :
  is_ascii b = true ->
  match first_digits b None with
  | Some ds => too_long ds = false
  | None => True
  end ->
  exists n, parse_budget_value (PStr b) = Ok (PInt n).
Proof.
  intros A Short. unfold parse_budget_value, search_digits. rewrite A.
  destruct (first_digits b None) as [ds|] eqn:F; [|eauto].
  destruct (first_digits_all b None ds I F) as [D N].
  destruct (all_digits_parse ds 0 D N) as [n E].
  unfold str_int. rewrite (all_digit_ascii _ D), (int_of_digits _ D N), E, Short.
  cbn [Exc.rbind]. eauto.
Qed.

Lemma present_budget u :
  budget_parses u = true -> dict_has u "budget" = true ->
  exists t n, dict_lookup u "budget" = Some (PStr t) /\
              parse_budget_value (PStr t) = Ok (PInt n).
Proof.
  unfold budget_parses, dict_has.
  destruct (dict_lookup u "budget") as [[| | |b| |]|]; try discriminate.
  intros P _. exists b. unfold parse_budget_value in *.
  destruct (search_digits b) as [ds|]; [|eauto].
  destruct (str_int ds) as [n|e]; [|discriminate]. cbn [Exc.rbind]. eauto.
Qed.

(** What the edited document keeps of the original [d0], and what it takes
    from the update [u]. *)
Definition kept (d0 : pydict) (d : pydict) : Prop :=
  dict_lookup d "id" = dict_lookup d0 "id" /\
  dict_lookup d "authorId" = dict_lookup d0 "authorId".

Definition titled (u : pydict) (d : pydict) : Prop :=
  forall t, dict_lookup u "title" = Some (PStr t) ->
            dict_lookup d "title" = Some (PStr (strip t)).

Definition stamped (w : World) (d : pydict) : Prop :=
  dict_lookup d "updatedAt" = Some (PStr (timestamp w 0)).

Lemma kept_set d0 d k v :
  k <> "id" -> k <> "authorId" -> kept d0 d -> kept d0 (dict_set d k v).
Proof.
  intros N1 N2 [K1 K2]. unfold kept.
  now rewrite !dict_lookup_set_other by assumption.
Qed.

Lemma titled_set u d k v :
  k <> "title" -> titled u d -> titled u (dict_set d k v).
Proof.
  intros N T t E. rewrite dict_lookup_set_other by assumption. now apply T.
Qed.

Lemma present_string u k :
  string_or_absent u k = true -> dict_has u k = true ->
  exists t, dict_lookup u k = Some (PStr t).
Proof.
  unfold string_or_absent, dict_has.
  destruct (dict_lookup u k) as [[]|]; try discriminate; eauto.
Qed.

Lemma present_value u k :
  dict_has u k = true -> exists v, dict_lookup u k = Some v.
Proof. unfold dict_has. destruct (dict_lookup u k); [eauto|discriminate]. Qed.

(** A field other than the id, the author and the title. *)
Lemma update_other_field s0 p d0 u k field value :
  (p < List.length (problems s0))%nat ->
  field <> "id" -> field <> "authorId" -> field <> "title" ->
  (dict_has u k = true -> exists v, value = Ok v) ->
  total (editing s0 p (fun d => kept d0 d /\ titled u d))
    (update_field (PDict u) k p field value)
    (fun _ => editing s0 p (fun d => kept d0 d /\ titled u d)).
Proof.
  intros L N1 N2 N3 V. apply update_field_total; [exact L| |tauto].
  intros D. destruct (V D) as [v ->]. exists v. split; [reflexivity|].
  intros d [K T]. split; [now apply kept_set|now apply titled_set].
Qed.

Lemma item_read_total s0 p (P : pydict -> Prop) :
  total (editing s0 p P) (item_read Problems p)
    (fun doc s1 => editing s0 p P s1 /\ doc = body_at (problems s1) p).
Proof. intros s1 E. exists (body_at (problems s1) p), s1. now split. Qed.

Lemma replace_item_total s0 p (P : pydict -> Prop) uid :
  has_key (problems s0) (PStr uid) = true ->
  total (editing s0 p P) (replace_item Problems (PStr uid) p)
    (fun _ => editing s0 p P).
Proof.
  intros K s1 (Keys & O & Pd).
  assert (K1 : has_key (problems s1) (PStr uid) = true)
    by (now rewrite (has_key_keys _ _ _ Keys)).
  unfold replace_item, bind, record. cbv beta iota.
  cbn [hashable negb get_container log_call problems]. rewrite K1.
  eexists _, _. split; [reflexivity|].
  cbn [set_container]. split; [|split].
  - cbn [problems]. now rewrite keys_set_key_present.
  - exact O.
  - cbn [problems]. now rewrite body_at_set_key_self.
Qed.

Lemma update_problem_owner w req s u p rest :
  truthy (get_authenticated_user_id (env w) (now w) req) = true ->
  json_body req = Some (PDict u) ->
  matching_from (by_id (route_param req "id")) O (problems s) = p :: rest ->
  py_eqb (dict_get (body_at (problems s) p) "authorId")
    (get_authenticated_user_id (env w) (now w) req) = true ->
  filed_by_id (problems s) = true ->
  well_typed u = true ->
  exists doc s',
    update_problem w req s = (response 200 (PDict doc), s') /\
    body_at (problems s') p = doc /\
    kept (body_at (problems s) p) doc /\ titled u doc /\ stamped w doc /\
    List.map fst (problems s') = List.map fst (problems s) /\
    (proposals s', upvotes s', tips s', wallets s')
    = (proposals s, upvotes s, tips s, wallets s).
Proof.
  intros T J Q O F W.
  destruct (matching_head _ _ _ _ Q) as [L _].
  destruct (found_is_filed _ _ _ _ F Q) as (_ & uid & d0 & E & B & I).
  assert (K : has_key (problems s) (PStr uid) = true).
  { eapply has_key_at; [exact E|]. simpl. apply String.eqb_refl. }
  unfold well_typed in W. apply andb_prop in W as [W Wb].
  apply andb_prop in W as [Wt Wd].
  unfold update_problem, run_handler. cbv zeta. rewrite T, J. cbn [negb].
  unfold bind at 1. unfold query_items at 1. unfold bind at 1.
  unfold record at 1. cbv beta iota. cbn [get_container log_call problems].
  rewrite Q. unfold bind at 1. unfold item_read at 1. cbv beta iota.
  cbn [get_container log_call problems]. rewrite O. cbn [negb].
  set (s1 := log_call _ s).
  set (P := fun d => kept (body_at (problems s) p) d /\ titled u d).
  match goal with
  | |- context [?m s1] =>
      assert (Run : total (editing s p (fun d => kept (body_at (problems s) p) d))
                      m
                      (fun r s' =>
                         exists doc, r = response 200 (PDict doc) /\
                           body_at (problems s') p = doc /\
                           editing s p (fun d => P d /\ stamped w d) s'))
  end.
  { eapply total_bind.
    { apply update_field_total with (P' := P); [exact L| |].
      - intros D. destruct (present_string _ _ Wt D) as [t Et].
        exists (PStr (strip t)). split.
        + unfold py_item, dict_item. now rewrite Et.
        + intros d Kd. split; [now apply kept_set|].
          intros t' Et'. rewrite Et in Et'. injection Et' as <-.
          apply dict_lookup_set_same.
      - intros D d Kd. split; [exact Kd|]. intros t Et.
        unfold dict_has in D. now rewrite Et in D. }
    intros ?. cbv beta. eapply total_bind.
    { apply update_other_field; try discriminate; [exact L|].
      intros D. destruct (present_string _ _ Wd D) as [t Et].
      exists (PStr (strip t)). unfold py_item, dict_item. now rewrite Et. }
    intros ?. cbv beta. eapply total_bind.
    { apply update_other_field; try discriminate; [exact L|].
      intros D. destruct (present_value _ _ D) as [v Ev].
      exists v. unfold py_item, dict_item. now rewrite Ev. }
    intros ?. cbv beta. eapply total_bind.
    { apply update_other_field; try discriminate; [exact L|].
      intros D. destruct (present_value _ _ D) as [v Ev].
      exists v. unfold py_item, dict_item. now rewrite Ev. }
    intros ?. cbv beta. eapply total_bind.
    { apply update_other_field; try discriminate; [exact L|].
      intros D. destruct (present_budget _ Wb D) as (t & n & Et & En).
      exists (PInt n). unfold py_item, dict_item. rewrite Et. exact En. }
    intros ?. cbv beta. eapply total_bind.
    { apply update_other_field; try discriminate; [exact L|].
      intros D. destruct (present_value _ _ D) as [v Ev].
      exists (parse_requirements v). unfold py_item, dict_item. now rewrite Ev. }
    intros ?. cbv beta. eapply total_bind.
    { apply update_other_field; try discriminate; [exact L|].
      intros D. eexists. reflexivity. }
    intros ?. cbv beta. eapply total_bind.
    { apply item_write_total with (P' := fun d => P d /\ stamped w d);
        [exact L|].
      intros d [Kd Td]. split; [split|].
      - now apply kept_set.
      - now apply titled_set.
      - apply dict_lookup_set_same. }
    intros ?. cbv beta. eapply total_bind; [apply item_read_total|].
    intros doc0 s2 (E2 & ->). unfold bind, lift.
    assert (Id : dict_item (body_at (problems s2) p) "id" = Ok (PStr uid)).
    { destruct E2 as (_ & _ & (((Kid & _) & _) & _)). unfold dict_item.
      rewrite Kid, B. now rewrite I. }
    rewrite Id.
    destruct (replace_item_total s p _ uid K s2 E2) as ([] & s3 & R3 & E3).
    rewrite R3. unfold item_read, ret. eexists _, _. split; [reflexivity|].
    eexists. split; [reflexivity|]. split; [reflexivity|exact E3]. }
  destruct (Run s1) as (r & s' & -> & doc & -> & Bd & Keys & Oth & Pd & Sd).
  { split; [reflexivity|]. split; [reflexivity|]. split; reflexivity. }
  exists doc, s'. rewrite <- Bd. destruct Pd as [Kd Td].
  repeat split; trivial; try apply Kd.
Qed.

(** C3, as the code has it.  For an authenticated caller:
    delete problem answers 404 when no problem has the id and 403 when the
    problem found has another author, and update problem does the same for
    a body that is JSON; in both cases only the query is added to the
    store.  A body that is not JSON is answered 400 by update problem
    before anything is looked up, whether the problem exists or not.  The
    author is compared only after a problem was found.  When the author is
    the caller and the problems are filed by id, as they are on every store
    the endpoints build: delete problem answers 200 and removes the
    problem; update problem answers 200 with the edited document, which
    keeps its id and author, provided the body is a JSON object whose title
    and description, where present, are strings and whose budget, where
    present, is a string [parse_budget_value] converts -- as it does every
    ASCII string whose first number has no more digits than [int]
    converts.  Delete wallet looks the wallet up by id and owner at
    once: it answers 404 both when the wallet does not exist and when it is
    another user's, never 403, and 200 after removing the caller's
    wallet. *)
Theorem C3_owner_gated_mutations (w : World) (req : HttpRequest) (s : Store) :
  let user := get_authenticated_user_id (env w) (now w) req in
  let found := matching_from (by_id (route_param req "id")) O (problems s) in
  let asked := log_call (QueryItems Problems (by_id (route_param req "id"))) s in
  truthy user = true ->
  (found = [] ->
   delete_problem w req s = (not_found, asked) /\
   forall updates, json_body req = Some updates ->
     update_problem w req s = (not_found, asked)) /\
  (forall p rest,
     found = p :: rest ->
     py_eqb (dict_get (body_at (problems s) p) "authorId") user = false ->
     delete_problem w req s =
     (response 403 (error_body "You can only delete your own problems"), asked) /\
     forall updates, json_body req = Some updates ->
       update_problem w req s =
       (response 403 (error_body "You can only edit your own problems"), asked)) /\
  (forall p rest,
     found = p :: rest ->
     py_eqb (dict_get (body_at (problems s) p) "authorId") user = true ->
     filed_by_id (problems s) = true ->
     (exists s',
        delete_problem w req s =
        (response 200
           (PDict [("message", PStr "Problem deleted successfully");
                   ("id", route_param req "id")]), s') /\
        problems s' = del_key (problems s) (route_param req "id")) /\
     (forall u, json_body req = Some (PDict u) -> well_typed u = true ->
        exists doc s',
          update_problem w req s = (response 200 (PDict doc), s') /\
          body_at (problems s') p = doc /\
          kept (body_at (problems s) p) doc /\ titled u doc /\ stamped w doc)) /\
  (strip (default "" (route_params req !! "wallet_id")) <> "" ->
   get_supabase_client (env w) = Ok tt ->
   (List.filter (row_matches (wallet_filters w req)) (wallets s) = [] ->
    wallet_by_id w req s =
    (response 404 (error_body "Wallet not found or access denied"),
     log_call (WalletsSelect (wallet_filters w req)) s)) /\
   (List.filter (row_matches (wallet_filters w req)) (wallets s) <> [] ->
    exists s',
      wallet_by_id w req s =
      (response 200
         (PDict [("deleted",
                  PStr (strip (default "" (route_params req !! "wallet_id"))))]),
       s') /\
      wallets s' =
      List.filter (fun r => negb (row_matches (wallet_filters w req) r))
        (wallets s))) /\
  (json_body req = None ->
   update_problem w req s = (response 400 (error_body "Invalid JSON"), s)) /\
  (reachable s -> filed_by_id (problems s) = true) /\
  (forall b,
     is_ascii b = true ->
     match first_digits b None with
     | Some ds => too_long ds = false
     | None => True
     end ->
     exists n, parse_budget_value (PStr b) = Ok (PInt n)).
Proof.
  intros user found asked T.
  split; [|split; [|split; [|split; [|split; [|split]]]]];
    [| | | |now apply update_problem_not_json|apply reachable_filed
     |apply parse_budget_value_ascii].
  - intros Q. split; [now apply delete_problem_not_found|].
    intros updates J. now apply update_problem_not_found with updates.
  - intros p rest Q O. split; [now apply delete_problem_forbidden with p rest|].
    intros updates J. now apply update_problem_forbidden with updates p rest.
  - intros p rest Q O F. split.
    + destruct (delete_problem_owner w req s p rest T Q O F) as (s' & E & P & _).
      now exists s'.
    + intros u J W.
      destruct (update_problem_owner w req s u p rest T J Q O F W)
        as (doc & s' & E & B & K & Ti & St & _).
      now exists doc, s'.
  - intros N C. split.
    + now apply wallet_by_id_not_owned.
    + intros Q.
      destruct (List.filter (row_matches (wallet_filters w req)) (wallets s))
        as [|row rows] eqn:Fl; [easy|].
      destruct (wallet_by_id_owned w req s row rows T N C Fl) as (s' & E & Wl & _).
      now exists s'.
Qed.

End WithRuntime.
End Ownership.

(** ** Expired tokens and a missing secret, at the endpoints *)

Module Rejections.
Import Py Exc Platform Http Cosmos Utils Auth Handlers Functions AuthFacts
  HandlerFacts.

Section WithRuntime.
Context `{Runtime}.

Lemma get_posts_main_unauthenticated w req s e :
  authenticate_request (env w) (now w) req = Raise e ->
  get_posts_main w req s = (response 401 (error_body (exn_text e)), s).
Proof. intros A. unfold get_posts_main. now rewrite A. Qed.

Lemma authenticate_request_invalid env now req token msg :
  extract_token req = Ok token ->
  validate_jwt env now token = Raise (Exn AuthError msg) ->
  authenticate_request env now req = Raise (Exn AuthError msg).
Proof.
  intros X V. unfold authenticate_request. rewrite X. cbn [Exc.rbind].
  now rewrite V.
Qed.

(** C4, as the code has it.  A token that passes the signature check under
    the configured secret and whose issued-at and not-before claims are
    not in the future, but whose expiry is not after the clock, is refused
    by [validate_jwt] with "Token has expired".  The endpoints that use
    [authenticate_request] answer 401 with that message; those that use
    [get_authenticated_user_id] answer 401 with "Authentication required";
    both leave the store as it was, without a store call. *)
Theorem C4_expired_token (w : World) (req : HttpRequest) (s : Store)
  (token secret : string) (j : jws) (payload : pydict) :
  getenv (env w) "SUPABASE_JWT_SECRET" = Some secret -> secret <> "" ->
  jws_load token = inr j ->
  dict_lookup (jws_header j) "alg" = Some (PStr "HS256") ->
  sig_verify "HS256" secret (jws_signing_input j) (jws_signature j) = Some true ->
  jws_payload j = inr (PDict payload) ->
  PyJWT.claim_ok payload "iat" (fun n => n <=? now w) = true ->
  PyJWT.claim_ok payload "nbf" (fun n => n <=? now w) = true ->
  dict_has payload "exp" = true ->
  PyJWT.claim_ok payload "exp" (fun n => n <=? now w) = true ->
  validate_jwt (env w) (now w) token = Raise (Exn AuthError "Token has expired") /\
  (extract_token req = Ok token ->
   authenticate_request (env w) (now w) req
   = Raise (Exn AuthError "Token has expired") /\
   get_posts_main w req s = (response 401 (error_body "Token has expired"), s)) /\
  ((forall h,
      or_str (headers_get req "Authorization") (headers_get req "authorization")
      = Some h -> strip (replace h "Bearer " "") = token) ->
   get_authenticated_user_id (env w) (now w) req = PNone /\
   forall h : endpoint, In h utils_endpoints ->
     h w req s = (auth_required_response, s)).
Proof.
  intros E N L A S P Iat Nbf Has Exp.
  pose proof (validate_jwt_expired _ _ _ _ _ _ E N L A S P Iat Nbf Has Exp) as V.
  split; [exact V|]. split.
  - intros X. pose proof (authenticate_request_invalid _ _ _ _ _ X V) as Au.
    split; [exact Au|]. exact (get_posts_main_unauthenticated w req s _ Au).
  - intros T.
    assert (U : get_authenticated_user_id (env w) (now w) req = PNone).
    { apply no_user_when_decode_raises. intros h Hh. rewrite (T h Hh).
      unfold getenv in E. unfold getenv. rewrite E. simpl.
      eexists. apply (decode_expired _ _ _ _ _ L A S P Iat Nbf Has Exp). }
    split; [exact U|]. intros h I.
    apply utils_endpoints_unauthenticated; [exact I|now rewrite U].
Qed.

Definition no_secret_message : string :=
  "Token validation failed: " ++ secret_not_set.

Lemma get_authenticated_user_id_without_secret env now req :
  falsy_str (getenv env "SUPABASE_JWT_SECRET") = true ->
  get_authenticated_user_id env now req = PNone.
Proof.
  intros F. unfold get_authenticated_user_id.
  destruct (_ || _); [reflexivity|]. unfold decode_sub. now rewrite F.
Qed.

Lemma comments_main_without_secret w req s :
  falsy_str (getenv (env w) "SUPABASE_JWT_SECRET") = true ->
  exists r, comments_main w req s = (Ok r, s) /\ status_code r = 401.
Proof.
  intros F. unfold comments_main, get_supabase_user_id.
  destruct (negb (startswith _ _)); [eexists; split; reflexivity|].
  assert (G : exists msg,
             get_env_var (env w) "SUPABASE_JWT_SECRET" = Raise (Exn ValueError msg)).
  { unfold get_env_var. unfold falsy_str in F.
    destruct (getenv (env w) "SUPABASE_JWT_SECRET") as [v|]; [|eauto].
    rewrite F. eauto. }
  destruct G as [msg G]. rewrite G. cbn [Exc.rbind exn_class_of exn_class_eqb].
  eexists. split; reflexivity.
Qed.

(** C7, as the code has it.  The secret is looked up at every request, and
    its absence is reported as an authentication failure of that request:
    [get_jwt_secret] raises [AuthError], which the last handler of
    [validate_jwt] raises again as the [AuthError] "Token validation
    failed: ...", so that [authenticate_request] raises the same
    [AuthError] as for a bad token -- and only for a request whose header
    is well-formed, since the header is read first -- which the posts
    listing answers with 401; [get_authenticated_user_id] answers [None],
    which its endpoints answer with 401 "Authentication required"; the
    comments endpoint answers 401 as well.  No store is touched. *)
Theorem C7_missing_secret (w : World) (req : HttpRequest) (s : Store) :
  falsy_str (getenv (env w) "SUPABASE_JWT_SECRET") = true ->
  (forall token,
     extract_token req = Ok token ->
     authenticate_request (env w) (now w) req
     = Raise (Exn AuthError no_secret_message) /\
     get_posts_main w req s = (response 401 (error_body no_secret_message), s)) /\
  (forall e,
     extract_token req = Raise e ->
     get_posts_main w req s = (response 401 (error_body (exn_text e)), s)) /\
  get_authenticated_user_id (env w) (now w) req = PNone /\
  (forall h : endpoint, In h utils_endpoints ->
     h w req s = (auth_required_response, s)) /\
  (exists r, comments_main w req s = (Ok r, s) /\ status_code r = 401) /\
  get_jwt_secret (env w) = Raise (Exn AuthError secret_not_set) /\
  (forall token,
     validate_jwt (env w) (now w) token
     = Raise (Exn AuthError no_secret_message)).
Proof.
  intros F. split; [|split; [|split; [|split; [|split; [|split]]]]].
  - intros token X.
    pose proof (validate_jwt_without_secret (env w) (now w) token F) as V.
    pose proof (authenticate_request_invalid _ _ _ _ _ X V) as Au.
    split; [exact Au|]. exact (get_posts_main_unauthenticated w req s _ Au).
  - intros e X. apply get_posts_main_unauthenticated.
    now apply authenticate_request_stops.
  - now apply get_authenticated_user_id_without_secret.
  - intros h I. apply utils_endpoints_unauthenticated; [exact I|].
    now rewrite get_authenticated_user_id_without_secret.
  - now apply comments_main_without_secret.
  - now apply get_jwt_secret_unset.
  - intros token. now apply validate_jwt_without_secret.
Qed.

End WithRuntime.
End Rejections.

(** ** Pagination *)

Module Pagination.
Import Py Exc Platform Http Cosmos Utils Auth Handlers Functions Runs
  Listings.

Section WithRuntime.
Context `{Runtime}.

Lemma param_int_default (req : HttpRequest) (name : string) (dflt : Z) :
  params req !! name = None -> param_int req name dflt = Ok dflt.
Proof. intros E. unfold param_int. now rewrite E. Qed.

Lemma posts_pagination_served (req : HttpRequest) (limit offset : Z) :
  param_int req "limit" 10 = Ok limit ->
  param_int req "offset" 0 = Ok offset ->
  posts_pagination req = Some (Z.max (Z.min limit 100) 1, Z.max offset 0).
Proof. intros L O. unfold posts_pagination. now rewrite L, O. Qed.

Lemma posts_pagination_bounds (req : HttpRequest) (limit offset : Z) :
  posts_pagination req = Some (limit, offset) ->
  1 <= limit <= 100 /\ 0 <= offset.
Proof.
  unfold posts_pagination.
  destruct (param_int req "limit" 10) as [l|]; [|discriminate].
  destruct (param_int req "offset" 0) as [o|]; [|discriminate].
  intros [= <- <-]. lia.
Qed.

Lemma get_posts_main_ok w req s r s' :
  get_posts_main w req s = (r, s') -> status_code r = 200 ->
  exists user_id payload limit offset posts,
    authenticate_request (env w) (now w) req = Ok (user_id, payload) /\
    posts_pagination req = Some (limit, offset) /\
    calls s'
    = (calls s ++
       [SdkQueryItems get_posts_query
          [("@user_id", user_id); ("@offset", PInt offset);
           ("@limit", PInt limit)]])%list /\
    body r = PList (List.map PDict posts).
Proof.
  unfold get_posts_main. intros R S.
  destruct (authenticate_request _ _ _) as [[user_id payload]|e];
    [|injection R as <- <-; discriminate].
  destruct (posts_pagination req) as [[limit offset]|];
    [|injection R as <- <-; discriminate].
  unfold get_posts, bind, record, ret, throw in R. cbv beta iota zeta in R.
  destruct (cosmos_query_items _ _) as [posts|e].
  - injection R as <- <-. exists user_id, payload, limit, offset, posts.
    repeat split; trivial.
  - destruct (is_CosmosHttpResponseError _); injection R as <- <-; discriminate.
Qed.

Lemma get_posts_main_run w req s user_id payload limit offset posts :
  authenticate_request (env w) (now w) req = Ok (user_id, payload) ->
  posts_pagination req = Some (limit, offset) ->
  cosmos_query_items get_posts_query
    [("@user_id", user_id); ("@offset", PInt offset); ("@limit", PInt limit)]
  = Ok posts ->
  get_posts_main w req s
  = (response 200 (PList (List.map PDict posts)),
     log_call (SdkQueryItems get_posts_query
                 [("@user_id", user_id); ("@offset", PInt offset);
                  ("@limit", PInt limit)]) s).
Proof.
  intros A P Q. unfold get_posts_main. rewrite A, P.
  unfold get_posts, bind, record, ret. cbv beta iota zeta. now rewrite Q.
Qed.

(** *** What a query reads *)

Lemma items_of_query (parameters : list (string * pyval))
  (pre items : container) :
  List.map (body_at (pre ++ items)%list)
    (matching_from parameters (List.length pre) items)
  = List.filter (item_matches parameters) (stored items).
Proof.
  revert pre. induction items as [|[k b] items IH]; intros pre; [reflexivity|].
  assert (Step : List.map (body_at (pre ++ (k, b) :: items)%list)
                   (matching_from parameters (S (List.length pre)) items)
                 = List.filter (item_matches parameters) (stored items)).
  { rewrite <- (IH (pre ++ [(k, b)])%list).
    rewrite <- app_assoc, length_app, Nat.add_1_r. reflexivity. }
  simpl. destruct (item_matches parameters b); [|exact Step].
  simpl. rewrite Step. f_equal.
  unfold body_at. now rewrite nth_error_app2, Nat.sub_diag by lia.
Qed.

Lemma items_read_query (c : cname) (parameters : list (string * pyval))
  (s : Store) :
  List.map (body_at (get_container c s))
    (matching_from parameters O (get_container c s))
  = List.filter (item_matches parameters) (stored (get_container c s)).
Proof. exact (items_of_query parameters [] (get_container c s)). Qed.

Lemma filter_all {A : Type} (l : list A) : List.filter (fun _ => true) l = l.
Proof. induction l as [|x l IH]; simpl; congruence. Qed.

(** *** Sorting by a key of numbers, or of strings *)

Lemma plain_lt_asym (a b : pyval) : plain_lt a b = true -> plain_lt b a = false.
Proof.
  unfold plain_lt.
  destruct (as_number a) as [x|] eqn:A, (as_number b) as [y|] eqn:B.
  - intros L. apply Z.ltb_lt in L. apply Z.ltb_ge. lia.
  - destruct a, b; easy.
  - destruct a, b; easy.
  - destruct a as [| | |s| |], b as [| | |t| |]; try easy.
    unfold String.ltb. rewrite (String.compare_antisym t s).
    now destruct (String.compare s t).
Qed.

Lemma insert_desc_perm key x l : Permutation (x :: l) (insert_desc key x l).
Proof.
  induction l as [|y l IH]; simpl; [reflexivity|].
  destruct (plain_lt (key x) (key y)); [|reflexivity].
  rewrite perm_swap. now constructor.
Qed.

Lemma sort_desc_perm key l : Permutation l (sort_desc key l).
Proof.
  induction l as [|x l IH]; simpl; [constructor|].
  rewrite <- insert_desc_perm. now constructor.
Qed.

Lemma insert_desc_head key x l a :
  HdRel (not_below key) a l -> not_below key a x ->
  HdRel (not_below key) a (insert_desc key x l).
Proof.
  intros Hl Hx. destruct l as [|y l]; simpl; [now constructor|].
  destruct (plain_lt (key x) (key y)); constructor; trivial.
  now inversion Hl.
Qed.

Lemma insert_desc_sorted key x l :
  Sorted (not_below key) l -> Sorted (not_below key) (insert_desc key x l).
Proof.
  induction 1 as [|y l S IH Hd]; simpl; [repeat constructor|].
  destruct (plain_lt (key x) (key y)) eqn:L.
  - constructor; [exact IH|]. apply insert_desc_head; [exact Hd|].
    now apply plain_lt_asym.
  - constructor; [now constructor|]. now constructor.
Qed.

Lemma sort_desc_sorted key l : Sorted (not_below key) (sort_desc key l).
Proof.
  induction l as [|x l IH]; simpl; [constructor|].
  now apply insert_desc_sorted.
Qed.

(** With keys that are all numbers, or all strings, the sorted list holds
    the same problems, none of them before one with a greater key. *)
Lemma py_sorted_desc_total key l :
  plain_keys (List.map key l) = true ->
  exists items,
    py_sorted_desc key l = Ok items /\
    Permutation l items /\ Sorted (not_below key) items.
Proof.
  intros P. unfold py_sorted_desc.
  destruct l as [|x [|y l]].
  - eexists. split; [reflexivity|]. split; constructor.
  - eexists. split; [reflexivity|]. split; [reflexivity|repeat constructor].
  - rewrite P. eexists. split; [reflexivity|].
    split; [apply (sort_desc_perm key (x :: y :: l))
           |apply (sort_desc_sorted key (x :: y :: l))].
Qed.

(** *** The problem listings *)

Lemma get_problems_ok w req s r s' :
  get_problems w req s = (r, s') -> status_code r = 200 ->
  exists budget_min budget_max limit offset priced items,
    param_int req "budgetMin" 0 = Ok budget_min /\
    param_int req "budgetMax" 999999 = Ok budget_max /\
    param_int req "limit" 100 = Ok limit /\
    param_int req "offset" 0 = Ok offset /\
    filter_budget budget_min budget_max (stored (problems s)) = Ok priced /\
    py_sorted_desc (problems_key (param_str req "sortBy" "upvotes"))
      (in_category (param_str req "category" "all") priced) = Ok items /\
    body r = listing items limit offset /\
    s' = log_call (QueryItems Problems []) s.
Proof.
  unfold get_problems. run_goal.
  destruct (param_int req "budgetMin" 0) as [budget_min|];
    [|intros [= <- <-]; discriminate].
  destruct (param_int req "budgetMax" 999999) as [budget_max|];
    [|intros [= <- <-]; discriminate].
  destruct (param_int req "limit" 100) as [limit|];
    [|intros [= <- <-]; discriminate].
  destruct (param_int req "offset" 0) as [offset|];
    [|intros [= <- <-]; discriminate].
  run_goal.
  pose proof (items_read_query Problems [] s) as Q.
  cbn [get_container] in Q. rewrite Q. clear Q.
  change (item_matches []) with (fun _ : pydict => true). rewrite filter_all.
  destruct (filter_budget _ _ _) as [priced|] eqn:F;
    [|intros [= <- <-]; discriminate].
  cbv beta iota.
  match goal with
  | |- context [if String.eqb ?sb "newest" then py_sorted_desc _ ?l else _] =>
      replace (if String.eqb sb "newest" then py_sorted_desc by_created_at l
               else if String.eqb sb "budget"
                    then py_sorted_desc by_budget_value l
                    else py_sorted_desc by_upvotes l)
        with (py_sorted_desc (problems_key sb) l)
        by (unfold problems_key;
            now destruct (String.eqb sb "newest"), (String.eqb sb "budget"))
  end.
  match goal with
  | |- context [py_sorted_desc _ ?l] =>
      replace l with (in_category (param_str req "category" "all") priced)
        by (unfold in_category;
            now destruct (String.eqb (param_str req "category" "all") "all"))
  end.
  destruct (py_sorted_desc _ _) as [items|] eqn:So;
    [|intros [= <- <-]; discriminate].
  intros [= <- <-] _.
  exists budget_min, budget_max, limit, offset, priced, items.
  repeat split; try reflexivity; assumption.
Qed.

Lemma get_user_problems_ok w req s r s' :
  get_user_problems w req s = (r, s') -> status_code r = 200 ->
  exists limit offset items,
    truthy (get_authenticated_user_id (env w) (now w) req) = true /\
    param_int req "limit" 100 = Ok limit /\
    param_int req "offset" 0 = Ok offset /\
    py_sorted_desc (user_problems_key (param_str req "sortBy" "newest"))
      (List.filter
         (item_matches
            [("@authorId", get_authenticated_user_id (env w) (now w) req)])
         (stored (problems s))) = Ok items /\
    body r = listing items limit offset /\
    s' = log_call
           (QueryItems Problems
              [("@authorId", get_authenticated_user_id (env w) (now w) req)]) s.
Proof.
  unfold get_user_problems. run_goal.
  destruct (truthy (get_authenticated_user_id (env w) (now w) req)) eqn:T;
    run_goal; [|intros [= <- <-]; discriminate].
  destruct (param_int req "limit" 100) as [limit|];
    [|intros [= <- <-]; discriminate].
  destruct (param_int req "offset" 0) as [offset|];
    [|intros [= <- <-]; discriminate].
  run_goal.
  pose proof (items_read_query Problems
                [("@authorId", get_authenticated_user_id (env w) (now w) req)] s)
    as Q.
  cbn [get_container] in Q. rewrite Q. clear Q.
  match goal with
  | |- context [if String.eqb ?sb "upvotes" then py_sorted_desc _ ?l else _] =>
      replace (if String.eqb sb "upvotes" then py_sorted_desc by_upvotes l
               else if String.eqb sb "budget"
                    then py_sorted_desc by_budget_value l
                    else py_sorted_desc by_created_at l)
        with (py_sorted_desc (user_problems_key sb) l)
        by (unfold user_problems_key;
            now destruct (String.eqb sb "upvotes"), (String.eqb sb "budget"))
  end.
  destruct (py_sorted_desc _ _) as [items|] eqn:So;
    [|intros [= <- <-]; discriminate].
  intros [= <- <-] _.
  exists limit, offset, items. repeat split; try reflexivity; assumption.
Qed.

Lemma get_problems_run w req s budget_min budget_max limit offset priced items :
  param_int req "budgetMin" 0 = Ok budget_min ->
  param_int req "budgetMax" 999999 = Ok budget_max ->
  param_int req "limit" 100 = Ok limit ->
  param_int req "offset" 0 = Ok offset ->
  filter_budget budget_min budget_max (stored (problems s)) = Ok priced ->
  py_sorted_desc (problems_key (param_str req "sortBy" "upvotes"))
    (in_category (param_str req "category" "all") priced) = Ok items ->
  get_problems w req s
  = (response 200 (listing items limit offset),
     log_call (QueryItems Problems []) s).
Proof.
  intros B1 B2 L O F So. unfold get_problems. run_goal.
  rewrite B1, B2, L, O. run_goal.
  pose proof (items_read_query Problems [] s) as Q.
  cbn [get_container] in Q. rewrite Q. clear Q.
  change (item_matches []) with (fun _ : pydict => true). rewrite filter_all.
  rewrite F. cbv beta iota.
  match goal with
  | |- context [if String.eqb ?sb "newest" then py_sorted_desc _ ?l else _] =>
      replace (if String.eqb sb "newest" then py_sorted_desc by_created_at l
               else if String.eqb sb "budget"
                    then py_sorted_desc by_budget_value l
                    else py_sorted_desc by_upvotes l)
        with (py_sorted_desc (problems_key sb) l)
        by (unfold problems_key;
            now destruct (String.eqb sb "newest"), (String.eqb sb "budget"))
  end.
  match goal with
  | |- context [py_sorted_desc _ ?l] =>
      replace l with (in_category (param_str req "category" "all") priced)
        by (unfold in_category;
            now destruct (String.eqb (param_str req "category" "all") "all"))
  end.
  now rewrite So.
Qed.

Lemma get_user_problems_run w req s limit offset items :
  truthy (get_authenticated_user_id (env w) (now w) req) = true ->
  param_int req "limit" 100 = Ok limit ->
  param_int req "offset" 0 = Ok offset ->
  py_sorted_desc (user_problems_key (param_str req "sortBy" "newest"))
    (List.filter
       (item_matches
          [("@authorId", get_authenticated_user_id (env w) (now w) req)])
       (stored (problems s))) = Ok items ->
  get_user_problems w req s
  = (response 200 (listing items limit offset),
     log_call
       (QueryItems Problems
          [("@authorId", get_authenticated_user_id (env w) (now w) req)]) s).
Proof.
  intros T L O So. unfold get_user_problems. run_goal. rewrite T. run_goal.
  rewrite L, O. run_goal.
  pose proof (items_read_query Problems
                [("@authorId", get_authenticated_user_id (env w) (now w) req)] s)
    as Q.
  cbn [get_container] in Q. rewrite Q. clear Q.
  match goal with
  | |- context [if String.eqb ?sb "upvotes" then py_sorted_desc _ ?l else _] =>
      replace (if String.eqb sb "upvotes" then py_sorted_desc by_upvotes l
               else if String.eqb sb "budget"
                    then py_sorted_desc by_budget_value l
                    else py_sorted_desc by_created_at l)
        with (py_sorted_desc (user_problems_key sb) l)
        by (unfold user_problems_key;
            now destruct (String.eqb sb "upvotes"), (String.eqb sb "budget"))
  end.
  now rewrite So.
Qed.

(** C9, as the code has it.  The posts listing serves [limit] with default
    10 clamped to [1, 100] and [offset] with default 0 clamped to at least
    0 -- 0 is served as 1, 1000 as 100, -5 as 0 -- and answers with the
    bare list of posts the service returns for the caller and the page.
    The problem listings take [limit] with default 100 and [offset] with
    default 0 as they are given, without clamping.  [get_problems] reads
    every stored problem, keeps those whose budget value is between
    [budgetMin] and [budgetMax] and, unless the category is [all], those
    of the category, and sorts them by decreasing upvotes, creation time
    or budget value; [get_user_problems] reads the problems the store
    finds for the caller as author and sorts them likewise.  Whenever the
    parameters are integers and the comparisons succeed, both answer 200
    with the page sliced from the sorted list as Python slices, [total]
    (the length of the sorted list, before it is sliced), [limit] and
    [offset], after the one query; and they answer 200 in no other case.
    Keys that are all numbers, or all strings, are always sorted: the
    sorted list holds the same problems, each followed only by problems
    whose key is not greater. *)
Theorem C9_pagination (w : World) (req : HttpRequest) (s : Store) :
  (forall limit offset,
     param_int req "limit" 10 = Ok limit ->
     param_int req "offset" 0 = Ok offset ->
     posts_pagination req = Some (Z.max (Z.min limit 100) 1, Z.max offset 0) /\
     1 <= Z.max (Z.min limit 100) 1 <= 100 /\ 0 <= Z.max offset 0 /\
     (limit = 0 -> Z.max (Z.min limit 100) 1 = 1) /\
     (limit = 1000 -> Z.max (Z.min limit 100) 1 = 100) /\
     (offset = -5 -> Z.max offset 0 = 0)) /\
  (params req !! "limit" = None -> param_int req "limit" 10 = Ok 10) /\
  (params req !! "offset" = None -> param_int req "offset" 0 = Ok 0) /\
  (forall user_id payload limit offset posts,
     authenticate_request (env w) (now w) req = Ok (user_id, payload) ->
     posts_pagination req = Some (limit, offset) ->
     cosmos_query_items get_posts_query
       [("@user_id", user_id); ("@offset", PInt offset); ("@limit", PInt limit)]
     = Ok posts ->
     get_posts_main w req s
     = (response 200 (PList (List.map PDict posts)),
        log_call (SdkQueryItems get_posts_query
                    [("@user_id", user_id); ("@offset", PInt offset);
                     ("@limit", PInt limit)]) s)) /\
  (forall r s',
     get_posts_main w req s = (r, s') -> status_code r = 200 ->
     exists user_id payload limit offset posts,
       authenticate_request (env w) (now w) req = Ok (user_id, payload) /\
       posts_pagination req = Some (limit, offset) /\
       calls s'
       = (calls s ++
          [SdkQueryItems get_posts_query
             [("@user_id", user_id); ("@offset", PInt offset);
              ("@limit", PInt limit)]])%list /\
       body r = PList (List.map PDict posts)) /\
  (forall budget_min budget_max limit offset priced items,
     param_int req "budgetMin" 0 = Ok budget_min ->
     param_int req "budgetMax" 999999 = Ok budget_max ->
     param_int req "limit" 100 = Ok limit ->
     param_int req "offset" 0 = Ok offset ->
     filter_budget budget_min budget_max (stored (problems s)) = Ok priced ->
     py_sorted_desc (problems_key (param_str req "sortBy" "upvotes"))
       (in_category (param_str req "category" "all") priced) = Ok items ->
     get_problems w req s
     = (response 200 (listing items limit offset),
        log_call (QueryItems Problems []) s)) /\
  (forall r s',
     get_problems w req s = (r, s') -> status_code r = 200 ->
     exists budget_min budget_max limit offset priced items,
       param_int req "budgetMin" 0 = Ok budget_min /\
       param_int req "budgetMax" 999999 = Ok budget_max /\
       param_int req "limit" 100 = Ok limit /\
       param_int req "offset" 0 = Ok offset /\
       filter_budget budget_min budget_max (stored (problems s)) = Ok priced /\
       py_sorted_desc (problems_key (param_str req "sortBy" "upvotes"))
         (in_category (param_str req "category" "all") priced) = Ok items /\
       body r =
       PDict [("problems",
               PList (List.map PDict (slice items offset (offset + limit))));
              ("total", PInt (Z.of_nat (List.length items)));
              ("limit", PInt limit);
              ("offset", PInt offset)] /\
       s' = log_call (QueryItems Problems []) s) /\
  (forall limit offset items,
     truthy (get_authenticated_user_id (env w) (now w) req) = true ->
     param_int req "limit" 100 = Ok limit ->
     param_int req "offset" 0 = Ok offset ->
     py_sorted_desc (user_problems_key (param_str req "sortBy" "newest"))
       (List.filter
          (item_matches
             [("@authorId", get_authenticated_user_id (env w) (now w) req)])
          (stored (problems s))) = Ok items ->
     get_user_problems w req s
     = (response 200 (listing items limit offset),
        log_call
          (QueryItems Problems
             [("@authorId", get_authenticated_user_id (env w) (now w) req)])
          s)) /\
  (forall r s',
     get_user_problems w req s = (r, s') -> status_code r = 200 ->
     exists limit offset items,
       truthy (get_authenticated_user_id (env w) (now w) req) = true /\
       param_int req "limit" 100 = Ok limit /\
       param_int req "offset" 0 = Ok offset /\
       py_sorted_desc (user_problems_key (param_str req "sortBy" "newest"))
         (List.filter
            (item_matches
               [("@authorId", get_authenticated_user_id (env w) (now w) req)])
            (stored (problems s))) = Ok items /\
       body r =
       PDict [("problems",
               PList (List.map PDict (slice items offset (offset + limit))));
              ("total", PInt (Z.of_nat (List.length items)));
              ("limit", PInt limit);
              ("offset", PInt offset)] /\
       s' = log_call
              (QueryItems Problems
                 [("@authorId", get_authenticated_user_id (env w) (now w) req)])
              s) /\
  (forall key l,
     plain_keys (List.map key l) = true ->
     exists items,
       py_sorted_desc key l = Ok items /\
       Permutation l items /\ Sorted (not_below key) items).
Proof.
  split; [|split; [|split; [|split; [|split; [|split; [|split; [|split;
    [|split]]]]]]]].
  - intros limit offset L O. split; [now apply posts_pagination_served|]. lia.
  - apply param_int_default.
  - apply param_int_default.
  - apply get_posts_main_run.
  - apply get_posts_main_ok.
  - apply get_problems_run.
  - apply get_problems_ok.
  - apply get_user_problems_run.
  - apply get_user_problems_ok.
  - apply py_sorted_desc_total.
Qed.

End WithRuntime.
End Pagination.

(** * Runs on the concrete platforms *)

Module Examples.
Import Py Exc Platform Http Cosmos Utils Auth Handlers Functions Probe
  Invariants.

#[local] Existing Instance table_runtime.

(** A validly signed, unexpired token is accepted and its subject returned. *)
Lemma C1_witness :
  @authenticate_request table_runtime process_env 1000
    (as_caller "good" "GET" [] [] None)
  = Ok (PStr "U1", [("sub", PStr "U1"); ("exp", PInt 2000)]).
Proof.
  refine (proj2 (proj1 (proj2
    (@AuthFacts.C1_authenticate_returns_subject table_runtime process_env 1000
       (as_caller "good" "GET" [] [] None) "good" "s3cret"
       (signed "good" hs256_header [("sub", PStr "U1"); ("exp", PInt 2000)])
       [("sub", PStr "U1"); ("exp", PInt 2000)]
       _ _ _ _ _ _ _ _ _ _ _ _ _)) "U1" _ _));
    try (vm_compute; reflexivity); discriminate.
Defined.

(** A token that is well-formed, signed with the configured secret,
    unexpired and carries a subject claim -- the empty string -- is decoded
    and then refused by the guard of [get_user_id_from_token]. *)
Lemma C1_counterexample :
  extract_token (as_caller "emptysub" "GET" [] [] None) = Ok "emptysub" /\
  @jws_load table_runtime "emptysub"
  = inr (signed "emptysub" hs256_header [("sub", PStr ""); ("exp", PInt 2000)]) /\
  @sig_verify table_runtime "HS256" "s3cret" "emptysub" (mac "s3cret" "emptysub")
  = Some true /\
  @validate_jwt table_runtime process_env 1000 "emptysub"
  = Ok [("sub", PStr ""); ("exp", PInt 2000)] /\
  dict_lookup [("sub", PStr ""); ("exp", PInt 2000)] "sub" = Some (PStr "") /\
  @authenticate_request table_runtime process_env 1000
    (as_caller "emptysub" "GET" [] [] None)
  = Raise (Exn AuthError "User ID not found in token payload").
Proof. repeat split; vm_compute; reflexivity. Qed.

(** A signed, unexpired token with a subject that names an audience is
    refused by the decoder, which is given no audience to expect. *)
Lemma audience_refused :
  @jws_load table_runtime "aud"
  = inr (signed "aud" hs256_header
           [("sub", PStr "U1"); ("exp", PInt 2000);
            ("aud", PStr "authenticated")]) /\
  @authenticate_request table_runtime process_env 1000
    (as_caller "aud" "GET" [] [] None)
  = Raise (Exn AuthError "Invalid token: Invalid audience").
Proof. split; vm_compute; reflexivity. Qed.

(** A signed, unexpired token whose subject is a number is refused by the
    decoder. *)
Lemma numeric_subject_refused :
  @jws_load table_runtime "numsub"
  = inr (signed "numsub" hs256_header [("sub", PInt 123); ("exp", PInt 2000)]) /\
  @authenticate_request table_runtime process_env 1000
    (as_caller "numsub" "GET" [] [] None)
  = Raise (Exn AuthError "Invalid token: Subject must be a string").
Proof. split; vm_compute; reflexivity. Qed.

(** A token whose header names RS256 is refused. *)
Lemma C2_witness :
  exists msg,
    @validate_jwt table_runtime process_env 1000 "rs256"
    = Raise (Exn AuthError msg).
Proof.
  apply (@AuthFacts.C2_only_hs256 table_runtime process_env 1000 "rs256").
  intros j E. vm_compute in E. injection E as <-. discriminate.
Defined.

(** The author of [p1] is A: B is refused with 403 and only the query is
    logged. *)
Lemma C3_witness :
  @delete_problem table_runtime world (delete_p1_as "tokB") store_p1
  = (response 403 (error_body "You can only delete your own problems"),
     log_call (QueryItems Problems [("@id", PStr "p1")]) store_p1).
Proof.
  pose proof (@Ownership.C3_owner_gated_mutations table_runtime world
                (delete_p1_as "tokB") store_p1) as T.
  cbv zeta in T.
  assert (U : truthy (@get_authenticated_user_id table_runtime (env world)
                        (now world) (delete_p1_as "tokB")) = true)
    by (vm_compute; reflexivity).
  destruct (T U) as (_ & Forbidden & _).
  refine (proj1 (Forbidden O [] _ _)); vm_compute; reflexivity.
Defined.

(** The wallet [w1] exists and belongs to A; B's delete is answered 404,
    not 403. *)
Lemma C3_counterexample :
  wallets store_p1
  = [[("id", PStr "w1"); ("user_id", PStr "A"); ("chain", PStr "solana")]] /\
  @get_authenticated_user_id table_runtime (env world) (now world)
    (delete_w1_as "tokB") = PStr "B" /\
  @wallet_by_id table_runtime world (delete_w1_as "tokB") store_p1
  = (response 404 (error_body "Wallet not found or access denied"),
     log_call (WalletsSelect [("id", PStr "w1"); ("user_id", PStr "B")])
       store_p1).
Proof. repeat split; vm_compute; reflexivity. Qed.

(** An update whose body is not JSON is answered 400 although no problem
    has the id, and nothing is looked up. *)
Lemma update_without_json :
  @update_problem table_runtime world
    (as_caller "tokA" "PUT" [] [("id", "nope")] None) store_p1
  = (response 400 (error_body "Invalid JSON"), store_p1).
Proof. vm_compute. reflexivity. Qed.

(** The author's update with a description that is not a string ends with
    500 after the stored title was changed. *)
Lemma update_ill_typed :
  @update_problem table_runtime world
    (as_caller "tokA" "PUT" [] [("id", "p1")]
       (Some (PDict [("title", PStr "New"); ("description", PInt 5)])))
    store_p1
  = (response 500 (error_details "Failed to update problem" "fault"),
     {| problems :=
          [(PStr "p1",
            [("id", PStr "p1"); ("title", PStr "New"); ("authorId", PStr "A");
             ("budgetValue", PInt 50); ("upvotes", PInt 0);
             ("createdAt", PStr "t0")])];
        proposals := []; upvotes := []; tips := [];
        wallets := wallets store_p1;
        calls := [QueryItems Problems [("@id", PStr "p1")]] |}).
Proof. vm_compute. reflexivity. Qed.

(** The author's update of the title and the budget. *)
Lemma owner_updates :
  @update_problem table_runtime world
    (as_caller "tokA" "PUT" [] [("id", "p1")]
       (Some (PDict [("title", PStr " Fast builds ");
                     ("budget", PStr "$75/month")])))
    store_p1
  = (response 200
       (PDict [("id", PStr "p1"); ("title", PStr "Fast builds");
               ("authorId", PStr "A"); ("budgetValue", PInt 75);
               ("upvotes", PInt 0); ("createdAt", PStr "t0");
               ("budget", PStr "$75/month"); ("updatedAt", PStr "t0")]),
     {| problems :=
          [(PStr "p1",
            [("id", PStr "p1"); ("title", PStr "Fast builds");
             ("authorId", PStr "A"); ("budgetValue", PInt 75);
             ("upvotes", PInt 0); ("createdAt", PStr "t0");
             ("budget", PStr "$75/month"); ("updatedAt", PStr "t0")])];
        proposals := []; upvotes := []; tips := [];
        wallets := wallets store_p1;
        calls := [QueryItems Problems [("@id", PStr "p1")];
                  ReplaceItem Problems (PStr "p1")] |}).
Proof. vm_compute. reflexivity. Qed.

(** An expired token at the posts listing. *)
Lemma C4_witness :
  @get_posts_main table_runtime world (list_posts_as "expired" []) store_p1
  = (response 401 (error_body "Token has expired"), store_p1).
Proof.
  refine (proj2 (proj1 (proj2
    (@Rejections.C4_expired_token table_runtime world
       (list_posts_as "expired" []) store_p1 "expired" "s3cret"
       (signed "expired" hs256_header [("sub", PStr "U1"); ("exp", PInt 900)])
       [("sub", PStr "U1"); ("exp", PInt 900)]
       _ _ _ _ _ _ _ _ _ _)) _));
    try (vm_compute; reflexivity). discriminate.
Defined.

(** An expired token with a valid signature: the verifier says so, and the
    upvote endpoint answers 401 with "Authentication required". *)
Lemma C4_counterexample :
  @jws_load table_runtime "expired"
  = inr (signed "expired" hs256_header [("sub", PStr "U1"); ("exp", PInt 900)]) /\
  @sig_verify table_runtime "HS256" "s3cret" "expired" (mac "s3cret" "expired")
  = Some true /\
  @validate_jwt table_runtime process_env 1000 "expired"
  = Raise (Exn AuthError "Token has expired") /\
  @upvote_problem table_runtime world
    (as_caller "expired" "POST" [] [("id", "p1")] None) store_p1
  = (response 401 (error_body "Authentication required"), store_p1).
Proof. repeat split; vm_compute; reflexivity. Qed.

(** An expired token with a forged signature is refused for its signature:
    the decoder checks the signature before it reads the claims. *)
Lemma expired_forged_refused :
  @jws_load table_runtime "expired-forged"
  = inr (forged "expired-forged" hs256_header
           [("sub", PStr "U1"); ("exp", PInt 900)]) /\
  @validate_jwt table_runtime process_env 1000 "expired-forged"
  = Raise (Exn AuthError "Invalid token: Signature verification failed").
Proof. split; vm_compute; reflexivity. Qed.

(** "Bearer good" has the two-token shape. *)
Lemma C5_witness : extract_token (with_header "Bearer good") = Ok "good".
Proof.
  destruct (@AuthFacts.C5_extract_token table_runtime
              (with_header "Bearer good"))
    as (_ & Shape & _).
  destruct (Shape "Bearer good") as [Iff _];
    [vm_compute; reflexivity | discriminate |].
  apply Iff. exists "Bearer". split; [|vm_compute; reflexivity].
  exists [], ["B"; "e"; "a"; "r"; "e"; "r"], [" "], ["g"; "o"; "o"; "d"], [].
  repeat split; try reflexivity; discriminate.
Defined.

(** The no-break space U+00A0, encoded C2 A0, separates the two tokens as
    well as a space does. *)
Lemma no_break_space_separates :
  extract_token
    (with_header
       ("Bearer" ++ String (ascii_of_nat 194) (String (ascii_of_nat 160) "good")))
  = Ok "good".
Proof. vm_compute. reflexivity. Qed.

(** An empty header is present and raises the missing-header error; and
    [get_authenticated_user_id] passes "a b" on from a header of three
    tokens, and refuses a lower-case scheme that [extract_token] accepts. *)
Lemma C5_counterexample :
  headers_get (with_header "") "Authorization" = Some "" /\
  extract_token (with_header "")
  = Raise (Exn AuthError "Missing Authorization header") /\
  extract_token (with_header "Bearer a b")
  = Raise (Exn AuthError
             "Invalid Authorization header format. Expected 'Bearer <token>'") /\
  @get_authenticated_user_id echo_runtime process_env 1000
    (with_header "Bearer a b") = PStr "a b" /\
  extract_token (with_header "bearer tok") = Ok "tok" /\
  @get_authenticated_user_id echo_runtime process_env 1000
    (with_header "bearer tok") = PNone.
Proof. repeat split; vm_compute; reflexivity. Qed.

(** A body that is not JSON: 400, and the store is as it was. *)
Lemma C6_witness :
  @create_problem table_runtime world create_without_json store_p1
  = (response 400 (error_body "Invalid JSON"), store_p1).
Proof.
  refine (proj1 (proj1 (proj2 (proj2 (proj2
    (@HandlerFacts.C6_rejected_requests_leave_the_store table_runtime
       world create_without_json store_p1)))) _) "Invalid JSON" _).
  - vm_compute. reflexivity.
  - apply Refusals.problem_not_json. reflexivity.
Defined.

(** The comments endpoint answers a request without [problemId] 400 after
    two calls to the store. *)
Lemma C6_counterexample :
  @comments_main table_runtime world (as_caller "good" "GET" [] [] None)
    empty_store
  = (Ok (response 400 (error_body "Missing problemId")),
     {| problems := []; proposals := []; upvotes := []; tips := [];
        wallets := [];
        calls := [CreateDatabaseIfNotExists "ProblemHuntDB";
                  CreateContainerIfNotExists "Comments"] |}).
Proof. vm_compute. reflexivity. Qed.

(** Without the secret, a request with a good token is answered 401. *)
Lemma C7_witness :
  @get_posts_main table_runtime world_without_secret (list_posts_as "good" [])
    store_p1
  = (response 401 (error_body Rejections.no_secret_message), store_p1).
Proof.
  refine (proj2 (proj1
    (@Rejections.C7_missing_secret table_runtime world_without_secret
       (list_posts_as "good" []) store_p1 _) "good" _));
    vm_compute; reflexivity.
Defined.

(** The missing secret and a forged token end the same way: an [AuthError]
    of the request, answered 401. *)
Lemma C7_counterexample :
  getenv (env world_without_secret) "SUPABASE_JWT_SECRET" = None /\
  exn_class_of
    match @authenticate_request table_runtime (env world_without_secret) 1000
            (list_posts_as "good" []) with
    | Raise e => e
    | Ok _ => Exn ValueError ""
    end = AuthError /\
  exn_class_of
    match @authenticate_request table_runtime process_env 1000
            (list_posts_as "expired-forged" []) with
    | Raise e => e
    | Ok _ => Exn ValueError ""
    end = AuthError /\
  status_code
    (fst (@get_posts_main table_runtime world_without_secret
            (list_posts_as "good" []) store_p1)) = 401 /\
  status_code
    (fst (@get_posts_main table_runtime world
            (list_posts_as "expired-forged" []) store_p1)) = 401.
Proof. repeat split; vm_compute; reflexivity. Qed.


(** limit=0 and offset=-5 at the posts listing are served as 1 and 0. *)
Lemma C9_witness :
  @posts_pagination table_runtime
    (list_posts_as "good" [("limit", "0"); ("offset", "-5")])
  = Some (1, 0).
Proof.
  apply (proj1 (@Pagination.C9_pagination table_runtime world
                  (list_posts_as "good" [("limit", "0"); ("offset", "-5")])
                  store_p1) 0 (-5));
    vm_compute; reflexivity.
Defined.

(** The problems listing serves limit=0 as an empty page, limit=1000 and
    offset=-5 as given, and 100 when no limit is given. *)
Lemma C9_counterexample :
  body (fst (@get_problems table_runtime world
               (request "GET" [] [("limit", "0")] [] None) store_p1))
  = PDict [("problems", PList []); ("total", PInt 1); ("limit", PInt 0);
           ("offset", PInt 0)] /\
  body (fst (@get_problems table_runtime world
               (request "GET" [] [("limit", "1000"); ("offset", "-5")] [] None)
               store_p1))
  = PDict [("problems", PList [PDict problem_p1]); ("total", PInt 1);
           ("limit", PInt 1000); ("offset", PInt (-5))] /\
  body (fst (@get_problems table_runtime world (request "GET" [] [] [] None)
               store_p1))
  = PDict [("problems", PList [PDict problem_p1]); ("total", PInt 1);
           ("limit", PInt 100); ("offset", PInt 0)] /\
  body (fst (@get_posts_main table_runtime world (list_posts_as "good" [])
               store_p1))
  = PList [].
Proof. repeat split; vm_compute; reflexivity. Qed.


End Examples.
